(** * The To-Do engine of the real-estate dashboard

    A shallow embedding of [TodoManager] (google_drive_module.py): task
    derivation from the APARTMENTS / MO_DATA / UT_DATA sheets, reconciliation
    with the previous list, manual insertion, trash and restore, and the
    ordering of the active list.

    Conventions of the embedding:
    - a sheet cell, a header and every task field is a byte string; only
      ASCII letters, digits and blanks get the special treatment of
      [str.upper], [str.strip] and [datetime.strptime];
    - a [datetime.date] is its proleptic Gregorian ordinal
      ([date.toordinal()]), so that [timedelta] arithmetic and comparisons
      are those of [Z].  The program raises [OverflowError] when this
      arithmetic leaves [date.min .. date.max]; in [generate_list] this
      takes a window that starts less than 9 days after [date.min] or ends
      less than 5 days before [date.max] ([due_date - timedelta(days=9)],
      [due_date + timedelta(days=5)] and the step of the day loop).
      [generate_list] is the embedding of the calls whose window lies
      inside these bounds, [Datetime.date_min + 9 <= start_date] and
      [end_date + 5 <= Datetime.date_max]; [Overflow.generate_list] is the
      call with the bounds, and the two agree inside them (lemma
      [generate_list_in_bounds]);
    - a Python [dict] whose iteration order is observed is an
      insertion-ordered association list ([Py.dict]); the dicts that are only
      looked up are [gmap]s;
    - the iteration order of a Python [set] of dates depends on the hash
      seed of the process: it is a parameter, [set_order];
    - persistence ([save_list_to_drive]) is an external collaborator and
      leaves the in-memory lists untouched: it does not appear. *)

From Stdlib Require Import ZArith List Ascii String Bool Lia Permutation Sorted.
From stdpp Require Import gmap strings.
Import ListNotations.

Local Open Scope string_scope.
Local Open Scope Z_scope.

(** ** Python builtins used by the program *)

Module Py.

(** [str.isspace] on one ASCII character. *)
Definition is_space (c : ascii) : bool :=
  let n := Z.of_nat (nat_of_ascii c) in
  ((9 <=? n) && (n <=? 13)) || ((28 <=? n) && (n <=? 32)).

Fixpoint lstrip (s : string) : string :=
  match s with
  | String c rest => if is_space c then lstrip rest else s
  | EmptyString => EmptyString
  end.

Fixpoint rstrip (s : string) : string :=
  match s with
  | String c rest =>
      match rstrip rest with
      | EmptyString => if is_space c then EmptyString else String c EmptyString
      | r => String c r
      end
  | EmptyString => EmptyString
  end.

(** [s.strip()] *)
Definition strip (s : string) : string := rstrip (lstrip s).

Definition upper_char (c : ascii) : ascii :=
  let n := nat_of_ascii c in
  if ((97 <=? n) && (n <=? 122))%nat then ascii_of_nat (n - 32) else c.

(** [s.upper()] *)
Fixpoint upper (s : string) : string :=
  match s with
  | String c rest => String (upper_char c) (upper rest)
  | EmptyString => EmptyString
  end.

(** [sub in s] on strings. *)
Fixpoint contains (sub s : string) : bool :=
  String.prefix sub s ||
  match s with
  | String _ rest => contains sub rest
  | EmptyString => false
  end.

(** Truth value of a string, and of an optional string ([None] is false). *)
Definition truthy (s : string) : bool := negb (s =? "")%string.

Definition truthy_opt (o : option string) : bool :=
  match o with Some s => truthy s | None => false end.

(** [o or ''] *)
Definition or_empty (o : option string) : string :=
  match o with
  | Some s => if truthy s then s else ""
  | None => ""
  end.

(** [l.index(x)]: the first position of [x], [None] for [ValueError]. *)
Fixpoint index (x : string) (l : list string) : option nat :=
  match l with
  | [] => None
  | y :: l' => if (y =? x)%string then Some O else option_map S (index x l')
  end.

(** [row[i]], [None] for [IndexError]. *)
Definition getitem {A} (l : list A) (i : nat) : option A := nth_error l i.

(** [list.sort(key=...)]: a stable sort; [lt] is the strict order of the
    keys.  With [reverse=True] Python keeps the original order of equal
    keys too, which is this sort with the order flipped.  An element goes
    in front of the sorted rest of the list, after the elements of strictly
    smaller key only. *)
Section Sort.
Context {A K : Type} (lt : K -> K -> bool) (key : A -> K).

Fixpoint insert (x : A) (l : list A) : list A :=
  match l with
  | [] => [x]
  | y :: l' => if lt (key y) (key x) then y :: insert x l' else x :: y :: l'
  end.

Fixpoint sort_by (l : list A) : list A :=
  match l with
  | [] => []
  | x :: l' => insert x (sort_by l')
  end.
End Sort.

(** An insertion-ordered [dict] with string keys. *)
Definition dict (V : Type) : Type := list (string * V).

Fixpoint dict_get {V} (k : string) (d : dict V) : option V :=
  match d with
  | [] => None
  | (k', v) :: d' => if (k' =? k)%string then Some v else dict_get k d'
  end.

(** [d[k] = v]: an existing key keeps its place, a new one goes last. *)
Fixpoint dict_set {V} (k : string) (v : V) (d : dict V) : dict V :=
  match d with
  | [] => [(k, v)]
  | (k', v') :: d' =>
      if (k' =? k)%string then (k, v) :: d' else (k', v') :: dict_set k v d'
  end.

(** [all(d.values())] *)
Definition all_values (d : dict bool) : bool := forallb snd d.

End Py.

(** ** [datetime.date] and [datetime.strptime] *)

Module Datetime.

Abbreviation date := Z (only parsing).

Definition is_leap (year : Z) : bool :=
  (year mod 4 =? 0) && (negb (year mod 100 =? 0) || (year mod 400 =? 0)).

Definition days_before_year (year : Z) : Z :=
  let y := year - 1 in y * 365 + y / 4 - y / 100 + y / 400.

Definition DAYS_IN_MONTH : list Z :=
  [-1; 31; 28; 31; 30; 31; 30; 31; 31; 30; 31; 30; 31].

Definition DAYS_BEFORE_MONTH : list Z :=
  [-1; 0; 31; 59; 90; 120; 151; 181; 212; 243; 273; 304; 334].

Definition days_in_month (year month : Z) : Z :=
  if (month =? 2) && is_leap year then 29
  else nth (Z.to_nat month) DAYS_IN_MONTH (-1).

Definition days_before_month (year month : Z) : Z :=
  nth (Z.to_nat month) DAYS_BEFORE_MONTH (-1)
  + (if (2 <? month) && is_leap year then 1 else 0).

Definition ymd2ord (year month day : Z) : date :=
  days_before_year year + days_before_month year month + day.

Definition ord2ymd (n : date) : Z * Z * Z :=
  let n := n - 1 in
  let n400 := n / 146097 in
  let n := n mod 146097 in
  let n100 := n / 36524 in
  let n := n mod 36524 in
  let n4 := n / 1461 in
  let n := n mod 1461 in
  let n1 := n / 365 in
  let n := n mod 365 in
  let year := n400 * 400 + 1 + n100 * 100 + n4 * 4 + n1 in
  if (n1 =? 4) || (n100 =? 4) then (year - 1, 12, 31)
  else
    let leapyear := (n1 =? 3) && (negb (n4 =? 24) || (n100 =? 3)) in
    let month := (n + 50) / 32 in
    let preceding :=
      nth (Z.to_nat month) DAYS_BEFORE_MONTH (-1)
      + (if (2 <? month) && leapyear then 1 else 0) in
    if n <? preceding then
      let month := month - 1 in
      let preceding :=
        preceding - (nth (Z.to_nat month) DAYS_IN_MONTH (-1)
                     + (if (month =? 2) && leapyear then 1 else 0)) in
      (year, month, n - preceding + 1)
    else (year, month, n - preceding + 1).

(** [date.min.toordinal()] and [date.max.toordinal()] *)
Definition date_min : date := ymd2ord 1 1 1.
Definition date_max : date := ymd2ord 9999 12 31.

(** [d.day] *)
Definition day (d : date) : Z := snd (ord2ymd d).

Definition digit_char (n : Z) : ascii := ascii_of_nat (48 + Z.to_nat (n mod 10)).

Definition pad2 (n : Z) : string :=
  String (digit_char (n / 10)) (String (digit_char n) "").

Definition pad4 (n : Z) : string :=
  String (digit_char (n / 1000)) (String (digit_char (n / 100)) (pad2 n)).

(** [d.isoformat()] *)
Definition isoformat (d : date) : string :=
  let '(y, m, dd) := ord2ymd d in
  pad4 y ++ "-" ++ pad2 m ++ "-" ++ pad2 dd.

Definition month_abbr (m : Z) : string :=
  nth (Z.to_nat m)
    [""; "Jan"; "Feb"; "Mar"; "Apr"; "May"; "Jun";
     "Jul"; "Aug"; "Sep"; "Oct"; "Nov"; "Dec"] "".

(** [d.strftime('%d-%b')] *)
Definition strftime_d_b (d : date) : string :=
  let '(_, m, dd) := ord2ymd d in pad2 dd ++ "-" ++ month_abbr m.

(** *** [strptime]: the format is turned into a regular expression, one
    group of ordered alternatives per directive, matched with
    backtracking from the start of the text; the whole text must be
    consumed, and the fields must pass the checks of the [datetime]
    constructor: a calendar date, and a second below 60 (the expression
    of [%S] lets 60 and 61 through; hours and minutes are bounded by
    their expressions). *)

Inductive directive : Type :=
| Dir_d | Dir_m | Dir_Y | Dir_H | Dir_M | Dir_S
| Spaces
| Lit (c : ascii).

Fixpoint compile (fmt : string) : option (list directive) :=
  match fmt with
  | EmptyString => Some []
  | String "%" (String c rest) =>
      match
        (if (c =? "d")%char then Some Dir_d
         else if (c =? "m")%char then Some Dir_m
         else if (c =? "Y")%char then Some Dir_Y
         else if (c =? "H")%char then Some Dir_H
         else if (c =? "M")%char then Some Dir_M
         else if (c =? "S")%char then Some Dir_S
         else None), compile rest
      with
      | Some d, Some ds => Some (d :: ds)
      | _, _ => None
      end
  | String c rest =>
      option_map (cons (if Py.is_space c then Spaces else Lit c)) (compile rest)
  end.

Definition digit_of (c : ascii) : option Z :=
  let n := Z.of_nat (nat_of_ascii c) in
  if (48 <=? n) && (n <=? 57) then Some (n - 48) else None.

Definition one_digit (s : string) : option (Z * string) :=
  match s with
  | String c rest => option_map (fun a => (a, rest)) (digit_of c)
  | EmptyString => None
  end.

Definition two_digits (s : string) : option (Z * Z * string) :=
  match one_digit s with
  | Some (a, rest) =>
      match one_digit rest with
      | Some (b, rest') => Some (a, b, rest')
      | None => None
      end
  | None => None
  end.

(** The alternatives [two | one] of a numeric group: [ok2 a b] admits the
    two-digit reading, [ok1 a] the one-digit reading. *)
Definition numeric (ok2 : Z -> Z -> bool) (ok1 : Z -> bool) (s : string)
  : list (Z * string) :=
  match two_digits s with
  | Some (a, b, rest) => if ok2 a b then [(10 * a + b, rest)] else []
  | None => []
  end ++
  match one_digit s with
  | Some (a, rest) => if ok1 a then [(a, rest)] else []
  | None => []
  end.

(** [\s+], longest first. *)
Fixpoint spaces (s : string) : list string :=
  match s with
  | String c rest => if Py.is_space c then spaces rest ++ [rest] else []
  | EmptyString => []
  end.

Record fields : Type := { f_year : Z; f_month : Z; f_day : Z; f_second : Z }.

(** The ways one directive can match at the head of [s], best first. *)
Definition alternatives (d : directive) (f : fields) (s : string)
  : list (fields * string) :=
  match d with
  | Dir_d =>
      (* 3[0-1]|[1-2]\d|0[1-9]|[1-9]| [1-9] *)
      map (fun '(v, r) => ({| f_year := f_year f; f_month := f_month f; f_day := v;
                              f_second := f_second f |}, r))
        (numeric (fun a b => ((a =? 3) && (b <=? 1)) || ((1 <=? a) && (a <=? 2))
                             || ((a =? 0) && (1 <=? b)))
                 (fun a => 1 <=? a) s
         ++ match s with
            | String " " rest =>
                match one_digit rest with
                | Some (a, r) => if 1 <=? a then [(a, r)] else []
                | None => []
                end
            | _ => []
            end)
  | Dir_m =>
      (* 1[0-2]|0[1-9]|[1-9] *)
      map (fun '(v, r) => ({| f_year := f_year f; f_month := v; f_day := f_day f;
                              f_second := f_second f |}, r))
        (numeric (fun a b => ((a =? 1) && (b <=? 2)) || ((a =? 0) && (1 <=? b)))
                 (fun a => 1 <=? a) s)
  | Dir_Y =>
      (* \d\d\d\d *)
      match two_digits s with
      | Some (a, b, rest) =>
          match two_digits rest with
          | Some (c, d, r) =>
              [({| f_year := 1000 * a + 100 * b + 10 * c + d;
                   f_month := f_month f; f_day := f_day f;
                   f_second := f_second f |}, r)]
          | None => []
          end
      | None => []
      end
  | Dir_H =>
      (* 2[0-3]|[0-1]\d|\d *)
      map (fun '(_, r) => (f, r))
        (numeric (fun a b => ((a =? 2) && (b <=? 3)) || (a <=? 1)) (fun _ => true) s)
  | Dir_M =>
      (* [0-5]\d|\d *)
      map (fun '(_, r) => (f, r))
        (numeric (fun a _ => a <=? 5) (fun _ => true) s)
  | Dir_S =>
      (* 6[0-1]|[0-5]\d|\d *)
      map (fun '(v, r) => ({| f_year := f_year f; f_month := f_month f; f_day := f_day f;
                              f_second := v |}, r))
        (numeric (fun a b => ((a =? 6) && (b <=? 1)) || (a <=? 5)) (fun _ => true) s)
  | Spaces => map (fun r => (f, r)) (spaces s)
  | Lit c =>
      match s with
      | String c' rest => if (c' =? c)%char then [(f, rest)] else []
      | EmptyString => []
      end
  end.

Fixpoint first_match {A B} (k : A -> option B) (l : list A) : option B :=
  match l with
  | [] => None
  | a :: l' => match k a with Some b => Some b | None => first_match k l' end
  end.

(** [re.match]: the first way, in the order of the alternatives, in which
    the whole expression matches a prefix of the text. *)
Fixpoint re_match (ds : list directive) (f : fields) (s : string)
  : option (fields * string) :=
  match ds with
  | [] => Some (f, s)
  | d :: ds' => first_match (fun '(f', r) => re_match ds' f' r) (alternatives d f s)
  end.

(** [datetime.strptime(s, fmt).date()], [None] for [ValueError]. *)
Definition strptime (s fmt : string) : option date :=
  match compile fmt with
  | Some ds =>
      match re_match ds {| f_year := 1900; f_month := 1; f_day := 1; f_second := 0 |} s with
      | Some (f, EmptyString) =>
          if (1 <=? f_year f) && (1 <=? f_month f) && (f_month f <=? 12)
             && (1 <=? f_day f) && (f_day f <=? days_in_month (f_year f) (f_month f))
             && (f_second f <=? 59)
          then Some (ymd2ord (f_year f) (f_month f) (f_day f))
          else None
      | _ => None
      end
  | None => None
  end.

(** The first format of the list that parses the text. *)
Definition strptime_first (s : string) (fmts : list string) : option date :=
  first_match (strptime s) fmts.

(** The dates [start, start+1, ...], [n] of them. *)
Fixpoint days_from (start : date) (n : nat) : list date :=
  match n with
  | O => []
  | S n' => start :: days_from (start + 1) n'
  end.

(** The dates visited by
    [while current_date <= end_date: ...; current_date += timedelta(days=1)]. *)
Definition date_range (start_date end_date : date) : list date :=
  days_from start_date (Z.to_nat (end_date - start_date + 1)).

End Datetime.

(** ** The data source and the tasks *)

Import Datetime.

(** One table of [sheet_manager.all_data]: [{'header': [...], 'data': [[...]]}]. *)
Record sheet : Type := { header : list string; data : list (list string) }.

(** A to-do item (a Python dict with these twelve keys).  [None] is Python's
    [None]; [checked] is the dict of the check boxes. *)
Record item : Type := {
  ap_code : string;
  reason : string;
  due_date : option string;
  realtor : option string;
  status : string;
  manual : bool;
  checked : Py.dict bool;
  check_time : option string;
  note : string;
  last_transaction_date : option string;
  last_transaction_type : option string;
  last_ut_reading_date : option string
}.

Record TodoManager : Type := {
  all_data : gmap string sheet;
  todo_list : list item;
  trash_bin : list item
}.

(** One payment event of [transactions[ap_code]]. *)
Record transaction : Type := {
  tr_date : date;
  tr_type : string;
  tr_specific : string
}.

Inductive exn : Type :=
| ValueError (what : string)
| IndexError.

(** What a call does: it raises, or it returns a value. *)
Inductive result (A : Type) : Type :=
| Raised (e : exn)
| Returned (a : A).
Arguments Raised {A} e.
Arguments Returned {A} a.

#[global] Instance result_ret : MRet result := fun _ a => Returned a.
#[global] Instance result_bind : MBind result :=
  fun _ _ k r => match r with Raised e => Raised e | Returned a => k a end.

(** The diagnostics that [generate_list] prints before giving up. *)
Inductive diagnostic : Type :=
| Required_sheets_not_loaded
| Missing_required_column_in_MO_DATA (column : string).

Definition default_checked : Py.dict bool :=
  [("TELEGRAM", false); ("EMAIL", false); ("UT_DATA", false); ("WRITE", false)].

Definition _create_todo_item (ap_code reason : string) (due_date : option string)
    (realtor : option string) (status : string) : item :=
  {| ap_code := ap_code;
     reason := reason;
     due_date := due_date;
     realtor := realtor;
     status := status;
     manual := false;
     checked := default_checked;
     check_time := None;
     note := "";
     last_transaction_date := None;
     last_transaction_type := None;
     last_ut_reading_date := None |}.

(** [item['ap_code'] + (item.get('due_date') or '')] *)
Definition item_key (x : item) : string := ap_code x ++ Py.or_empty (due_date x).

(** *** Ordering of the active list *)

Definition bool_lt (a b : bool) : bool := negb a && b.

(** The order of the tuples [(bool, bool, str)]. *)
Definition key_lt (a b : bool * bool * string) : bool :=
  let '(a1, a2, a3) := a in
  let '(b1, b2, b3) := b in
  bool_lt a1 b1
  || (Bool.eqb a1 b1 && (bool_lt a2 b2 || (Bool.eqb a2 b2 && String.ltb a3 b3))).

Definition sort_key (x : item) : bool * bool * string :=
  (Py.all_values (checked x),
   match due_date x with None => true | Some _ => false end,
   Py.or_empty (due_date x)).

Definition _sort_list (l : list item) : list item := Py.sort_by key_lt sort_key l.

(** *** The transaction index and the meter-reading index *)

Definition MO_FORMATS : list string :=
  ["%Y-%m-%d %H:%M"; "%d/%m/%Y %H:%M:%S"; "%Y-%m-%d"; "%d/%m/%Y"].

Definition UT_FORMATS : list string :=
  ["%d/%m/%Y %H:%M:%S"; "%d-%m-%Y"; "%d/%m/%Y"].

(** The columns of MO_DATA found in its upper-cased header. *)
Record mo_columns : Type := {
  mo_code_col : nat;
  mo_date_col : nat;
  mo_type_col : nat;
  mo_specific_task_col : nat
}.

(** One round of the loop over the MO_DATA rows. *)
Definition add_transaction (c : mo_columns)
    (transactions : gmap string (list transaction)) (row : list string)
  : gmap string (list transaction) :=
  if (Nat.max (mo_code_col c)
        (Nat.max (mo_date_col c) (Nat.max (mo_type_col c) (mo_specific_task_col c)))
      <? length row)%nat
  then
    match Py.getitem row (mo_code_col c), Py.getitem row (mo_date_col c),
          Py.getitem row (mo_type_col c), Py.getitem row (mo_specific_task_col c) with
    | Some code, Some date_cell, Some type_cell, Some specific_cell =>
        let ap_code := Py.strip code in
        if negb (Py.truthy ap_code) then transactions
        else
          let date_str := Py.strip date_cell in
          let trans_type := Py.strip type_cell in
          let specific_trans_type := Py.strip specific_cell in
          match strptime_first date_str MO_FORMATS with
          | Some parsed_date =>
              <[ap_code :=
                  (default [] (transactions !! ap_code)
                   ++ [{| tr_date := parsed_date; tr_type := trans_type;
                          tr_specific := specific_trans_type |}])%list]> transactions
          | None => transactions
          end
    | _, _, _, _ => transactions
    end
  else transactions.

(** [transactions], every list sorted by date, the latest first. *)
Definition build_transactions (c : mo_columns) (rows : list (list string))
  : gmap string (list transaction) :=
  Py.sort_by Z.gtb tr_date <$> fold_left (add_transaction c) rows ∅.

(** One round of the loop over the UT_DATA rows. *)
Definition add_reading (ut_code_col ut_date_col : nat)
    (last_ut_dates : gmap string date) (row : list string) : gmap string date :=
  match Py.getitem row ut_code_col, Py.getitem row ut_date_col with
  | Some ap_code, Some date_str =>
      match strptime_first date_str UT_FORMATS with
      | Some reading_date =>
          match last_ut_dates !! ap_code with
          | Some d =>
              if d <? reading_date then <[ap_code := reading_date]> last_ut_dates
              else last_ut_dates
          | None => <[ap_code := reading_date]> last_ut_dates
          end
      | None => last_ut_dates
      end
  | _, _ => last_ut_dates
  end.

Definition build_last_ut_dates (ut_code_col ut_date_col : nat)
    (rows : list (list string)) : gmap string date :=
  fold_left (add_reading ut_code_col ut_date_col) rows ∅.

(** *** Derivation of the tasks of one apartment row *)

Record ap_columns : Type := {
  ap_code_col : nat;
  ap_start_col : nat;
  ap_end_col : nat;
  ap_realtor_col : nat;
  ap_checkout_col : nat
}.

Definition in_window (start_date end_date d : date) : bool :=
  (start_date <=? d) && (d <=? end_date).

Definition is_rent_payment (t : transaction) : bool :=
  Py.contains "CHECK-IN" (Py.upper (tr_type t))
  || Py.contains "RENT COLLECT" (Py.upper (tr_specific t)).

(** The test of one transaction against one due date. *)
Definition payment_matches (due : date) (t : transaction) : bool :=
  is_rent_payment t && ((due - 9 <=? tr_date t) && (tr_date t <=? due + 5)).

(** [payment_found_date] after the search loop. *)
Definition find_payment (transactions : gmap string (list transaction))
    (ap_code : string) (due : date) : option date :=
  match transactions !! ap_code with
  | Some l => option_map tr_date (List.find (payment_matches due) l)
  | None => None
  end.

(** The context fields written on every derived item. *)
Definition with_context (last_trans_date : option date) (last_trans_type : option string)
    (last_ut_date : option date) (x : item) : item :=
  {| ap_code := ap_code x;
     reason := reason x;
     due_date := due_date x;
     realtor := realtor x;
     status := status x;
     manual := manual x;
     checked := checked x;
     check_time := check_time x;
     note := note x;
     last_transaction_date := option_map isoformat last_trans_date;
     last_transaction_type := last_trans_type;
     last_ut_reading_date := option_map isoformat last_ut_date |}.

(** The item of one due date. *)
Definition rent_item (transactions : gmap string (list transaction))
    (ap_code : string) (realtor_name : option string) (is_upcoming_checkout : bool)
    (due : date) : item :=
  match find_payment transactions ap_code due with
  | Some payment_found_date =>
      _create_todo_item ap_code
        ("Rent due " ++ strftime_d_b due ++ ", Paid on " ++ strftime_d_b payment_found_date)
        (Some (isoformat due)) realtor_name "Paid"
  | None =>
      _create_todo_item ap_code
        ("Rent due on " ++ strftime_d_b due ++ " (UNPAID)"
         ++ (if is_upcoming_checkout then " - 🚪 CHECK-OUT" else ""))
        (Some (isoformat due)) realtor_name "Unpaid"
  end.

(** [all_due_dates_in_range] *)
Definition due_dates_in_range (start_date end_date : date) (payment_day : Z) : list date :=
  List.filter (fun d => day d =? payment_day) (date_range start_date end_date).

(** A cell read as a date, inside [try: ... except (ValueError, IndexError)]. *)
Definition cell_date (row : list string) (col : nat) (fmt : string) : option date :=
  match Py.getitem row col with
  | Some s => strptime s fmt
  | None => None
  end.

(** The same after the test [if cell:] on the text. *)
Definition nonempty_cell_date (row : list string) (col : nat) (fmt : string) : option date :=
  match Py.getitem row col with
  | Some s => if Py.truthy s then strptime s fmt else None
  | None => None
  end.

Definition date_in_window (start_date end_date : date) (o : option date) : bool :=
  match o with
  | Some d => in_window start_date end_date d
  | None => false
  end.

Definition opt_to_list {A} (o : option A) : list A :=
  match o with Some a => [a] | None => [] end.

Definition is_checkout_of (code : string) (x : item) : bool :=
  (ap_code x =? code)%string && (status x =? "Check-out")%string.

(** [transactions.get(ap_code, [None])[0]] (no list of [transactions] is
    empty). *)
Definition latest_transaction (transactions : gmap string (list transaction))
    (code : string) : option transaction :=
  match transactions !! code with
  | Some l => head l
  | None => None
  end.

(** [last_trans_type and 'CHECK-OUT' in last_trans_type.upper()] *)
Definition already_checked_out (transactions : gmap string (list transaction))
    (code : string) : bool :=
  match option_map tr_type (latest_transaction transactions code) with
  | Some t => Py.truthy t && Py.contains "CHECK-OUT" (Py.upper t)
  | None => false
  end.

(** [checkout_dates_to_check]: the contract end, then the check-out date. *)
Definition checkout_dates (c : ap_columns) (row : list string) : list date :=
  (opt_to_list (cell_date row (ap_end_col c) "%d-%m-%Y")
   ++ opt_to_list (cell_date row (ap_checkout_col c) "%d.%m.%Y"))%list.

Definition checkout_item (code : string) (realtor_name : option string)
    (last_trans_date : option date) (last_trans_type : option string)
    (last_ut_date : option date) (checkout_date : date) : item :=
  with_context last_trans_date last_trans_type last_ut_date
    (_create_todo_item code ("Check-out on " ++ strftime_d_b checkout_date)
       (Some (isoformat checkout_date)) realtor_name "Check-out").

Section Derivation.

(** [set_order a b] tells whether [a] comes before [b] when a set holding
    both is iterated. *)
Variable set_order : date -> date -> bool.

(** The elements of [set(l)] in iteration order, for the lists of at most
    two dates that the program builds. *)
Definition set_iter (l : list date) : list date :=
  match l with
  | [a; b] => if a =? b then [a] else if set_order a b then [a; b] else [b; a]
  | _ => l
  end.

Variables (start_date end_date : date).
Variable transactions : gmap string (list transaction).
Variable last_ut_dates : gmap string date.
Variable c : ap_columns.

(** One round of the loop over [set(checkout_dates_to_check)]. *)
Definition add_checkout (code : string) (realtor_name : option string)
    (last_trans_date : option date) (last_trans_type : option string)
    (last_ut_date : option date) (new_list : list item) (checkout_date : date)
  : list item :=
  if in_window start_date end_date checkout_date then
    if negb (existsb (is_checkout_of code) new_list) then
      (new_list ++
       [checkout_item code realtor_name last_trans_date last_trans_type last_ut_date
          checkout_date])%list
    else new_list
  else new_list.

(** One round of the loop over the APARTMENTS rows. *)
Definition process_row (new_list : list item) (row : list string) : list item :=
  match Py.getitem row (ap_code_col c) with
  | None => new_list
  | Some code =>
      if negb (Py.truthy code) then new_list
      else
        let realtor_name :=
          match Py.getitem row (ap_realtor_col c) with
          | Some r => Some r
          | None => Some "Unknown"
          end in
        let last_trans_date := option_map tr_date (latest_transaction transactions code) in
        let last_trans_type := option_map tr_type (latest_transaction transactions code) in
        let last_ut_date := last_ut_dates !! code in
        let is_upcoming_checkout :=
          date_in_window start_date end_date
            (nonempty_cell_date row (ap_checkout_col c) "%d.%m.%Y")
          || date_in_window start_date end_date
               (nonempty_cell_date row (ap_end_col c) "%d-%m-%Y") in
        if already_checked_out transactions code then new_list
        else
          (* A. rent tasks *)
          let new_list :=
            match cell_date row (ap_start_col c) "%d-%m-%Y" with
            | Some contract_start_date =>
                let payment_day := day contract_start_date in
                (new_list ++
                 map (fun due =>
                        with_context last_trans_date last_trans_type last_ut_date
                          (rent_item transactions code realtor_name
                             is_upcoming_checkout due))
                     (due_dates_in_range start_date end_date payment_day))%list
            | None => new_list
            end in
          (* B. check-outs *)
          fold_left
            (add_checkout code realtor_name last_trans_date last_trans_type last_ut_date)
            (set_iter (checkout_dates c row)) new_list
  end.

(** [new_list] after the loop over the rows. *)
Definition derive (rows : list (list string)) : list item :=
  fold_left process_row rows [].

End Derivation.

(** *** Reconciliation with the previous list *)

(** [old_state = {key(item): item for item in todo_list}]: of two items
    with one key the later one stays, at the place of the first. *)
Definition index_by_key (l : list item) : Py.dict item :=
  fold_left (fun d x => Py.dict_set (item_key x) x d) l [].

(** The user's fields of the old item written on the new one.  (In the
    program the new item then shares the [checked] dict of the old one.) *)
Definition adopt (old_state : Py.dict item) (new_item : item) : item :=
  match Py.dict_get (item_key new_item) old_state with
  | Some old_item =>
      {| ap_code := ap_code new_item;
         reason := reason new_item;
         due_date := due_date new_item;
         realtor := realtor new_item;
         status := status new_item;
         manual := manual new_item;
         checked := checked old_item;
         check_time := check_time old_item;
         note := note old_item;
         last_transaction_date := last_transaction_date new_item;
         last_transaction_type := last_transaction_type new_item;
         last_ut_reading_date := last_ut_reading_date new_item |}
  | None => new_item
  end.

Definition same_apartment (a b : item) : bool := (ap_code a =? ap_code b)%string.

(** One round of the loop over [old_state.items()]. *)
Definition readd_manual (final_list : list item) (entry : string * item) : list item :=
  let old_item := snd entry in
  if manual old_item && negb (existsb (fun x => same_apartment x old_item) final_list)
  then (final_list ++ [old_item])%list
  else final_list.

(** [final_list] at the end of [generate_list]. *)
Definition reconcile (old_list new_list : list item) : list item :=
  let old_state := index_by_key old_list in
  fold_left readd_manual old_state (map (adopt old_state) new_list).

(** *** [generate_list] *)

Definition find_mo_columns (mo_header_upper : list string) : string + mo_columns :=
  match Py.index "APARTMENT CODE" mo_header_upper with
  | None => inl "APARTMENT CODE"
  | Some a =>
      match Py.index "SUBMISSION DATE" mo_header_upper with
      | None => inl "SUBMISSION DATE"
      | Some b =>
          match Py.index "TYPE OF MONEY TASK" mo_header_upper with
          | None => inl "TYPE OF MONEY TASK"
          | Some t =>
              match Py.index "SPECIFIC MONEY TASK" mo_header_upper with
              | None => inl "SPECIFIC MONEY TASK"
              | Some sp =>
                  inr {| mo_code_col := a; mo_date_col := b; mo_type_col := t;
                         mo_specific_task_col := sp |}
              end
          end
      end
  end.

(** The five lookups [ap_header.index(...)], none of them guarded. *)
Definition find_ap_columns (ap_header : list string) : string + ap_columns :=
  match Py.index "AP CODE" ap_header with
  | None => inl "AP CODE"
  | Some a =>
      match Py.index "START" ap_header with
      | None => inl "START"
      | Some b =>
          match Py.index "END" ap_header with
          | None => inl "END"
          | Some e =>
              match Py.index "REALTOR" ap_header with
              | None => inl "REALTOR"
              | Some r =>
                  match Py.index "CHECK_OUT" ap_header with
                  | None => inl "CHECK_OUT"
                  | Some o =>
                      inr {| ap_code_col := a; ap_start_col := b; ap_end_col := e;
                             ap_realtor_col := r; ap_checkout_col := o |}
                  end
              end
          end
      end
  end.

Definition not_in_list (what : string) : exn := ValueError (what ++ " is not in list").

Definition with_todo_list (self : TodoManager) (l : list item) : TodoManager :=
  {| all_data := all_data self; todo_list := l; trash_bin := trash_bin self |}.

(** What [generate_list] gets from the sheets before it derives anything:
    it gives up with a diagnostic, an unguarded [index] raises, or the two
    indexes, the columns and the rows of APARTMENTS are ready. *)
Inductive reading : Type :=
| Gave_up (d : diagnostic)
| Failed (e : exn)
| Ready (transactions : gmap string (list transaction))
        (last_ut_dates : gmap string date)
        (c : ap_columns) (rows : list (list string)).

Definition read_sheets (all_data : gmap string sheet) : reading :=
  match all_data !! "APARTMENTS", all_data !! "MO_DATA", all_data !! "UT_DATA" with
  | Some apartments, Some mo_data, Some ut_data =>
      let mo_header_upper := map (fun h => Py.upper (Py.strip h)) (header mo_data) in
      match find_mo_columns mo_header_upper with
      | inl missing => Gave_up (Missing_required_column_in_MO_DATA missing)
      | inr mo_cols =>
          let transactions := build_transactions mo_cols (data mo_data) in
          match Py.index "Apartment Code" (header ut_data) with
          | None => Failed (not_in_list "'Apartment Code'")
          | Some ut_code_col =>
              match Py.index "Date of Reading" (header ut_data) with
              | None => Failed (not_in_list "'Date of Reading'")
              | Some ut_date_col =>
                  let last_ut_dates :=
                    build_last_ut_dates ut_code_col ut_date_col (data ut_data) in
                  match find_ap_columns (header apartments) with
                  | inl missing => Failed (not_in_list ("'" ++ missing ++ "'"))
                  | inr ap_cols =>
                      Ready transactions last_ut_dates ap_cols (data apartments)
                  end
              end
          end
      end
  | _, _, _ => Gave_up Required_sheets_not_loaded
  end.

(** [generate_list(start_date, end_date)]: the manager afterwards and what
    was printed as a diagnostic, or the exception that reaches the caller. *)
Definition generate_list (set_order : date -> date -> bool) (self : TodoManager)
    (start_date end_date : date) : result (TodoManager * list diagnostic) :=
  match read_sheets (all_data self) with
  | Gave_up d => Returned (self, [d])
  | Failed e => Raised e
  | Ready transactions last_ut_dates ap_cols rows =>
      let new_list :=
        derive set_order start_date end_date transactions last_ut_dates ap_cols rows in
      let final_list := reconcile (todo_list self) new_list in
      Returned (with_todo_list self (_sort_list final_list), [])
  end.

(** *** Manual insertion *)

(** [sheet_manager.get_row_by_code]: the row as a dict from header to cell,
    [None] when the sheet, the column or the code is not found. *)
Definition get_row_by_code (all_data : gmap string sheet)
    (ap_code sheet_name code_column_name : string) : option (Py.dict (option string)) :=
  match all_data !! sheet_name with
  | None => None
  | Some sheet_info =>
      match Py.index (Py.upper (Py.strip code_column_name))
                     (map (fun h => Py.upper (Py.strip h)) (header sheet_info)) with
      | None => None
      | Some code_column_index =>
          match
            List.find
              (fun row =>
                 match Py.getitem row code_column_index with
                 | Some cell =>
                     (Py.upper (Py.strip cell) =? Py.upper (Py.strip ap_code))%string
                 | None => false
                 end)
              (data sheet_info)
          with
          | Some row =>
              Some (fold_left
                      (fun d '(i, h) => Py.dict_set h (Py.getitem row i) d)
                      (combine (seq 0 (length (header sheet_info))) (header sheet_info))
                      [])
          | None => None
          end
      end
  end.

Definition get_apartment_data (all_data : gmap string sheet) (ap_code : string)
  : option (Py.dict (option string)) :=
  get_row_by_code all_data ap_code "APARTMENTS" "AP CODE".

(** The loop that gathers the transactions of one apartment; a row that is
    too short for the date or the type column raises [IndexError]. *)
Fixpoint collect_transactions (code_col date_col type_col : nat) (ap_code : string)
    (rows : list (list string)) (all_trans : list (date * string))
  : result (list (date * string)) :=
  match rows with
  | [] => Returned all_trans
  | row :: rows' =>
      match Py.getitem row code_col with
      | Some cell =>
          if (Py.strip cell =? ap_code)%string then
            match Py.getitem row date_col, Py.getitem row type_col with
            | Some date_cell, Some type_cell =>
                match strptime_first (Py.strip date_cell) MO_FORMATS with
                | Some parsed_date =>
                    collect_transactions code_col date_col type_col ap_code rows'
                      (all_trans ++ [(parsed_date, Py.strip type_cell)])%list
                | None =>
                    collect_transactions code_col date_col type_col ap_code rows' all_trans
                end
            | _, _ => Raised IndexError
            end
          else collect_transactions code_col date_col type_col ap_code rows' all_trans
      | None => collect_transactions code_col date_col type_col ap_code rows' all_trans
      end
  end.

(** The loop that finds the latest reading of one apartment. *)
Fixpoint collect_last_reading (code_col date_col : nat) (ap_code : string)
    (rows : list (list string)) (last_ut_date : option date) : result (option date) :=
  match rows with
  | [] => Returned last_ut_date
  | row :: rows' =>
      match Py.getitem row code_col with
      | Some cell =>
          if (Py.strip cell =? ap_code)%string then
            match Py.getitem row date_col with
            | Some date_str =>
                match strptime_first date_str UT_FORMATS, last_ut_date with
                | Some reading_date, Some d =>
                    collect_last_reading code_col date_col ap_code rows'
                      (if d <? reading_date then Some reading_date else last_ut_date)
                | Some reading_date, None =>
                    collect_last_reading code_col date_col ap_code rows' (Some reading_date)
                | None, _ =>
                    collect_last_reading code_col date_col ap_code rows' last_ut_date
                end
            | None => Raised IndexError
            end
          else collect_last_reading code_col date_col ap_code rows' last_ut_date
      | None => collect_last_reading code_col date_col ap_code rows' last_ut_date
      end
  end.

Definition set_last_transaction (x : item) (d t : option string) : item :=
  {| ap_code := ap_code x; reason := reason x; due_date := due_date x;
     realtor := realtor x; status := status x; manual := manual x;
     checked := checked x; check_time := check_time x; note := note x;
     last_transaction_date := d;
     last_transaction_type := t;
     last_ut_reading_date := last_ut_reading_date x |}.

Definition set_last_ut_reading (x : item) (d : option string) : item :=
  {| ap_code := ap_code x; reason := reason x; due_date := due_date x;
     realtor := realtor x; status := status x; manual := manual x;
     checked := checked x; check_time := check_time x; note := note x;
     last_transaction_date := last_transaction_date x;
     last_transaction_type := last_transaction_type x;
     last_ut_reading_date := d |}.

Definition set_manual (x : item) : item :=
  {| ap_code := ap_code x; reason := reason x; due_date := due_date x;
     realtor := realtor x; status := status x; manual := true;
     checked := checked x; check_time := check_time x; note := note x;
     last_transaction_date := last_transaction_date x;
     last_transaction_type := last_transaction_type x;
     last_ut_reading_date := last_ut_reading_date x |}.

(** The new item before the context is fetched. *)
Definition manual_item (all_data : gmap string sheet) (code : string)
    (due_date : option date) : item :=
  let realtor_name :=
    match get_apartment_data all_data code with
    | Some (e :: d) =>
        match Py.dict_get "REALTOR" (e :: d) with
        | Some cell => cell
        | None => Some "Unknown"
        end
    | _ => Some "Unknown"
    end in
  let reason :=
    "Manually added"
    ++ match due_date with
       | Some d => " - Due on " ++ strftime_d_b d
       | None => ""
       end in
  set_manual
    (_create_todo_item code reason (option_map isoformat due_date) realtor_name "Pending").

(** Step 1 of the context: the last transaction. *)
Definition fetch_last_transaction (all_data : gmap string sheet) (code : string)
    (x : item) : result item :=
  let mo_data := match all_data !! "MO_DATA" with Some sh => data sh | None => [] end in
  let mo_header_upper :=
    match all_data !! "MO_DATA" with
    | Some sh => map (fun h => Py.upper (Py.strip h)) (header sh)
    | None => []
    end in
  match Py.index "APARTMENT CODE" mo_header_upper,
        Py.index "SUBMISSION DATE" mo_header_upper,
        Py.index "TYPE OF MONEY TASK" mo_header_upper with
  | Some code_col, Some date_col, Some type_col =>
      match collect_transactions code_col date_col type_col code mo_data [] with
      | Raised e => Raised e
      | Returned all_trans =>
          match Py.sort_by Z.gtb fst all_trans with
          | latest_transaction :: _ =>
              Returned (set_last_transaction x
                          (Some (isoformat (fst latest_transaction)))
                          (Some (snd latest_transaction)))
          | [] => Returned x
          end
      end
  | _, _, _ => Returned x
  end.

(** Step 2 of the context: the last meter reading. *)
Definition fetch_last_reading (all_data : gmap string sheet) (code : string)
    (x : item) : result item :=
  let ut_data := match all_data !! "UT_DATA" with Some sh => data sh | None => [] end in
  let ut_header := match all_data !! "UT_DATA" with Some sh => header sh | None => [] end in
  match Py.index "Apartment Code" ut_header, Py.index "Date of Reading" ut_header with
  | Some code_col, Some date_col =>
      match collect_last_reading code_col date_col code ut_data None with
      | Raised e => Raised e
      | Returned (Some last_ut_date) =>
          Returned (set_last_ut_reading x (Some (isoformat last_ut_date)))
      | Returned None => Returned x
      end
  | _, _ => Returned x
  end.

Definition has_key (key : string) (l : list item) : bool :=
  existsb (fun x => (item_key x =? key)%string) l.

(** [add_manual_item(ap_code, due_date=None)]: the pair [(success, message)]
    and the manager afterwards. *)
Definition add_manual_item (self : TodoManager) (code : string) (due_date : option date)
  : result (bool * string * TodoManager) :=
  let due_date_iso := option_map isoformat due_date in
  let key := code ++ Py.or_empty due_date_iso in
  if has_key key (todo_list self) then
    Returned (false, "A task for `" ++ code ++ "` with that due date already exists.", self)
  else
    match fetch_last_transaction (all_data self) code
            (manual_item (all_data self) code due_date) with
    | Raised e => Raised e
    | Returned x =>
        match fetch_last_reading (all_data self) code x with
        | Raised e => Raised e
        | Returned x' =>
            Returned (true, "✅ `" ++ code ++ "` added to the list.",
                      with_todo_list self (_sort_list (todo_list self ++ [x'])%list))
        end
    end.

(** *** Trash, restore and notes *)

Definition opt_eqb (a b : option string) : bool :=
  match a, b with
  | Some x, Some y => (x =? y)%string
  | None, None => true
  | _, _ => false
  end.

(** [item['ap_code'] == ap_code and item.get('due_date') == due_date] *)
Definition is_instance (code : string) (due : option string) (x : item) : bool :=
  (ap_code x =? code)%string && opt_eqb (due_date x) due.

(** The list without its first element that satisfies [p]. *)
Fixpoint remove_first {A} (p : A -> bool) (l : list A) : list A :=
  match l with
  | [] => []
  | x :: l' => if p x then l' else x :: remove_first p l'
  end.

Definition remove_item (self : TodoManager) (code : string) (due : option string)
  : bool * string * TodoManager :=
  match List.find (is_instance code due) (todo_list self) with
  | Some x =>
      (true, "✅ `" ++ code ++ "` moved to trash bin.",
       {| all_data := all_data self;
          todo_list := remove_first (is_instance code due) (todo_list self);
          trash_bin := (trash_bin self ++ [x])%list |})
  | None => (false, "❌ `" ++ code ++ "` was not found on the list.", self)
  end.

Definition restore_item (self : TodoManager) (code : string) (due : option string)
  : bool * string * TodoManager :=
  match List.find (is_instance code due) (trash_bin self) with
  | Some x =>
      (true, "✅ `" ++ code ++ "` restored from trash bin.",
       {| all_data := all_data self;
          todo_list := _sort_list (todo_list self ++ [x])%list;
          trash_bin := remove_first (is_instance code due) (trash_bin self) |})
  | None => (false, "❌ `" ++ code ++ "` was not found in the trash bin.", self)
  end.

Definition set_note (x : item) (new_note_text : string) : item :=
  {| ap_code := ap_code x; reason := reason x; due_date := due_date x;
     realtor := realtor x; status := status x; manual := manual x;
     checked := checked x; check_time := check_time x; note := new_note_text;
     last_transaction_date := last_transaction_date x;
     last_transaction_type := last_transaction_type x;
     last_ut_reading_date := last_ut_reading_date x |}.

(** The loop of [update_note]: the first matching item gets the note. *)
Fixpoint update_first_note (code : string) (due : option string) (new_note_text : string)
    (l : list item) : list item :=
  match l with
  | [] => []
  | x :: l' =>
      if is_instance code due x then set_note x new_note_text :: l'
      else x :: update_first_note code due new_note_text l'
  end.

Definition update_note (self : TodoManager) (code new_note_text : string)
    (due : option string) : TodoManager :=
  with_todo_list self (update_first_note code due new_note_text (todo_list self)).

(** ** Sessions used as examples *)

Module Scenario.

Definition AP_HEADER : list string := ["AP CODE"; "START"; "END"; "REALTOR"; "CHECK_OUT"].
Definition MO_HEADER : list string :=
  ["APARTMENT CODE"; "SUBMISSION DATE"; "TYPE OF MONEY TASK"; "SPECIFIC MONEY TASK"].
Definition UT_HEADER : list string := ["Apartment Code"; "Date of Reading"].

Definition sheets (ap_rows mo_rows ut_rows : list (list string)) : gmap string sheet :=
  <["APARTMENTS" := {| header := AP_HEADER; data := ap_rows |}]>
    (<["MO_DATA" := {| header := MO_HEADER; data := mo_rows |}]>
       (<["UT_DATA" := {| header := UT_HEADER; data := ut_rows |}]> ∅)).

Definition fresh (all_data : gmap string sheet) : TodoManager :=
  {| all_data := all_data; todo_list := []; trash_bin := [] |}.

(** The window 2024-06-01 .. 2024-06-30. *)
Definition june_1 : date := ymd2ord 2024 6 1.
Definition june_30 : date := ymd2ord 2024 6 30.

(** A set order for the sessions: of two dates of a set, the one added
    first comes first (the end of the contract before the check-out
    date). *)
Definition end_first : date -> date -> bool := fun _ _ => true.

(** The active list after a call, when it returns. *)
Definition active (r : result (TodoManager * list diagnostic)) : option (list item) :=
  match r with
  | Returned (m, _) => Some (todo_list m)
  | Raised _ => None
  end.

Definition identity (x : item) : string * option string * string :=
  (ap_code x, due_date x, status x).

(** A1 pays on the 15th and its contract ends on 15 June 2024. *)
Definition ends_on_payment_day : TodoManager :=
  fresh (sheets [["A1"; "15-01-2024"; "15-06-2024"; "Ann"; ""]] [] []).

(** A1 pays on the 15th; the contract has no end date. *)
Definition tenant_A1 (mo_rows : list (list string)) : TodoManager :=
  fresh (sheets [["A1"; "15-01-2024"; ""; "Ann"; ""]] mo_rows []).

(** One rent-related payment of A1, [n] days after 15 June 2024. *)
Definition paid_on (n : Z) : list (list string) :=
  [["A1"; isoformat (ymd2ord 2024 6 15 + n); "CHECK-IN"; ""]].

(** The UT_DATA sheet has lost its "Apartment Code" column. *)
Definition ut_column_missing : TodoManager :=
  fresh (<["UT_DATA" := {| header := ["Date of Reading"]; data := [] |}]>
           (sheets [["A1"; "15-01-2024"; ""; "Ann"; ""]] [] [])).

(** A2's contract ends on 20 June 2024, and A2 has already checked out. *)
Definition vacated_A2 : TodoManager :=
  fresh (sheets [["A2"; "03-01-2024"; "20-06-2024"; "Bob"; ""]]
                [["A2"; "2024-05-30"; "CHECK-OUT"; ""]] []).

(** A3's contract ends on 20 June 2024; its check-out is announced for
    5 July 2024, after the window. *)
Definition late_checkout_A3 : TodoManager :=
  fresh (sheets [["A3"; "03-01-2024"; "20-06-2024"; "Bob"; "05.07.2024"]] [] []).

(** A4's contract ends on 20 June 2024 and its check-out is announced for
    25 June 2024: both dates are in the window. *)
Definition both_dates_A4 : TodoManager :=
  fresh (sheets [["A4"; "03-01-2024"; "20-06-2024"; "Bob"; "25.06.2024"]] [] []).

(** The other set order: of two dates of a set, the one added last comes
    first. *)
Definition checkout_first : date -> date -> bool := fun _ _ => false.

(** The user adds a task for A1 due on 20 July 2024, then regenerates. *)
Definition manual_then_generate : result (list item * list item) :=
  '(_, m1) ← add_manual_item (tenant_A1 []) "A1" (Some (ymd2ord 2024 7 20));
  '(m2, _) ← generate_list end_first m1 june_1 june_30;
  mret (todo_list m1, todo_list m2).

(** The user generates the list, writes a note on the task of A1 due on
    15 June, then regenerates. *)
Definition note_then_generate : result (list item * list item) :=
  '(m1, _) ← generate_list end_first ends_on_payment_day june_1 june_30;
  let m2 := update_note m1 "A1" "call the tenant" (Some "2024-06-15") in
  '(m3, _) ← generate_list end_first m2 june_1 june_30;
  mret (todo_list m2, todo_list m3).

(** The user generates the list, removes the task of A1 due on 15 June,
    then regenerates. *)
Definition removed_and_rederived : result TodoManager :=
  '(m1, _) ← generate_list end_first (tenant_A1 []) june_1 june_30;
  let '(_, _, m2) := remove_item m1 "A1" (Some "2024-06-15") in
  '(m3, _) ← generate_list end_first m2 june_1 june_30;
  mret m3.

(** The rent task of A1 for June 2024, and the state that the session
    [removed_and_rederived] reaches, written out. *)
Definition rent_A1 : item :=
  with_context None None None
    (_create_todo_item "A1" "Rent due on 15-Jun (UNPAID)" (Some "2024-06-15")
       (Some "Ann") "Unpaid").

Definition trashed_and_active : TodoManager :=
  {| all_data := all_data (tenant_A1 []);
     todo_list := [rent_A1];
     trash_bin := [rent_A1] |}.

(** The manager after a first call on [ends_on_payment_day]. *)
Definition after_first_call : TodoManager :=
  match generate_list end_first ends_on_payment_day june_1 june_30 with
  | Returned (m, _) => m
  | Raised _ => ends_on_payment_day
  end.

(** Z9 is not an apartment of the APARTMENTS sheet. *)
Definition unknown_code : string := "Z9".

End Scenario.

(** ** The other operations *)

(** *** Loading a sheet *)

(** [any(str(c).strip() for c in row)] *)
Definition has_text (row : list string) : bool :=
  existsb (fun cell => Py.truthy (Py.strip cell)) row.

(** ["AP CODE" in [str(c).strip().upper() for c in row]] *)
Definition has_ap_code (row : list string) : bool :=
  existsb (fun cell => (Py.upper (Py.strip cell) =? "AP CODE")%string) row.

(** The index of the first row that satisfies [p], counted from [i]. *)
Fixpoint first_index {A} (p : A -> bool) (l : list A) (i : nat) : option nat :=
  match l with
  | [] => None
  | x :: l' => if p x then Some i else first_index p l' (S i)
  end.

(** [header_row_index] after the search among [all_values[:10]]; a row
    that is an empty list is never a header. *)
Definition header_row_index (is_header : list string -> bool)
    (all_values : list (list string)) : option nat :=
  first_index (fun row => negb (length row =? 0)%nat && is_header row)
    (firstn 10 all_values) 0.

(** What a sheet becomes once its header row is known. *)
Definition store_sheet (is_header : list string -> bool) (sheet_name : string)
    (all_values : list (list string)) (all_data : gmap string sheet) : gmap string sheet :=
  match header_row_index is_header all_values with
  | Some i =>
      <[sheet_name := {| header := nth i all_values []; data := skipn (i + 1) all_values |}]>
        all_data
  | None => all_data
  end.

(** One round of the loop of [load_data] over the value ranges: the
    header of APARTMENTS is the row that holds "AP CODE", the header of
    another sheet its first row with some text. *)
Definition load_sheet (sheet_name : string) (all_values : list (list string))
    (all_data : gmap string sheet) : gmap string sheet :=
  store_sheet (if (sheet_name =? "APARTMENTS")%string then has_ap_code else has_text)
    sheet_name all_values all_data.

(** [reload_specific_sheet], from the values that the service returned:
    the header of any sheet is its first row with some text. *)
Definition reload_sheet (sheet_name : string) (all_values : list (list string))
    (all_data : gmap string sheet) : gmap string sheet :=
  store_sheet has_text sheet_name all_values all_data.

(** *** The apartments of a realtor *)

(** [get_apartments_by_realtor(realtor_name)] *)
Definition get_apartments_by_realtor (all_data : gmap string sheet)
    (realtor_name : string) : list string :=
  match all_data !! "APARTMENTS" with
  | None => []
  | Some sheet_info =>
      match Py.index "AP CODE" (map Py.upper (header sheet_info)),
            Py.index "REALTOR" (map Py.upper (header sheet_info)) with
      | Some code_column_index, Some realtor_column_index =>
          flat_map
            (fun row =>
               match Py.getitem row realtor_column_index,
                     Py.getitem row code_column_index with
               | Some r, Some code =>
                   if (Py.upper (Py.strip r) =? Py.upper (Py.strip realtor_name))%string
                   then [code] else []
               | _, _ => []
               end)
            (data sheet_info)
      | _, _ => []
      end
  end.

(** *** Check time and context refresh *)

Definition set_check_time (x : item) (t : option string) : item :=
  {| ap_code := ap_code x; reason := reason x; due_date := due_date x;
     realtor := realtor x; status := status x; manual := manual x;
     checked := checked x; check_time := t; note := note x;
     last_transaction_date := last_transaction_date x;
     last_transaction_type := last_transaction_type x;
     last_ut_reading_date := last_ut_reading_date x |}.

(** The loop of [update_check_time]. *)
Fixpoint update_first_check_time (code : string) (due : option string) (now : string)
    (l : list item) : list item :=
  match l with
  | [] => []
  | x :: l' =>
      if is_instance code due x then set_check_time x (Some now) :: l'
      else x :: update_first_check_time code due now l'
  end.

(** [update_check_time(ap_code, due_date)]; [now] is the text of
    [datetime.now(BUCHAREST_TZ).isoformat()].  The boolean tells whether the
    call sets [is_dirty]. *)
Definition update_check_time (self : TodoManager) (code now : string)
    (due : option string) : TodoManager * bool :=
  (with_todo_list self (update_first_check_time code due now (todo_list self)),
   existsb (is_instance code due) (todo_list self)).

(** [transactions] in [refresh_context_data_for_list]: the same loop as in
    [generate_list]; a missing column leaves it empty. *)
Definition refresh_transactions (mo_data : sheet) : gmap string (list transaction) :=
  match find_mo_columns (map (fun h => Py.upper (Py.strip h)) (header mo_data)) with
  | inr mo_cols => build_transactions mo_cols (data mo_data)
  | inl _ => ∅
  end.

(** One round of the loop over the UT_DATA rows in
    [refresh_context_data_for_list]: the code is stripped, and a row too
    short for the date has the date [""]. *)
Definition add_reading_stripped (ut_code_col ut_date_col : nat)
    (last_ut_dates : gmap string date) (row : list string) : gmap string date :=
  match Py.getitem row ut_code_col with
  | Some cell =>
      if Py.truthy cell then
        let ap_code := Py.strip cell in
        let date_str :=
          match Py.getitem row ut_date_col with Some s => s | None => "" end in
        match strptime_first date_str UT_FORMATS with
        | Some reading_date =>
            match last_ut_dates !! ap_code with
            | Some d =>
                if d <? reading_date then <[ap_code := reading_date]> last_ut_dates
                else last_ut_dates
            | None => <[ap_code := reading_date]> last_ut_dates
            end
        | None => last_ut_dates
        end
      else last_ut_dates
  | None => last_ut_dates
  end.

Definition refresh_last_ut_dates (ut_data : sheet) : gmap string date :=
  match Py.index "Apartment Code" (header ut_data),
        Py.index "Date of Reading" (header ut_data) with
  | Some ut_code_col, Some ut_date_col =>
      fold_left (add_reading_stripped ut_code_col ut_date_col) (data ut_data) ∅
  | _, _ => ∅
  end.

(** One round of the loop over the to-do list. *)
Definition refresh_item (transactions : gmap string (list transaction))
    (last_ut_dates : gmap string date) (x : item) : item :=
  with_context
    (option_map tr_date (latest_transaction transactions (ap_code x)))
    (option_map tr_type (latest_transaction transactions (ap_code x)))
    (last_ut_dates !! ap_code x) x.

Inductive key_error : Type := KeyError (key : string).

(** [refresh_context_data_for_list()], once the sheets have been reloaded:
    the manager afterwards, or the [KeyError] of a sheet that is not in
    [all_data]. *)
Definition refresh_context_data_for_list (self : TodoManager) : key_error + TodoManager :=
  match all_data self !! "MO_DATA" with
  | None => inl (KeyError "MO_DATA")
  | Some mo_data =>
      match all_data self !! "UT_DATA" with
      | None => inl (KeyError "UT_DATA")
      | Some ut_data =>
          inr (with_todo_list self
                 (map (refresh_item (refresh_transactions mo_data)
                         (refresh_last_ut_dates ut_data))
                    (todo_list self)))
      end
  end.

(** *** The urgent tasks of a realtor *)

Definition lower_char (c : ascii) : ascii :=
  let n := nat_of_ascii c in
  if ((65 <=? n) && (n <=? 90))%nat then ascii_of_nat (n + 32) else c.

(** [s.lower()] *)
Fixpoint lower (s : string) : string :=
  match s with
  | String c rest => String (lower_char c) (lower rest)
  | EmptyString => EmptyString
  end.

(** The test of the list comprehension on one item; [None] when the
    realtor of the item is [None], which has no [lower]. *)
Definition is_action_item (realtor_name : string) (x : item) : option bool :=
  match realtor x with
  | Some r =>
      Some ((lower r =? lower realtor_name)%string
            && ((status x =? "Unpaid")%string || (status x =? "Check-out")%string)
            && negb (Py.all_values (checked x)))
  | None => None
  end.

(** The list comprehension: it stops at the first item that raises. *)
Fixpoint actionable_tasks (realtor_name : string) (l : list item) : option (list item) :=
  match l with
  | [] => Some []
  | x :: l' =>
      match is_action_item realtor_name x with
      | Some keep =>
          match actionable_tasks realtor_name l' with
          | Some rest => Some (if keep then x :: rest else rest)
          | None => None
          end
      | None => None
      end
  end.

(** [x.get('due_date') or '9999-12-31'] *)
Definition urgency_key (x : item) : string :=
  match due_date x with
  | Some s => if Py.truthy s then s else "9999-12-31"
  | None => "9999-12-31"
  end.

(** [l[:limit]] *)
Definition slice_to {A} (l : list A) (limit : Z) : list A :=
  if limit <? 0 then firstn (Z.to_nat (Z.of_nat (length l) + limit)) l
  else firstn (Z.to_nat limit) l.

(** [get_action_items_for_realtor(realtor_name, limit)], [None] for the
    [AttributeError] of a realtor that is [None]. *)
Definition get_action_items_for_realtor (self : TodoManager) (realtor_name : string)
    (limit : Z) : option (list item) :=
  match todo_list self with
  | [] => Some []
  | _ =>
      match actionable_tasks realtor_name (todo_list self) with
      | Some tasks => Some (slice_to (Py.sort_by String.ltb urgency_key tasks) limit)
      | None => None
      end
  end.

(** *** The tabs of the to-do page (app.py) *)

Definition all_completed_items (items_to_display : list item) : list item :=
  List.filter (fun x => Py.all_values (checked x)) items_to_display.

Definition unpaid_items (items_to_display : list item) : list item :=
  List.filter (fun x => (status x =? "Unpaid")%string && negb (Py.all_values (checked x)))
    items_to_display.

Definition checkout_items (items_to_display : list item) : list item :=
  List.filter (fun x => (status x =? "Check-out")%string && negb (Py.all_values (checked x)))
    items_to_display.

Definition paid_items (items_to_display : list item) : list item :=
  List.filter (fun x => (status x =? "Paid")%string && negb (Py.all_values (checked x)))
    items_to_display.

Definition manual_items (items_to_display : list item) : list item :=
  List.filter (fun x => manual x && negb (Py.all_values (checked x))) items_to_display.

(** *** The bounds of [datetime.date] in [generate_list] *)

(** [generate_list] with the bounds of the dates: an addition of days that
    leaves [date.min .. date.max] raises [OverflowError], which is none of
    the exceptions that the handlers of [generate_list] catch, so that it
    ends the call. *)
Module Overflow.

Inductive outcome (A : Type) : Type :=
| OverflowError
| Completed (a : A).
Arguments OverflowError {A}.
Arguments Completed {A} a.

(** [d + timedelta(days=n)] *)
Definition add_days (d : date) (n : Z) : outcome date :=
  if (date_min <=? d + n) && (d + n <=? date_max) then Completed (d + n)
  else OverflowError.

(** [all_due_dates_in_range] after the day loop.  The loop adds one day to
    every date from [start_date] to [end_date]; the last of these
    additions, to [end_date], is the one that can leave the bounds. *)
Definition due_dates_in_range (start_date end_date : date) (payment_day : Z)
  : outcome (list date) :=
  if start_date <=? end_date then
    match add_days end_date 1 with
    | OverflowError => OverflowError
    | Completed _ =>
        Completed (List.filter (fun d => day d =? payment_day)
                     (date_range start_date end_date))
    end
  else Completed [].

(** [is_rent_payment and (due_date - timedelta(days=9) <= trans['date']
    <= due_date + timedelta(days=5))]: the first bound is computed for a
    rent payment only, the second when the first comparison holds. *)
Definition payment_matches (due : date) (t : transaction) : outcome bool :=
  if is_rent_payment t then
    match add_days due (-9) with
    | OverflowError => OverflowError
    | Completed low =>
        if low <=? tr_date t then
          match add_days due 5 with
          | OverflowError => OverflowError
          | Completed high => Completed (tr_date t <=? high)
          end
        else Completed false
    end
  else Completed false.

(** The search loop over [transactions[ap_code]], left at the first match. *)
Fixpoint search_payment (due : date) (l : list transaction) : outcome (option date) :=
  match l with
  | [] => Completed None
  | t :: l' =>
      match payment_matches due t with
      | OverflowError => OverflowError
      | Completed true => Completed (Some (tr_date t))
      | Completed false => search_payment due l'
      end
  end.

Definition find_payment (transactions : gmap string (list transaction))
    (ap_code : string) (due : date) : outcome (option date) :=
  match transactions !! ap_code with
  | Some l => search_payment due l
  | None => Completed None
  end.

(** The item of one due date. *)
Definition rent_item (transactions : gmap string (list transaction))
    (ap_code : string) (realtor_name : option string) (is_upcoming_checkout : bool)
    (due : date) : outcome item :=
  match find_payment transactions ap_code due with
  | OverflowError => OverflowError
  | Completed (Some payment_found_date) =>
      Completed
        (_create_todo_item ap_code
           ("Rent due " ++ strftime_d_b due ++ ", Paid on "
            ++ strftime_d_b payment_found_date)
           (Some (isoformat due)) realtor_name "Paid")
  | Completed None =>
      Completed
        (_create_todo_item ap_code
           ("Rent due on " ++ strftime_d_b due ++ " (UNPAID)"
            ++ (if is_upcoming_checkout then " - 🚪 CHECK-OUT" else ""))
           (Some (isoformat due)) realtor_name "Unpaid")
  end.

Section Derivation.
Variable set_order : date -> date -> bool.
Variables (start_date end_date : date).
Variable transactions : gmap string (list transaction).
Variable last_ut_dates : gmap string date.
Variable c : ap_columns.

(** The loop over [all_due_dates_in_range]. *)
Fixpoint rent_items (code : string) (realtor_name : option string)
    (is_upcoming_checkout : bool) (dues : list date) : outcome (list item) :=
  match dues with
  | [] => Completed []
  | due :: dues' =>
      match rent_item transactions code realtor_name is_upcoming_checkout due with
      | OverflowError => OverflowError
      | Completed x =>
          match rent_items code realtor_name is_upcoming_checkout dues' with
          | OverflowError => OverflowError
          | Completed l =>
              Completed
                (with_context
                   (option_map tr_date (latest_transaction transactions code))
                   (option_map tr_type (latest_transaction transactions code))
                   (last_ut_dates !! code) x :: l)
          end
      end
  end.

(** One round of the loop over the APARTMENTS rows. *)
Definition process_row (new_list : list item) (row : list string) : outcome (list item) :=
  match Py.getitem row (ap_code_col c) with
  | None => Completed new_list
  | Some code =>
      if negb (Py.truthy code) then Completed new_list
      else
        let realtor_name :=
          match Py.getitem row (ap_realtor_col c) with
          | Some r => Some r
          | None => Some "Unknown"
          end in
        let last_trans_date := option_map tr_date (latest_transaction transactions code) in
        let last_trans_type := option_map tr_type (latest_transaction transactions code) in
        let last_ut_date := last_ut_dates !! code in
        let is_upcoming_checkout :=
          date_in_window start_date end_date
            (nonempty_cell_date row (ap_checkout_col c) "%d.%m.%Y")
          || date_in_window start_date end_date
               (nonempty_cell_date row (ap_end_col c) "%d-%m-%Y") in
        if already_checked_out transactions code then Completed new_list
        else
          (* A. rent tasks *)
          match
            match cell_date row (ap_start_col c) "%d-%m-%Y" with
            | Some contract_start_date =>
                match due_dates_in_range start_date end_date (day contract_start_date) with
                | OverflowError => OverflowError
                | Completed dues =>
                    match rent_items code realtor_name is_upcoming_checkout dues with
                    | OverflowError => OverflowError
                    | Completed items => Completed (new_list ++ items)%list
                    end
                end
            | None => Completed new_list
            end
          with
          | OverflowError => OverflowError
          | Completed new_list =>
              (* B. check-outs *)
              Completed
                (fold_left
                   (add_checkout start_date end_date code realtor_name last_trans_date
                      last_trans_type last_ut_date)
                   (set_iter set_order (checkout_dates c row)) new_list)
          end
  end.

(** [new_list] after the loop over the rows. *)
Fixpoint derive_from (new_list : list item) (rows : list (list string))
  : outcome (list item) :=
  match rows with
  | [] => Completed new_list
  | row :: rows' =>
      match process_row new_list row with
      | OverflowError => OverflowError
      | Completed new_list' => derive_from new_list' rows'
      end
  end.

Definition derive (rows : list (list string)) : outcome (list item) :=
  derive_from [] rows.

End Derivation.

(** [generate_list(start_date, end_date)]: [OverflowError], or what the
    call gives otherwise. *)
Definition generate_list (set_order : date -> date -> bool) (self : TodoManager)
    (start_date end_date : date) : outcome (result (TodoManager * list diagnostic)) :=
  match read_sheets (all_data self) with
  | Gave_up d => Completed (Returned (self, [d]))
  | Failed e => Completed (Raised e)
  | Ready transactions last_ut_dates ap_cols rows =>
      match derive set_order start_date end_date transactions last_ut_dates ap_cols rows with
      | OverflowError => OverflowError
      | Completed new_list =>
          let final_list := reconcile (todo_list self) new_list in
          Completed (Returned (with_todo_list self (_sort_list final_list), []))
      end
  end.

End Overflow.

(** *** More sessions *)

Module Session.

(** The manager of a call when it returns, [self] otherwise. *)
Definition after (self : TodoManager) (r : result (TodoManager * list diagnostic))
  : TodoManager :=
  match r with
  | Returned (m, _) => m
  | Raised _ => self
  end.

(** A1 has its rent task for June 2024, with a note of the user. *)
Definition noted_A1 : TodoManager :=
  update_note
    (after (Scenario.tenant_A1 [])
       (generate_list Scenario.end_first (Scenario.tenant_A1 [])
          Scenario.june_1 Scenario.june_30))
    "A1" "call the tenant" (Some "2024-06-15").

(** The user has added a task for Z9, which is not in APARTMENTS, and has
    written a note on it. *)
Definition manual_Z9 : TodoManager :=
  match add_manual_item (Scenario.tenant_A1 []) "Z9" None with
  | Returned (_, m) => update_note m "Z9" "ask the owner" None
  | Raised _ => Scenario.tenant_A1 []
  end.

(** A1 has paid on 10 June 2024, and its meters were read that day. *)
Definition metered_A1 : TodoManager :=
  Scenario.fresh
    (Scenario.sheets [["A1"; "15-01-2024"; ""; "Ann"; ""]] (Scenario.paid_on (-5))
       [["A1"; "10/06/2024"]]).

(** A1 has its rent task for June 2024; the row of MO_DATA for A1 has three
    cells under a header of four, and a row of UT_DATA for B7 stops after
    the code. *)
Definition three_cells : TodoManager :=
  let self :=
    Scenario.fresh
      (Scenario.sheets [["A1"; "15-01-2024"; ""; "Ann"; ""]]
         [["A1"; "2024-06-10"; "CHECK-IN"]]
         [["A1"; "10/06/2024"]; ["B7"]]) in
  after self (generate_list Scenario.end_first self Scenario.june_1 Scenario.june_30).

(** A row of MO_DATA for A1 stops after the date. *)
Definition short_mo_row : TodoManager :=
  Scenario.tenant_A1 [["A1"; "2024-06-10"]].

(** The columns of the sheets of [Scenario.sheets]. *)
Definition mo_cols : mo_columns :=
  {| mo_code_col := 0; mo_date_col := 1; mo_type_col := 2; mo_specific_task_col := 3 |}.

Definition ap_cols : ap_columns :=
  {| ap_code_col := 0; ap_start_col := 1; ap_end_col := 2; ap_realtor_col := 3;
     ap_checkout_col := 4 |}.

End Session.

(** ** Vocabulary of the statements *)

(** No row of the sheet is shorter than the header (the sheets come from a
    reader that pads the rows); an absent sheet has no row. *)
Definition rows_cover_header (all_data : gmap string sheet) (name : string) : Prop :=
  forall sh, all_data !! name = Some sh ->
    Forall (fun row => (length (header sh) <= length row)%nat) (data sh).

(** The user's fields of a task. *)
Definition user_fields (x : item) : string * Py.dict bool * option string :=
  (note x, checked x, check_time x).

(** The check-out item that one round of the loop over the APARTMENTS rows
    adds to [new_list], if it adds one. *)
Definition row_checkout (set_order : date -> date -> bool) (start_date end_date : date)
    (transactions : gmap string (list transaction)) (last_ut_dates : gmap string date)
    (c : ap_columns) (new_list : list item) (row : list string) : option item :=
  match Py.getitem row (ap_code_col c) with
  | Some code =>
      if Py.truthy code && negb (already_checked_out transactions code)
         && negb (existsb (is_checkout_of code) new_list)
      then
        option_map
          (checkout_item code
             (match Py.getitem row (ap_realtor_col c) with
              | Some r => Some r
              | None => Some "Unknown"
              end)
             (option_map tr_date (latest_transaction transactions code))
             (option_map tr_type (latest_transaction transactions code))
             (last_ut_dates !! code))
          (List.find (in_window start_date end_date)
             (set_iter set_order (checkout_dates c row)))
      else None
  | None => None
  end.

(** The row has no contract end and no check-out date in the window. *)
Definition no_checkout_in_window (start_date end_date : date) (c : ap_columns)
    (row : list string) : Prop :=
  forall d, In d (checkout_dates c row) -> in_window start_date end_date d = false.

(** A task as derivation makes it: not manual, no note, no box ticked, no
    check time. *)
Definition fresh_task (x : item) : Prop :=
  manual x = false /\ user_fields x = ("", default_checked, None).

(** Some task of the list has the key [k] and the user's fields [f]. *)
Definition keyed_fields (l : list item) (k : string)
    (f : string * Py.dict bool * option string) : Prop :=
  exists x, In x l /\ item_key x = k /\ user_fields x = f.

(** Some task of the list has the apartment code, the due date and the
    user's fields [f]. *)
Definition identified_fields (l : list item) (code : string) (due : option string)
    (f : string * Py.dict bool * option string) : Prop :=
  exists x, In x l /\ ap_code x = code /\ due_date x = due /\ user_fields x = f.

(** A due date as the program writes it: none, or the ten characters of
    [isoformat]. *)
Definition plain_due_date (x : item) : Prop :=
  due_date x = None \/ exists s, due_date x = Some s /\ String.length s = 10%nat.

(** What the context steps of [add_manual_item] leave alone. *)
Definition same_task (x y : item) : Prop :=
  ap_code y = ap_code x /\ due_date y = due_date x /\ manual y = manual x
  /\ status y = status x /\ user_fields y = user_fields x.

(** The row is a row of the apartment [code] (its code cell, stripped, is
    [code]) and stops before one of the columns [cols]. *)
Definition row_lacks (code_col : nat) (cols : list nat) (code : string)
    (row : list string) : bool :=
  match Py.getitem row code_col with
  | Some cell =>
      (Py.strip cell =? code)%string
      && existsb (fun col => (length row <=? col)%nat) cols
  | None => false
  end.

(** MO_DATA has the three columns that [add_manual_item] looks up, and a
    row of the apartment stops before the date or the type column. *)
Definition mo_row_too_short (all_data : gmap string sheet) (code : string) : bool :=
  match all_data !! "MO_DATA" with
  | Some sh =>
      let mo_header_upper := map (fun h => Py.upper (Py.strip h)) (header sh) in
      match Py.index "APARTMENT CODE" mo_header_upper,
            Py.index "SUBMISSION DATE" mo_header_upper,
            Py.index "TYPE OF MONEY TASK" mo_header_upper with
      | Some code_col, Some date_col, Some type_col =>
          existsb (row_lacks code_col [date_col; type_col] code) (data sh)
      | _, _, _ => false
      end
  | None => false
  end.

(** UT_DATA has its two columns, and a row of the apartment stops before
    the date column. *)
Definition ut_row_too_short (all_data : gmap string sheet) (code : string) : bool :=
  match all_data !! "UT_DATA" with
  | Some sh =>
      match Py.index "Apartment Code" (header sh),
            Py.index "Date of Reading" (header sh) with
      | Some code_col, Some date_col =>
          existsb (row_lacks code_col [date_col] code) (data sh)
      | _, _ => false
      end
  | None => false
  end.

(** The payment event that a row of MO_DATA stands for, with the apartment
    code it is filed under: the row reaches the four columns, its code is
    not blank and its date parses. *)
Definition row_event (c : mo_columns) (row : list string) : option (string * transaction) :=
  match Py.getitem row (mo_code_col c), Py.getitem row (mo_date_col c),
        Py.getitem row (mo_type_col c), Py.getitem row (mo_specific_task_col c) with
  | Some code, Some date_cell, Some type_cell, Some specific_cell =>
      if Py.truthy (Py.strip code) then
        option_map
          (fun d => (Py.strip code,
                     {| tr_date := d; tr_type := Py.strip type_cell;
                        tr_specific := Py.strip specific_cell |}))
          (strptime_first (Py.strip date_cell) MO_FORMATS)
      else None
  | _, _, _, _ => None
  end.

(** The events of one apartment, in the order of the rows. *)
Definition events_of (c : mo_columns) (rows : list (list string)) (code : string)
  : list transaction :=
  flat_map
    (fun row =>
       match row_event c row with
       | Some (k, t) => if (k =? code)%string then [t] else []
       | None => []
       end)
    rows.

(** The reading that a row of UT_DATA stands for in [generate_list]. *)
Definition row_reading (ut_code_col ut_date_col : nat) (row : list string)
  : option (string * date) :=
  match Py.getitem row ut_code_col, Py.getitem row ut_date_col with
  | Some code, Some date_str =>
      option_map (fun d => (code, d)) (strptime_first date_str UT_FORMATS)
  | _, _ => None
  end.

(** * Properties *)

(** ** The stable sort *)

Section SortFacts.
Context {A K : Type} (lt : K -> K -> bool) (key : A -> K).

Lemma insert_perm (x : A) (l : list A) : Permutation (Py.insert lt key x l) (x :: l).
Proof.
  induction l as [|y l IH]; simpl; [reflexivity|].
  destruct (lt (key y) (key x)); [|reflexivity].
  rewrite IH. apply perm_swap.
Qed.

Lemma sort_by_perm (l : list A) : Permutation (Py.sort_by lt key l) l.
Proof.
  induction l as [|x l IH]; simpl; [reflexivity|].
  rewrite insert_perm. now constructor.
Qed.

Lemma sort_by_In (l : list A) (x : A) : In x (Py.sort_by lt key l) <-> In x l.
Proof.
  split; apply Permutation_in; [|symmetry]; apply sort_by_perm.
Qed.

(** Stability: the elements of a class that the order does not separate
    keep their relative order. *)
Lemma insert_filter (p : A -> bool) (x : A) (l : list A) :
  (forall y, p x = true -> p y = true -> lt (key y) (key x) = false) ->
  List.filter p (Py.insert lt key x l) = List.filter p (x :: l).
Proof.
  intros Hp. induction l as [|y l IH]; [reflexivity|].
  simpl. destruct (lt (key y) (key x)) eqn:Hlt; [|reflexivity].
  simpl. rewrite IH. simpl.
  destruct (p x) eqn:Hx; [|reflexivity].
  destruct (p y) eqn:Hy; [|reflexivity].
  rewrite (Hp y eq_refl Hy) in Hlt. discriminate.
Qed.

(** The result is sorted, when the order of the keys is a strict weak
    order. *)
Hypothesis lt_asym : forall a b, lt a b = true -> lt b a = false.
Hypothesis lt_negtrans : forall a b c, lt b a = false -> lt c b = false -> lt c a = false.

Let le (x y : A) : Prop := lt (key y) (key x) = false.

Lemma insert_sorted (x : A) (l : list A) :
  StronglySorted le l -> StronglySorted le (Py.insert lt key x l).
Proof.
  induction l as [|y l IH]; simpl; intros Hs.
  - constructor; constructor.
  - apply StronglySorted_inv in Hs. destruct Hs as [Hs Hy].
    destruct (lt (key y) (key x)) eqn:Hlt.
    + constructor; [now apply IH|].
      apply List.Forall_forall. intros z Hz.
      apply (Permutation_in _ (insert_perm x l)) in Hz. destruct Hz as [<-|Hz].
      * now apply lt_asym.
      * exact (proj1 (List.Forall_forall _ _) Hy z Hz).
    + constructor; [now constructor|].
      constructor; [exact Hlt|].
      apply List.Forall_forall. intros z Hz.
      apply (lt_negtrans (key x) (key y) (key z)); [exact Hlt|].
      exact (proj1 (List.Forall_forall _ _) Hy z Hz).
Qed.

Lemma sort_by_sorted (l : list A) : StronglySorted le (Py.sort_by lt key l).
Proof.
  induction l as [|x l IH]; simpl; [constructor | now apply insert_sorted].
Qed.

(** In a sorted list no element is in front of one of smaller key. *)
Lemma sorted_order (l1 l2 l3 : list A) (x y : A) :
  StronglySorted le (l1 ++ x :: l2 ++ y :: l3) -> lt (key y) (key x) = false.
Proof.
  induction l1 as [|a l1 IH]; simpl; intros Hs;
    apply StronglySorted_inv in Hs; destruct Hs as [Hs Hx].
  - apply (proj1 (List.Forall_forall _ _) Hx y), in_or_app. right. now left.
  - now apply IH.
Qed.

Lemma sort_by_stable (p : A -> bool) (l : list A) :
  (forall x y, p x = true -> p y = true -> lt (key y) (key x) = false) ->
  List.filter p (Py.sort_by lt key l) = List.filter p l.
Proof.
  intros Hp. induction l as [|x l IH]; [reflexivity|].
  simpl Py.sort_by. rewrite insert_filter by (intros y; apply Hp).
  simpl. now rewrite IH.
Qed.
End SortFacts.

(** *** The order of the sort keys *)

Lemma string_compare_le_trans (a b c : string) :
  String.compare a b <> Gt -> String.compare b c <> Gt -> String.compare a c <> Gt.
Proof.
  revert b c. induction a as [|x a IH]; intros [|y b] [|z c]; simpl; try congruence.
  unfold Ascii.compare.
  destruct (N.compare_spec (N_of_ascii x) (N_of_ascii y)) as [Hxy|Hxy|Hxy];
    destruct (N.compare_spec (N_of_ascii y) (N_of_ascii z)) as [Hyz|Hyz|Hyz];
    destruct (N.compare_spec (N_of_ascii x) (N_of_ascii z)) as [Hxz|Hxz|Hxz];
    try congruence; try lia.
  apply IH.
Qed.

Lemma string_ltb_asym (a b : string) : String.ltb a b = true -> String.ltb b a = false.
Proof.
  unfold String.ltb. rewrite (String.compare_antisym b a).
  now destruct (String.compare a b).
Qed.

Lemma string_ltb_negtrans (a b c : string) :
  String.ltb b a = false -> String.ltb c b = false -> String.ltb c a = false.
Proof.
  unfold String.ltb. intros Hba Hcb.
  assert (Hab : String.compare a b <> Gt).
  { rewrite String.compare_antisym. destruct (String.compare b a); simpl; congruence. }
  assert (Hbc : String.compare b c <> Gt).
  { rewrite String.compare_antisym. destruct (String.compare c b); simpl; congruence. }
  assert (Hac := string_compare_le_trans a b c Hab Hbc).
  rewrite String.compare_antisym. destruct (String.compare a c); simpl; congruence.
Qed.

Lemma key_lt_asym (a b : bool * bool * string) : key_lt a b = true -> key_lt b a = false.
Proof.
  destruct a as [[a1 a2] a3], b as [[b1 b2] b3].
  destruct a1, a2, b1, b2; simpl; try congruence; apply string_ltb_asym.
Qed.

Lemma key_lt_negtrans (a b c : bool * bool * string) :
  key_lt b a = false -> key_lt c b = false -> key_lt c a = false.
Proof.
  destruct a as [[a1 a2] a3], b as [[b1 b2] b3], c as [[c1 c2] c3].
  destruct a1, a2, b1, b2, c1, c2; simpl; try congruence; apply string_ltb_negtrans.
Qed.

Lemma sort_list_perm (l : list item) : Permutation (_sort_list l) l.
Proof. apply sort_by_perm. Qed.

Lemma sort_list_In (l : list item) (x : item) : In x (_sort_list l) <-> In x l.
Proof. apply sort_by_In. Qed.

(** The active list after the sort: a task is never in front of a task
    whose key is smaller. *)
Lemma sort_list_order (l l1 l2 l3 : list item) (x y : item) :
  _sort_list l = (l1 ++ x :: l2 ++ y :: l3)%list ->
  key_lt (sort_key y) (sort_key x) = false.
Proof.
  intros Heq. apply (sorted_order key_lt sort_key l1 l2 l3).
  rewrite <- Heq. apply sort_by_sorted; [apply key_lt_asym | apply key_lt_negtrans].
Qed.

(** X29.  The sort is stable: the tasks with the same sort key keep the
    order they had. *)
Lemma sort_list_stable (l : list item) (k : bool * bool * string) :
  List.filter (fun x => if decide (sort_key x = k) then true else false) (_sort_list l)
  = List.filter (fun x => if decide (sort_key x = k) then true else false) l.
Proof.
  apply sort_by_stable. intros x y Hx Hy.
  destruct (decide (sort_key x = k)) as [->|]; [|discriminate].
  destruct (decide (sort_key y = k)) as [->|]; [|discriminate].
  destruct (key_lt k k) eqn:Hk; [|reflexivity].
  now rewrite (key_lt_asym k k Hk) in Hk.
Qed.

(** What the order of the keys says of two tasks [a] and [b]. *)
Lemma sort_key_order (a b : item) :
  (Py.all_values (checked a) = false -> Py.all_values (checked b) = true ->
   key_lt (sort_key a) (sort_key b) = true)
  /\ (Py.all_values (checked a) = Py.all_values (checked b) ->
      due_date a <> None -> due_date b = None ->
      key_lt (sort_key a) (sort_key b) = true)
  /\ (Py.all_values (checked a) = Py.all_values (checked b) ->
      forall da db, due_date a = Some da -> due_date b = Some db ->
      key_lt (sort_key a) (sort_key b)
      = String.ltb (Py.or_empty (Some da)) (Py.or_empty (Some db))).
Proof.
  unfold sort_key, key_lt. repeat split.
  - intros -> ->. reflexivity.
  - intros -> Ha ->. destruct (due_date a); [|congruence].
    now destruct (Py.all_values (checked b)).
  - intros -> da db -> ->. now destruct (Py.all_values (checked b)).
Qed.

(** ** The payment window of a rent task *)

Lemma rent_item_status (transactions : gmap string (list transaction)) (code : string)
    (realtor_name : option string) (flag : bool) (due : date) :
  status (rent_item transactions code realtor_name flag due)
  = match find_payment transactions code due with
    | Some _ => "Paid"
    | None => "Unpaid"
    end.
Proof. unfold rent_item. now destruct (find_payment transactions code due). Qed.

Lemma find_payment_Some (transactions : gmap string (list transaction)) (code : string)
    (due : date) :
  (exists d, find_payment transactions code due = Some d) <->
  exists l t, transactions !! code = Some l /\ In t l /\ payment_matches due t = true.
Proof.
  unfold find_payment. split.
  - intros [d Hd]. destruct (transactions !! code) as [l|]; [|discriminate].
    destruct (List.find (payment_matches due) l) as [t|] eqn:Hfind; [|discriminate].
    apply find_some in Hfind. exists l, t. tauto.
  - intros (l & t & -> & Hin & Hm).
    destruct (List.find (payment_matches due) l) as [t'|] eqn:Hfind.
    + now exists (tr_date t').
    + rewrite (find_none _ _ Hfind t Hin) in Hm. discriminate.
Qed.

Lemma payment_matches_iff (due : date) (t : transaction) :
  payment_matches due t = true <->
  is_rent_payment t = true /\ due - 9 <= tr_date t <= due + 5.
Proof.
  unfold payment_matches. rewrite !andb_true_iff, !Z.leb_le. tauto.
Qed.

(** C6.  A rent task is emitted as "Paid" exactly when the transaction list
    of the apartment holds a rent-related payment (its type contains
    CHECK-IN or its specific type contains RENT COLLECT, whatever the case
    of the letters) dated from 9 days before to 5 days after the due date,
    and as "Unpaid" otherwise.  For a rent-related payment the edges are:
    9 days before matches, 10 days before does not, 5 days after matches,
    6 days after does not. *)
Theorem rent_payment_window (transactions : gmap string (list transaction))
    (code : string) (realtor_name : option string) (flag : bool) (due : date) :
  let x := rent_item transactions code realtor_name flag due in
  (status x = "Paid" <->
     exists l t, transactions !! code = Some l /\ In t l /\
                 (Py.contains "CHECK-IN" (Py.upper (tr_type t)) = true
                  \/ Py.contains "RENT COLLECT" (Py.upper (tr_specific t)) = true) /\
                 due - 9 <= tr_date t <= due + 5)
  /\ (status x = "Unpaid" <-> status x <> "Paid")
  /\ (forall t n, is_rent_payment t = true -> tr_date t = due + n ->
        (payment_matches due t = true <-> -9 <= n <= 5)).
Proof.
  cbv zeta. rewrite rent_item_status. split; [|split].
  - split.
    + intros H. destruct (find_payment transactions code due) as [d|] eqn:Hf;
        [|discriminate].
      destruct (proj1 (find_payment_Some transactions code due)) as (l & t & Hl & Hin & Hm);
        [now exists d|].
      apply payment_matches_iff in Hm. destruct Hm as [Hr Hw].
      exists l, t. repeat split; try tauto.
      now apply orb_true_iff.
    + intros (l & t & Hl & Hin & Hr & Hw).
      destruct (proj2 (find_payment_Some transactions code due)) as [d ->]; [|reflexivity].
      exists l, t. repeat split; trivial.
      apply payment_matches_iff. split; [now apply orb_true_iff | trivial].
  - destruct (find_payment transactions code due); split; congruence.
  - intros t n Hr Hn. rewrite payment_matches_iff, Hn. split; [lia|].
    intros; split; [trivial | lia].
Qed.

(** The same edges through a whole call: one payment of A1 dated 10, 9
    days before and 5, 6 days after the due date 15 June 2024. *)
Example rent_payment_window_edges :
  map (fun n =>
         option_map (map Scenario.identity)
           (Scenario.active
              (generate_list Scenario.end_first (Scenario.tenant_A1 (Scenario.paid_on n))
                 Scenario.june_1 Scenario.june_30)))
      [-10; -9; 5; 6]
  = [Some [("A1", Some "2024-06-15", "Unpaid")];
     Some [("A1", Some "2024-06-15", "Paid")];
     Some [("A1", Some "2024-06-15", "Paid")];
     Some [("A1", Some "2024-06-15", "Unpaid")]].
Proof. vm_compute. reflexivity. Qed.

(** The scenarios of the description: A1 with no payment, A1 with a
    CHECK-IN payment on 10 June 2024, and A2 with a check-out on 20 June
    2024, over June 2024. *)
Example described_scenarios :
  map (fun self =>
         option_map (map Scenario.identity)
           (Scenario.active
              (generate_list Scenario.end_first self Scenario.june_1 Scenario.june_30)))
      [Scenario.tenant_A1 [];
       Scenario.tenant_A1 [["A1"; "10/06/2024"; "CHECK-IN"; ""]];
       Scenario.fresh
         (Scenario.sheets [["A2"; "03-01-2024"; "31-12-2024"; "Bob"; "20.06.2024"]] [] [])]
  = [Some [("A1", Some "2024-06-15", "Unpaid")];
     Some [("A1", Some "2024-06-15", "Paid")];
     Some [("A2", Some "2024-06-03", "Unpaid"); ("A2", Some "2024-06-20", "Check-out")]].
Proof. vm_compute. reflexivity. Qed.

(** ** Sessions in which the program departs from its description *)

(** C3.  A1 pays its rent on the 15th and its contract ends on 15 June
    2024: one call over June 2024 leaves a rent task and a check-out task
    with the same apartment code and the same due date in the active
    list. *)
Theorem generate_list_rent_and_checkout_share_key (set_order : date -> date -> bool) :
  option_map (map Scenario.identity)
    (Scenario.active
       (generate_list set_order Scenario.ends_on_payment_day
          Scenario.june_1 Scenario.june_30))
  = Some [("A1", Some "2024-06-15", "Unpaid"); ("A1", Some "2024-06-15", "Check-out")].
Proof. vm_compute. reflexivity. Qed.

(** C1.  After a first call the user writes a note on the task of A1 due
    on 15 June 2024 (two tasks have this key, the note goes to the first);
    the key is in the list before and after the second call, and the note
    is lost in it. *)
Theorem generate_list_loses_note :
  match Scenario.note_then_generate with
  | Returned (before, after) =>
      map (fun x => (item_key x, note x)) before
      = [("A12024-06-15", "call the tenant"); ("A12024-06-15", "")]
      /\ map (fun x => (item_key x, note x)) after
        = [("A12024-06-15", ""); ("A12024-06-15", "")]
  | Raised _ => False
  end.
Proof. vm_compute. split; reflexivity. Qed.

(** C2.  The user adds a task for A1 due on 20 July 2024; the tasks
    derived for June 2024 hold one rent task of A1, due on 15 June 2024;
    the manual task is not in the list after the call. *)
Theorem generate_list_drops_manual_task :
  match Scenario.manual_then_generate with
  | Returned (before, after) =>
      map (fun x => (Scenario.identity x, manual x)) before
      = [("A1", Some "2024-07-20", "Pending", true)]
      /\ map (fun x => (Scenario.identity x, manual x)) after
        = [("A1", Some "2024-06-15", "Unpaid", false)]
  | Raised _ => False
  end.
Proof. vm_compute. split; reflexivity. Qed.

(** C8.  The three sheets are loaded and UT_DATA has no column
    "Apartment Code": the call raises [ValueError]. *)
Theorem generate_list_raises_on_missing_column (set_order : date -> date -> bool) :
  generate_list set_order Scenario.ut_column_missing Scenario.june_1 Scenario.june_30
  = Raised (ValueError "'Apartment Code' is not in list").
Proof. vm_compute. reflexivity. Qed.

(** C5.  Two tasks with no box ticked, one without a due date and one due
    on 15 June 2024: the dated task is first after the sort, in whichever
    order they were. *)
Theorem sort_list_puts_dated_first :
  let undated :=
    set_manual (_create_todo_item "A1" "Manually added" None (Some "Ann") "Pending") in
  let dated :=
    _create_todo_item "A2" "Rent due on 15-Jun (UNPAID)" (Some "2024-06-15")
      (Some "Bob") "Unpaid" in
  Py.all_values (checked undated) = false
  /\ Py.all_values (checked dated) = false
  /\ _sort_list [undated; dated] = [dated; undated]
  /\ _sort_list [dated; undated] = [dated; undated].
Proof. vm_compute. repeat split; reflexivity. Qed.

(** ** Restore *)

Lemma opt_eqb_eq (a b : option string) : opt_eqb a b = true <-> a = b.
Proof.
  destruct a as [x|], b as [y|]; simpl; try (split; congruence).
  rewrite String.eqb_eq. split; congruence.
Qed.

Lemma is_instance_spec (code : string) (due : option string) (x : item) :
  is_instance code due x = true <-> ap_code x = code /\ due_date x = due.
Proof.
  unfold is_instance. now rewrite andb_true_iff, String.eqb_eq, opt_eqb_eq.
Qed.


(** The session of [Scenario.removed_and_rederived] ends in the state
    [Scenario.trashed_and_active]: a task removed by the user and derived
    again is in the trash bin and in the active list. *)
Lemma removed_and_rederived_state :
  Scenario.removed_and_rederived = Returned Scenario.trashed_and_active.
Proof. vm_compute. reflexivity. Qed.



(** ** Manual insertion *)

Lemma index_lt (x : string) (l : list string) (i : nat) :
  Py.index x l = Some i -> (i < length l)%nat.
Proof.
  revert i. induction l as [|y l IH]; intros i; simpl; [discriminate|].
  destruct (y =? x)%string.
  - intros [= <-]. lia.
  - destruct (Py.index x l) as [j|]; simpl; [|discriminate].
    intros [= <-]. specialize (IH j eq_refl). lia.
Qed.

Lemma getitem_lt {A : Type} (l : list A) (i : nat) :
  (i < length l)%nat -> exists a, Py.getitem l i = Some a.
Proof.
  intros H. unfold Py.getitem. destruct (nth_error l i) as [a|] eqn:E; [now exists a|].
  apply nth_error_None in E. lia.
Qed.

Lemma collect_transactions_returns (code_col date_col type_col width : nat)
    (code : string) (rows : list (list string)) (acc : list (date * string)) :
  (date_col < width)%nat -> (type_col < width)%nat ->
  Forall (fun row => (width <= length row)%nat) rows ->
  exists l, collect_transactions code_col date_col type_col code rows acc = Returned l.
Proof.
  intros Hd Ht Hrows. revert acc.
  induction Hrows as [|row rows Hrow _ IH]; intros acc; simpl; [now exists acc|].
  destruct (Py.getitem row code_col) as [cell|]; [|apply IH].
  destruct (Py.strip cell =? code)%string; [|apply IH].
  destruct (getitem_lt row date_col) as [d ->]; [lia|].
  destruct (getitem_lt row type_col) as [t ->]; [lia|].
  destruct (strptime_first (Py.strip d) MO_FORMATS); apply IH.
Qed.

Lemma collect_last_reading_returns (code_col date_col width : nat)
    (code : string) (rows : list (list string)) (acc : option date) :
  (date_col < width)%nat ->
  Forall (fun row => (width <= length row)%nat) rows ->
  exists o, collect_last_reading code_col date_col code rows acc = Returned o.
Proof.
  intros Hd Hrows. revert acc.
  induction Hrows as [|row rows Hrow _ IH]; intros acc; simpl; [now exists acc|].
  destruct (Py.getitem row code_col) as [cell|]; [|apply IH].
  destruct (Py.strip cell =? code)%string; [|apply IH].
  destruct (getitem_lt row date_col) as [d ->]; [lia|].
  destruct (strptime_first d UT_FORMATS), acc; apply IH.
Qed.

Lemma fetch_last_transaction_same (all_data : gmap string sheet) (code : string)
    (x y : item) :
  fetch_last_transaction all_data code x = Returned y -> same_task x y.
Proof.
  unfold fetch_last_transaction, same_task.
  destruct (Py.index "APARTMENT CODE" _) as [a|]; [|now intros [= <-]].
  destruct (Py.index "SUBMISSION DATE" _) as [b|]; [|now intros [= <-]].
  destruct (Py.index "TYPE OF MONEY TASK" _) as [t|]; [|now intros [= <-]].
  destruct (collect_transactions _ _ _ _ _ _) as [e|l]; [discriminate|].
  destruct (Py.sort_by _ _ l); now intros [= <-].
Qed.

Lemma fetch_last_reading_same (all_data : gmap string sheet) (code : string)
    (x y : item) :
  fetch_last_reading all_data code x = Returned y -> same_task x y.
Proof.
  unfold fetch_last_reading, same_task.
  destruct (Py.index "Apartment Code" _) as [a|]; [|now intros [= <-]].
  destruct (Py.index "Date of Reading" _) as [b|]; [|now intros [= <-]].
  destruct (collect_last_reading _ _ _ _ _) as [e|[d|]]; [discriminate| |];
    now intros [= <-].
Qed.

Lemma fetch_last_transaction_returns (all_data : gmap string sheet) (code : string)
    (x : item) :
  rows_cover_header all_data "MO_DATA" ->
  exists y, fetch_last_transaction all_data code x = Returned y.
Proof.
  intros Hcover. unfold fetch_last_transaction.
  destruct (all_data !! "MO_DATA") as [sh|] eqn:Hsh; [|simpl; now exists x].
  specialize (Hcover sh Hsh).
  destruct (Py.index "APARTMENT CODE" _) as [a|]; [|now exists x].
  destruct (Py.index "SUBMISSION DATE" _) as [b|] eqn:Hb; [|now exists x].
  destruct (Py.index "TYPE OF MONEY TASK" _) as [t|] eqn:Ht; [|now exists x].
  apply index_lt in Hb, Ht. rewrite length_map in Hb, Ht.
  destruct (collect_transactions_returns a b t (length (header sh)) code (data sh) [])
    as [l ->]; trivial.
  destruct (Py.sort_by _ _ l); eexists; reflexivity.
Qed.

Lemma fetch_last_reading_returns (all_data : gmap string sheet) (code : string)
    (x : item) :
  rows_cover_header all_data "UT_DATA" ->
  exists y, fetch_last_reading all_data code x = Returned y.
Proof.
  intros Hcover. unfold fetch_last_reading.
  destruct (all_data !! "UT_DATA") as [sh|] eqn:Hsh; [|simpl; now exists x].
  specialize (Hcover sh Hsh).
  destruct (Py.index "Apartment Code" _) as [a|]; [|now exists x].
  destruct (Py.index "Date of Reading" _) as [b|] eqn:Hb; [|now exists x].
  apply index_lt in Hb.
  destruct (collect_last_reading_returns a b (length (header sh)) code (data sh) None)
    as [[d|] ->]; trivial; eexists; reflexivity.
Qed.

Lemma getitem_None_le {A : Type} (l : list A) (i : nat) :
  Py.getitem l i = None -> (length l <=? i)%nat = true.
Proof. intros H. apply Nat.leb_le. now apply nth_error_None. Qed.

Lemma getitem_Some_gt {A : Type} (l : list A) (i : nat) (a : A) :
  Py.getitem l i = Some a -> (length l <=? i)%nat = false.
Proof.
  intros H. apply Nat.leb_gt. apply nth_error_Some. unfold Py.getitem in H. congruence.
Qed.

(** The loops of the context raise on the first row of the apartment that
    is too short, and on no other row. *)
Lemma collect_transactions_outcome (code_col date_col type_col : nat) (code : string)
    (rows : list (list string)) (acc : list (date * string)) :
  if existsb (row_lacks code_col [date_col; type_col] code) rows
  then collect_transactions code_col date_col type_col code rows acc = Raised IndexError
  else exists l, collect_transactions code_col date_col type_col code rows acc = Returned l.
Proof.
  revert acc. induction rows as [|row rows IH]; intros acc; simpl; [now exists acc|].
  unfold row_lacks at 1.
  destruct (Py.getitem row code_col) as [cell|]; [|apply IH].
  destruct (Py.strip cell =? code)%string; [|apply IH]. simpl.
  destruct (Py.getitem row date_col) as [d|] eqn:Hd.
  - rewrite (getitem_Some_gt _ _ _ Hd). simpl.
    destruct (Py.getitem row type_col) as [t|] eqn:Ht.
    + rewrite (getitem_Some_gt _ _ _ Ht). simpl.
      destruct (strptime_first (Py.strip d) MO_FORMATS); apply IH.
    + rewrite (getitem_None_le _ _ Ht). reflexivity.
  - rewrite (getitem_None_le _ _ Hd). reflexivity.
Qed.

Lemma collect_last_reading_outcome (code_col date_col : nat) (code : string)
    (rows : list (list string)) (acc : option date) :
  if existsb (row_lacks code_col [date_col] code) rows
  then collect_last_reading code_col date_col code rows acc = Raised IndexError
  else exists o, collect_last_reading code_col date_col code rows acc = Returned o.
Proof.
  revert acc. induction rows as [|row rows IH]; intros acc; simpl; [now exists acc|].
  unfold row_lacks at 1.
  destruct (Py.getitem row code_col) as [cell|]; [|apply IH].
  destruct (Py.strip cell =? code)%string; [|apply IH]. simpl.
  destruct (Py.getitem row date_col) as [d|] eqn:Hd.
  - rewrite (getitem_Some_gt _ _ _ Hd). simpl.
    destruct (strptime_first d UT_FORMATS), acc; apply IH.
  - rewrite (getitem_None_le _ _ Hd). reflexivity.
Qed.

Lemma fetch_last_transaction_outcome (all_data : gmap string sheet) (code : string)
    (x : item) :
  if mo_row_too_short all_data code
  then fetch_last_transaction all_data code x = Raised IndexError
  else exists y, fetch_last_transaction all_data code x = Returned y.
Proof.
  unfold mo_row_too_short, fetch_last_transaction.
  destruct (all_data !! "MO_DATA") as [sh|]; [|simpl; now exists x].
  cbv zeta.
  destruct (Py.index "APARTMENT CODE" _) as [a|]; [|now exists x].
  destruct (Py.index "SUBMISSION DATE" _) as [b|]; [|now exists x].
  destruct (Py.index "TYPE OF MONEY TASK" _) as [t|]; [|now exists x].
  assert (H := collect_transactions_outcome a b t code (data sh) []).
  destruct (existsb _ (data sh)).
  - now rewrite H.
  - destruct H as [l ->]. destruct (Py.sort_by _ _ l); eexists; reflexivity.
Qed.

Lemma fetch_last_reading_outcome (all_data : gmap string sheet) (code : string)
    (x : item) :
  if ut_row_too_short all_data code
  then fetch_last_reading all_data code x = Raised IndexError
  else exists y, fetch_last_reading all_data code x = Returned y.
Proof.
  unfold ut_row_too_short, fetch_last_reading.
  destruct (all_data !! "UT_DATA") as [sh|]; [|simpl; now exists x].
  cbv zeta.
  destruct (Py.index "Apartment Code" _) as [a|]; [|now exists x].
  destruct (Py.index "Date of Reading" _) as [b|]; [|now exists x].
  assert (H := collect_last_reading_outcome a b code (data sh) None).
  destruct (existsb _ (data sh)).
  - now rewrite H.
  - destruct H as [[d|] ->]; eexists; reflexivity.
Qed.

(** C9, as the program has it.  The key of the call is the string made
    of the code and of the due date in ISO form.  The call returns a
    failure result exactly when this key is the key of a task of the
    active list, and then leaves the manager as it is; an apartment code
    that is not in APARTMENTS is accepted (the realtor is then
    "Unknown").  With a new key the call raises [IndexError], and adds
    nothing, exactly when a row of the apartment in MO_DATA stops before
    the date or the type column, or a row of the apartment in UT_DATA
    before the date column; otherwise it succeeds: a task with this code
    and due date, [manual] set and status "Pending", is added, and the
    list is sorted, every former task staying as it was. *)
Theorem add_manual_item_rejects_duplicates_only (self : TodoManager) (code : string)
    (due : option date) :
  let key := code ++ Py.or_empty (option_map isoformat due) in
  let too_short :=
    mo_row_too_short (all_data self) code || ut_row_too_short (all_data self) code in
  (has_key key (todo_list self) = true
   /\ exists msg, add_manual_item self code due = Returned (false, msg, self))
  \/ (has_key key (todo_list self) = false
      /\ too_short = true
      /\ add_manual_item self code due = Raised IndexError)
  \/ (has_key key (todo_list self) = false
      /\ too_short = false
      /\ exists msg x,
           add_manual_item self code due
           = Returned (true, msg,
                       with_todo_list self (_sort_list (todo_list self ++ [x])))
           /\ ap_code x = code
           /\ due_date x = option_map isoformat due
           /\ manual x = true
           /\ status x = "Pending"
           /\ user_fields x = ("", default_checked, None)
           /\ Permutation (_sort_list (todo_list self ++ [x])) (todo_list self ++ [x])).
Proof.
  intros key too_short. unfold add_manual_item. fold key.
  destruct (has_key key (todo_list self)) eqn:Hkey.
  - left. split; [reflexivity|]. eexists. reflexivity.
  - right.
    assert (Hmo := fetch_last_transaction_outcome (all_data self) code
                     (manual_item (all_data self) code due)).
    unfold too_short.
    destruct (mo_row_too_short (all_data self) code).
    + left. rewrite Hmo. repeat split.
    + destruct Hmo as [y Hy]. rewrite Hy.
      assert (Hut := fetch_last_reading_outcome (all_data self) code y).
      destruct (ut_row_too_short (all_data self) code).
      * left. rewrite Hut. repeat split.
      * right. destruct Hut as [z Hz]. rewrite Hz.
        apply fetch_last_transaction_same in Hy. apply fetch_last_reading_same in Hz.
        destruct Hy as (Ha & Hd & Hm & Hs & Hu), Hz as (Ha' & Hd' & Hm' & Hs' & Hu').
        split; [reflexivity|]. split; [reflexivity|].
        eexists _, z. split; [reflexivity|].
        rewrite Ha', Hd', Hm', Hs', Hu', Ha, Hd, Hm, Hs, Hu.
        repeat split. apply sort_list_perm.
Qed.

Lemma add_manual_item_rejects_duplicates_only_witness :
  let self := Session.three_cells in
  let due := Some (ymd2ord 2024 7 20) in
  map Scenario.identity (todo_list self) = [("A1", Some "2024-06-15", "Unpaid")]
  /\ has_key ("A1" ++ Py.or_empty (option_map isoformat due)) (todo_list self) = false
  /\ mo_row_too_short (all_data self) "A1" || ut_row_too_short (all_data self) "A1" = false
  /\ exists msg x,
       add_manual_item self "A1" due
       = Returned (true, msg, with_todo_list self (_sort_list (todo_list self ++ [x])))
       /\ ap_code x = "A1"
       /\ due_date x = option_map isoformat due
       /\ manual x = true
       /\ status x = "Pending"
       /\ user_fields x = ("", default_checked, None)
       /\ Permutation (_sort_list (todo_list self ++ [x])) (todo_list self ++ [x]).
Proof.
  intros self due. split; [vm_compute; reflexivity|].
  assert (H := add_manual_item_rejects_duplicates_only self "A1" due).
  cbv zeta in H. destruct H as [[H _]|[(_ & H & _)|H]].
  - vm_compute in H. discriminate.
  - vm_compute in H. discriminate.
  - exact H.
Defined.

(** C9 fails as it is written.  Z9 is not an apartment of APARTMENTS, no
    task has its key, and the call succeeds.  And A1 is an apartment of
    APARTMENTS, no task has its key, and the call neither returns a
    failure result nor adds a task: it raises, on the row of MO_DATA
    that stops after the date. *)
Lemma add_manual_item_accepts_unknown_code :
  (get_apartment_data (all_data (Scenario.tenant_A1 [])) Scenario.unknown_code = None
   /\ has_key Scenario.unknown_code (todo_list (Scenario.tenant_A1 [])) = false
   /\ option_map (map (fun x => (Scenario.identity x, manual x, realtor x)))
        (match add_manual_item (Scenario.tenant_A1 []) Scenario.unknown_code None with
         | Returned (true, _, m) => Some (todo_list m)
         | _ => None
         end)
      = Some [("Z9", None, "Pending", true, Some "Unknown")])
  /\ (get_apartment_data (all_data Session.short_mo_row) "A1" <> None
      /\ has_key "A1" (todo_list Session.short_mo_row) = false
      /\ add_manual_item Session.short_mo_row "A1" None = Raised IndexError).
Proof. vm_compute. repeat split; try reflexivity. discriminate. Qed.

(** ** Check-out tasks *)

Lemma filter_perm {A : Type} (p : A -> bool) (l l' : list A) :
  Permutation l l' -> Permutation (List.filter p l) (List.filter p l').
Proof.
  induction 1 as [|x l l' _ IH|x y l|l l' l'' _ IH1 _ IH2]; simpl.
  - constructor.
  - destruct (p x); [now constructor | trivial].
  - destruct (p x), (p y); try reflexivity. apply perm_swap.
  - now transitivity (List.filter p l').
Qed.

Lemma existsb_filter_nil {A : Type} (p : A -> bool) (l : list A) :
  existsb p l = false <-> List.filter p l = [].
Proof.
  induction l as [|x l IH]; simpl; [tauto|].
  destruct (p x); simpl; [split; discriminate | trivial].
Qed.

Lemma set_iter_In (set_order : date -> date -> bool) (l : list date) (d : date) :
  In d (set_iter set_order l) <-> In d l.
Proof.
  destruct l as [|a [|b [|? ?]]]; simpl; try tauto.
  destruct (Z.eqb_spec a b) as [->|_]; [simpl; tauto|].
  destruct (set_order a b); simpl; tauto.
Qed.

Lemma find_in_window (start_date end_date : date) (l : list date) :
  (exists d, In d l /\ in_window start_date end_date d = true) ->
  exists d, List.find (in_window start_date end_date) l = Some d.
Proof.
  intros (d & Hin & Hw).
  destruct (List.find (in_window start_date end_date) l) as [d'|] eqn:Hf; [now exists d'|].
  rewrite (find_none _ _ Hf d Hin) in Hw. discriminate.
Qed.

Section CheckoutFacts.
Variable set_order : date -> date -> bool.
Variables (start_date end_date : date).
Variable transactions : gmap string (list transaction).
Variable last_ut_dates : gmap string date.
Variable c : ap_columns.

Let process := process_row set_order start_date end_date transactions last_ut_dates c.
Let emitted := row_checkout set_order start_date end_date transactions last_ut_dates c.

Lemma is_checkout_of_checkout_item (code code' : string) r a b u d :
  is_checkout_of code (checkout_item code' r a b u d) = (code' =? code)%string.
Proof. unfold is_checkout_of. simpl. apply andb_true_r. Qed.

Lemma rent_item_not_checkout (code code' : string) r f a b u due :
  is_checkout_of code (with_context a b u (rent_item transactions code' r f due)) = false.
Proof.
  unfold is_checkout_of, rent_item.
  destruct (find_payment transactions code' due); simpl; apply andb_false_r.
Qed.

Lemma rent_items_no_checkout (code code' : string) r f a b u (dues : list date) :
  List.filter (is_checkout_of code)
    (map (fun due => with_context a b u (rent_item transactions code' r f due)) dues) = [].
Proof.
  induction dues as [|due dues IH]; simpl; [reflexivity|].
  now rewrite rent_item_not_checkout.
Qed.

(** The loop over the set adds the item of the first date of the window,
    unless the apartment has a check-out item already. *)
Lemma add_checkouts_spec (code : string) r a b u (ds : list date) (acc : list item) :
  fold_left (add_checkout start_date end_date code r a b u) ds acc
  = if existsb (is_checkout_of code) acc then acc
    else match List.find (in_window start_date end_date) ds with
         | Some d => (acc ++ [checkout_item code r a b u d])%list
         | None => acc
         end.
Proof.
  revert acc. induction ds as [|d ds IH]; intros acc; simpl.
  - now destruct (existsb _ acc).
  - rewrite IH. unfold add_checkout.
    destruct (in_window start_date end_date d); [|reflexivity].
    destruct (existsb (is_checkout_of code) acc) eqn:Hex; simpl; [now rewrite Hex|].
    rewrite existsb_app. simpl.
    rewrite is_checkout_of_checkout_item, String.eqb_refl. now rewrite orb_true_r.
Qed.

(** The check-out items of an apartment after one round. *)
Lemma process_row_checkouts (code : string) (acc : list item) (row : list string) :
  List.filter (is_checkout_of code) (process acc row)
  = (List.filter (is_checkout_of code) acc
     ++ List.filter (is_checkout_of code) (opt_to_list (emitted acc row)))%list.
Proof.
  unfold process, emitted, process_row, row_checkout.
  destruct (Py.getitem row (ap_code_col c)) as [code'|]; [|now rewrite app_nil_r].
  destruct (Py.truthy code'); simpl; [|now rewrite app_nil_r].
  destruct (already_checked_out transactions code'); simpl; [now rewrite app_nil_r|].
  rewrite add_checkouts_spec.
  set (rents := match cell_date row (ap_start_col c) "%d-%m-%Y" with
                | Some _ => _
                | None => acc
                end).
  assert (Hrents : forall q, List.filter (is_checkout_of q) rents
                             = List.filter (is_checkout_of q) acc).
  { intros q. subst rents. destruct (cell_date row (ap_start_col c) "%d-%m-%Y"); trivial.
    now rewrite List.filter_app, rent_items_no_checkout, app_nil_r. }
  assert (Hex : existsb (is_checkout_of code') rents = existsb (is_checkout_of code') acc).
  { destruct (existsb (is_checkout_of code') acc) eqn:E.
    - destruct (existsb (is_checkout_of code') rents) eqn:E'; trivial.
      apply existsb_filter_nil in E'. rewrite Hrents in E'.
      apply existsb_filter_nil in E'. congruence.
    - apply existsb_filter_nil. rewrite Hrents. now apply existsb_filter_nil. }
  rewrite Hex. destruct (existsb (is_checkout_of code') acc); simpl.
  - now rewrite Hrents, app_nil_r.
  - destruct (List.find _ _); simpl.
    + now rewrite List.filter_app, Hrents.
    + now rewrite Hrents, app_nil_r.
Qed.

Lemma emitted_code (code : string) (acc : list item) (row : list string) (x : item) :
  emitted acc row = Some x -> is_checkout_of code x = true ->
  Py.getitem row (ap_code_col c) = Some code
  /\ existsb (is_checkout_of code) acc = false
  /\ exists d, due_date x = Some (isoformat d) /\ In d (checkout_dates c row)
              /\ in_window start_date end_date d = true.
Proof.
  unfold emitted, row_checkout.
  destruct (Py.getitem row (ap_code_col c)) as [code'|]; [|discriminate].
  destruct (Py.truthy code'); simpl; [|discriminate].
  destruct (already_checked_out transactions code'); simpl; [discriminate|].
  destruct (existsb (is_checkout_of code') acc) eqn:Hex; simpl; [discriminate|].
  destruct (List.find _ _) as [d|] eqn:Hfind; simpl; [|discriminate].
  intros [= <-]. rewrite is_checkout_of_checkout_item. intros Hc.
  apply String.eqb_eq in Hc. subst code'.
  apply find_some in Hfind. destruct Hfind as [Hin Hw].
  apply set_iter_In in Hin. split; [reflexivity|]. split; [exact Hex|].
  exists d. auto.
Qed.

(** Once an apartment has its check-out item, no round adds another. *)
Lemma checkout_stays (code : string) (x : item) (rows : list (list string))
    (acc : list item) :
  List.filter (is_checkout_of code) acc = [x] ->
  List.filter (is_checkout_of code) (fold_left process rows acc) = [x].
Proof.
  revert acc. induction rows as [|row rows IH]; intros acc Hacc; simpl; [exact Hacc|].
  apply IH. rewrite process_row_checkouts, Hacc.
  destruct (emitted acc row) as [y|] eqn:Hy; simpl; [|reflexivity].
  destruct (is_checkout_of code y) eqn:Hc; [|reflexivity].
  destruct (emitted_code code acc row y Hy Hc) as (_ & Hex & _).
  apply existsb_filter_nil in Hex. congruence.
Qed.

(** The rows of the apartment that have no date in the window add none. *)
Lemma checkout_not_yet (code : string) (rows : list (list string)) (acc : list item) :
  Forall (fun r => Py.getitem r (ap_code_col c) = Some code ->
                   no_checkout_in_window start_date end_date c r) rows ->
  List.filter (is_checkout_of code) acc = [] ->
  List.filter (is_checkout_of code) (fold_left process rows acc) = [].
Proof.
  intros Hrows. revert acc.
  induction Hrows as [|row rows Hrow _ IH]; intros acc Hacc; simpl; [exact Hacc|].
  apply IH. rewrite process_row_checkouts, Hacc.
  destruct (emitted acc row) as [y|] eqn:Hy; simpl; [|reflexivity].
  destruct (is_checkout_of code y) eqn:Hc; [|reflexivity].
  destruct (emitted_code code acc row y Hy Hc) as (Hcode & _ & d & _ & Hin & Hw).
  rewrite (Hrow Hcode d Hin) in Hw. discriminate.
Qed.

(** The first row of an apartment with a date in the window adds its
    check-out item, and the derived list has this one only. *)
Lemma derive_one_checkout (code : string) (before after : list (list string))
    (row : list string) :
  Py.getitem row (ap_code_col c) = Some code ->
  Py.truthy code = true ->
  already_checked_out transactions code = false ->
  (exists d, In d (checkout_dates c row) /\ in_window start_date end_date d = true) ->
  Forall (fun r => Py.getitem r (ap_code_col c) = Some code ->
                   no_checkout_in_window start_date end_date c r) before ->
  exists x d,
    List.filter (is_checkout_of code)
      (derive set_order start_date end_date transactions last_ut_dates c
         (before ++ row :: after)) = [x]
    /\ due_date x = Some (isoformat d)
    /\ In d (checkout_dates c row)
    /\ in_window start_date end_date d = true.
Proof.
  intros Hcode Htruthy Hout Hdate Hbefore.
  unfold derive. rewrite fold_left_app. cbn [fold_left].
  fold process.
  assert (Hnone := checkout_not_yet code before [] Hbefore eq_refl).
  set (acc := fold_left process before []) in *.
  assert (Hex : existsb (is_checkout_of code) acc = false)
    by now apply existsb_filter_nil.
  destruct (find_in_window start_date end_date (set_iter set_order (checkout_dates c row)))
    as [d Hfind].
  { destruct Hdate as (d & Hin & Hw). exists d. split; [now apply set_iter_In | trivial]. }
  assert (Hemit : exists x, emitted acc row = Some x /\ is_checkout_of code x = true).
  { unfold emitted, row_checkout. rewrite Hcode, Htruthy, Hout, Hex, Hfind. simpl.
    eexists. split; [reflexivity|].
    rewrite is_checkout_of_checkout_item. apply String.eqb_refl. }
  destruct Hemit as (x & Hx & Hc).
  destruct (emitted_code code acc row x Hx Hc) as (_ & _ & d' & Hdue & Hin & Hw).
  exists x, d'. split; [|auto].
  apply checkout_stays. rewrite process_row_checkouts. fold process. fold acc.
  rewrite Hnone, Hx. simpl. now rewrite Hc.
Qed.

End CheckoutFacts.

(** ** The index of the old list *)

Section DictFacts.
Context {V : Type}.

(** No key occurs twice in the dict. *)
Let wf (d : Py.dict V) : Prop := List.NoDup (map fst d).

Lemma dict_get_set_eq (k : string) (v : V) (d : Py.dict V) :
  Py.dict_get k (Py.dict_set k v d) = Some v.
Proof.
  induction d as [|[k' v'] d IH]; simpl.
  - now rewrite String.eqb_refl.
  - destruct (String.eqb_spec k' k) as [->|Hne]; simpl.
    + now rewrite String.eqb_refl.
    + destruct (String.eqb_spec k' k); [contradiction | exact IH].
Qed.

Lemma dict_get_set_ne (k k' : string) (v : V) (d : Py.dict V) :
  k <> k' -> Py.dict_get k' (Py.dict_set k v d) = Py.dict_get k' d.
Proof.
  intros Hne. induction d as [|[k0 v0] d IH]; simpl.
  - destruct (String.eqb_spec k k'); [contradiction | reflexivity].
  - destruct (String.eqb_spec k0 k) as [->|Hne0]; simpl.
    + destruct (String.eqb_spec k k'); [contradiction | reflexivity].
    + now rewrite IH.
Qed.

Lemma dict_set_keys (k k' : string) (v : V) (d : Py.dict V) :
  In k' (map fst (Py.dict_set k v d)) <-> k' = k \/ In k' (map fst d).
Proof.
  induction d as [|[k0 v0] d IH]; simpl.
  - intuition congruence.
  - destruct (String.eqb_spec k0 k) as [->|Hne]; simpl.
    + intuition congruence.
    + rewrite IH. intuition congruence.
Qed.

Lemma dict_set_wf (k : string) (v : V) (d : Py.dict V) : wf d -> wf (Py.dict_set k v d).
Proof.
  unfold wf. induction d as [|[k0 v0] d IH]; simpl; intros Hwf.
  - constructor; [intros [] | constructor].
  - apply NoDup_cons_iff in Hwf. destruct Hwf as [Hk0 Hwf].
    destruct (String.eqb_spec k0 k) as [->|Hne]; simpl.
    + now constructor.
    + constructor; [|now apply IH].
      rewrite dict_set_keys. intros [->|Hin]; contradiction.
Qed.

Lemma dict_set_In (k k' : string) (v v' : V) (d : Py.dict V) :
  wf d -> In (k', v') (Py.dict_set k v d) ->
  (k' = k /\ v' = v) \/ (k' <> k /\ In (k', v') d).
Proof.
  unfold wf. induction d as [|[k0 v0] d IH]; simpl; intros Hwf.
  - intros [[= <- <-]|[]]. now left.
  - apply NoDup_cons_iff in Hwf. destruct Hwf as [Hk0 Hwf].
    destruct (String.eqb_spec k0 k) as [->|Hne]; simpl.
    + intros [[= <- <-]|Hin]; [now left|]. right. split; [|now right].
      intros ->. apply Hk0. now apply (in_map fst) in Hin.
    + intros [[= <- <-]|Hin]; [right; split; [trivial | now left]|].
      destruct (IH Hwf Hin) as [Heq|[Hneq Hin']]; [now left | right; auto].
Qed.

Lemma dict_get_In (k : string) (v : V) (d : Py.dict V) :
  wf d -> (Py.dict_get k d = Some v <-> In (k, v) d).
Proof.
  unfold wf. induction d as [|[k0 v0] d IH]; simpl; intros Hwf.
  - split; [discriminate | tauto].
  - apply NoDup_cons_iff in Hwf. destruct Hwf as [Hk0 Hwf].
    destruct (String.eqb_spec k0 k) as [->|Hne].
    + split.
      * intros [= ->]. now left.
      * intros [[= ->]|Hin]; [reflexivity|].
        exfalso. apply Hk0. now apply (in_map fst) in Hin.
    + rewrite (IH Hwf). split; [now right|].
      intros [[= -> _]|Hin]; [contradiction | exact Hin].
Qed.

End DictFacts.

Lemma index_from_wf (l : list item) (d : Py.dict item) :
  List.NoDup (map fst d) ->
  List.NoDup (map fst (fold_left (fun d x => Py.dict_set (item_key x) x d) l d)).
Proof.
  revert d. induction l as [|x l IH]; intros d Hwf; simpl; [exact Hwf|].
  apply IH. now apply dict_set_wf.
Qed.

Lemma index_from_In (l : list item) (d : Py.dict item) (k : string) (v : item) :
  List.NoDup (map fst d) ->
  In (k, v) (fold_left (fun d x => Py.dict_set (item_key x) x d) l d) ->
  In (k, v) d \/ (In v l /\ item_key v = k).
Proof.
  revert d. induction l as [|x l IH]; intros d Hwf; simpl; [now left|].
  intros Hin. destruct (IH _ (dict_set_wf _ _ _ Hwf) Hin) as [Hd|[Hl Hk]].
  - destruct (dict_set_In _ _ _ _ _ Hwf Hd) as [[-> ->]|[_ Hd']]; [right | left]; auto.
  - right. auto.
Qed.

Lemma index_from_get (l : list item) (d : Py.dict item) (k : string) :
  (exists v, Py.dict_get k d = Some v) \/ (exists x, In x l /\ item_key x = k) ->
  exists v, Py.dict_get k (fold_left (fun d x => Py.dict_set (item_key x) x d) l d) = Some v.
Proof.
  revert d. induction l as [|x l IH]; intros d; simpl.
  - intros [H|(x & [] & _)]. exact H.
  - intros H. apply IH.
    destruct (String.eqb_spec (item_key x) k) as [<-|Hne].
    + left. eexists. apply dict_get_set_eq.
    + destruct H as [[v Hv]|(y & [->|Hy] & Hk)].
      * left. exists v. now rewrite dict_get_set_ne.
      * contradiction.
      * right. now exists y.
Qed.

Lemma index_by_key_wf (l : list item) : List.NoDup (map fst (index_by_key l)).
Proof. apply index_from_wf. constructor. Qed.

(** An entry of the index is an item of the list under its own key. *)
Lemma index_by_key_In (l : list item) (k : string) (v : item) :
  In (k, v) (index_by_key l) -> In v l /\ item_key v = k.
Proof.
  intros H. destruct (index_from_In l [] k v) as [[]|Hv]; [constructor | exact H | exact Hv].
Qed.

Lemma index_by_key_get (l : list item) (k : string) (v : item) :
  Py.dict_get k (index_by_key l) = Some v <-> In (k, v) (index_by_key l).
Proof. apply dict_get_In, index_by_key_wf. Qed.

(** A key of the list is a key of the index. *)
Lemma index_by_key_has (l : list item) (x : item) :
  In x l -> exists v, Py.dict_get (item_key x) (index_by_key l) = Some v.
Proof. intros Hx. apply index_from_get. right. now exists x. Qed.

(** Two entries of the index with the same key are the same item. *)
Lemma index_by_key_inj (l : list item) (k k' : string) (v v' : item) :
  In (k, v) (index_by_key l) -> In (k', v') (index_by_key l) ->
  item_key v = item_key v' -> v = v'.
Proof.
  intros Hv Hv' Hk.
  destruct (index_by_key_In _ _ _ Hv) as [_ <-].
  destruct (index_by_key_In _ _ _ Hv') as [_ <-].
  apply index_by_key_get in Hv, Hv'. rewrite Hk in Hv. congruence.
Qed.

(** The entry of a key is the last item of the list with this key. *)
Lemma index_from_last (l : list item) (d : Py.dict item) (k : string) (v : item) :
  Py.dict_get k (fold_left (fun d x => Py.dict_set (item_key x) x d) l d) = Some v ->
  (exists l1 l2, l = (l1 ++ v :: l2)%list /\ forall z, In z l2 -> item_key z <> k)
  \/ (Py.dict_get k d = Some v /\ forall z, In z l -> item_key z <> k).
Proof.
  revert d. induction l as [|x l IH]; intros d; simpl.
  - intros H. right. split; [exact H | intros z []].
  - intros H. destruct (IH _ H) as [(l1 & l2 & -> & Hl2)|[Hget Hl]].
    + left. now exists (x :: l1), l2.
    + destruct (String.eqb_spec (item_key x) k) as [Hk|Hk].
      * left. rewrite <- Hk, dict_get_set_eq in Hget. injection Hget as <-.
        now exists [], l.
      * right. rewrite dict_get_set_ne in Hget by exact Hk.
        split; [exact Hget|]. intros z [<-|Hz]; [exact Hk | now apply Hl].
Qed.

Lemma index_by_key_last (l : list item) (k : string) (v : item) :
  Py.dict_get k (index_by_key l) = Some v ->
  exists l1 l2, l = (l1 ++ v :: l2)%list /\ forall z, In z l2 -> item_key z <> k.
Proof.
  intros H. destruct (index_from_last l [] k v H) as [Hl|[Hget _]]; [exact Hl | discriminate].
Qed.

Lemma append_cons (x : ascii) (a s : string) :
  String x a ++ s = String x (a ++ s).
Proof. reflexivity. Qed.

Lemma length_append (a s : string) :
  String.length (a ++ s) = (String.length a + String.length s)%nat.
Proof.
  induction a as [|x a IH]; [reflexivity|].
  rewrite append_cons. simpl. now rewrite IH.
Qed.

(** Two keys with due dates of the same length have the same apartment
    code. *)
Lemma append_inj_suffix (a b s s' : string) :
  a ++ s = b ++ s' -> String.length s = String.length s' -> a = b.
Proof.
  revert b. induction a as [|x a IH]; intros [|y b]; simpl; intros Heq Hlen.
  - reflexivity.
  - exfalso. apply (f_equal String.length) in Heq.
    rewrite !length_append in Heq. simpl in Heq. lia.
  - exfalso. apply (f_equal String.length) in Heq.
    rewrite !length_append in Heq. simpl in Heq. lia.
  - rewrite !append_cons in Heq. injection Heq as -> Heq. f_equal. now apply IH.
Qed.

(** ** Reconciliation *)

Lemma adopt_identity (os : Py.dict item) (x : item) :
  ap_code (adopt os x) = ap_code x /\ due_date (adopt os x) = due_date x
  /\ status (adopt os x) = status x /\ manual (adopt os x) = manual x.
Proof. unfold adopt. now destruct (Py.dict_get (item_key x) os). Qed.

Lemma adopt_key (os : Py.dict item) (x : item) : item_key (adopt os x) = item_key x.
Proof. unfold adopt. now destruct (Py.dict_get (item_key x) os). Qed.

Lemma adopt_user_fields (os : Py.dict item) (x : item) :
  user_fields (adopt os x)
  = match Py.dict_get (item_key x) os with
    | Some old_item => user_fields old_item
    | None => user_fields x
    end.
Proof. unfold adopt. now destruct (Py.dict_get (item_key x) os). Qed.

Lemma NoDup_map_inj {A B : Type} (f : A -> B) (l : list A) (x y : A) :
  List.NoDup (map f l) -> In x l -> In y l -> f x = f y -> x = y.
Proof.
  induction l as [|a l IH]; simpl; [tauto|].
  intros Hnd. apply NoDup_cons_iff in Hnd. destruct Hnd as [Ha Hnd].
  intros [->|Hx] [->|Hy] Hf; trivial.
  - exfalso. apply Ha. rewrite Hf. now apply in_map.
  - exfalso. apply Ha. rewrite <- Hf. now apply in_map.
  - now apply IH.
Qed.

(** The loop that adds the manual items back: it adds, in the order of the
    index, the manual items whose apartment has no item in the list so
    far.  The items added have different apartments; an entry that is
    manual and is not added is blocked by an item of its apartment. *)
Lemma readd_manual_fold (entries : Py.dict item) (fl : list item) :
  exists extra,
    fold_left readd_manual entries fl = (fl ++ extra)%list
    /\ List.NoDup (map ap_code extra)
    /\ (forall y, In y extra ->
          manual y = true /\ (exists k, In (k, y) entries)
          /\ forall z, In z fl -> ap_code z <> ap_code y)
    /\ (forall k y, In (k, y) entries -> manual y = true ->
          In y extra \/ exists z, In z (fl ++ extra)%list /\ ap_code z = ap_code y).
Proof.
  revert fl. induction entries as [|[k0 y0] entries IH]; intros fl; simpl.
  - exists []. rewrite app_nil_r. split; [reflexivity|]. split; [constructor|].
    split; [intros y []|]. intros k y [].
  - unfold readd_manual at 2. simpl.
    destruct (manual y0) eqn:Hman; simpl.
    + destruct (existsb (fun x => same_apartment x y0) fl) eqn:Hex; simpl.
      * destruct (IH fl) as (extra & Heq & Hnd & Hextra & Hblock).
        exists extra. split; [exact Heq|]. split; [exact Hnd|]. split.
        -- intros y Hy. destruct (Hextra y Hy) as (Hm & (k & Hk) & Hz).
           split; [exact Hm|]. split; [exists k; now right | exact Hz].
        -- intros k y [[= <- <-]|Hin] Hm; [|now apply (Hblock k)].
           apply existsb_exists in Hex. destruct Hex as (z & Hz & Hsame).
           right. exists z. split; [apply in_or_app; now left|].
           now apply String.eqb_eq in Hsame.
      * destruct (IH (fl ++ [y0])%list) as (extra & Heq & Hnd & Hextra & Hblock).
        exists (y0 :: extra). rewrite Heq, <- app_assoc. simpl.
        split; [reflexivity|]. split; [|split].
        -- constructor; [|exact Hnd]. intros Hin.
           apply in_map_iff in Hin. destruct Hin as (y & Hcode & Hy).
           destruct (Hextra y Hy) as (_ & _ & Hz).
           apply (Hz y0); [apply in_or_app; right; now left | congruence].
        -- intros y [<-|Hy].
           ++ split; [exact Hman|]. split; [exists k0; now left|].
              intros z Hz Hcode.
              assert (Ht : existsb (fun x => same_apartment x y0) fl = true).
              { apply existsb_exists. exists z. split; [exact Hz|].
                now apply String.eqb_eq. }
              congruence.
           ++ destruct (Hextra y Hy) as (Hm & (k & Hk) & Hz).
              split; [exact Hm|]. split; [exists k; now right|].
              intros z Hzin. apply Hz, in_or_app. now left.
        -- intros k y [[= <- <-]|Hin] Hm; [left; now left|].
           destruct (Hblock k y Hin Hm) as [Hy|(z & Hz & Hcode)].
           ++ left. now right.
           ++ right. exists z. split; [|exact Hcode].
              rewrite <- app_assoc in Hz. exact Hz.
    + destruct (IH fl) as (extra & Heq & Hnd & Hextra & Hblock).
      exists extra. split; [exact Heq|]. split; [exact Hnd|]. split.
      * intros y Hy. destruct (Hextra y Hy) as (Hm & (k & Hk) & Hz).
        split; [exact Hm|]. split; [exists k; now right | exact Hz].
      * intros k y [[= <- <-]|Hin] Hm; [congruence | now apply (Hblock k)].
Qed.

(** What holds of every rent item and of every check-out item holds of
    every derived item. *)
Lemma derive_Forall (P : item -> Prop) set_order start_date end_date
    (transactions : gmap string (list transaction)) last_ut_dates c
    (rows : list (list string)) :
  (forall code r f a b u due,
     P (with_context a b u (rent_item transactions code r f due))) ->
  (forall code r a b u d, P (checkout_item code r a b u d)) ->
  Forall P (derive set_order start_date end_date transactions last_ut_dates c rows).
Proof.
  intros Hrent Hcheckout.
  unfold derive. generalize (@nil item) (List.Forall_nil P).
  induction rows as [|row rows IH]; intros acc Hacc; simpl; [exact Hacc|].
  apply IH. unfold process_row.
  destruct (Py.getitem row (ap_code_col c)) as [code|]; [|exact Hacc].
  destruct (Py.truthy code); simpl; [|exact Hacc].
  destruct (already_checked_out transactions code); [exact Hacc|].
  rewrite add_checkouts_spec.
  match goal with |- Forall _ (if _ then ?l else _) => assert (Hrents : Forall P l) end.
  { destruct (cell_date row (ap_start_col c) "%d-%m-%Y"); [|exact Hacc].
    apply Forall_app. split; [exact Hacc|].
    apply List.Forall_forall. intros x Hx. apply in_map_iff in Hx.
    destruct Hx as (due & <- & _). apply Hrent. }
  destruct (existsb _ _); [exact Hrents|].
  destruct (List.find _ _); [|exact Hrents].
  apply Forall_app. split; [exact Hrents|]. constructor; [apply Hcheckout | constructor].
Qed.

(** Every derived task is fresh. *)
Lemma derive_fresh set_order start_date end_date transactions last_ut_dates c
    (rows : list (list string)) :
  Forall fresh_task
    (derive set_order start_date end_date transactions last_ut_dates c rows).
Proof.
  apply derive_Forall.
  - intros. unfold rent_item. now destruct (find_payment transactions code due).
  - now split.
Qed.

Lemma isoformat_length (d : date) : String.length (isoformat d) = 10%nat.
Proof. unfold isoformat. now destruct (ord2ymd d) as [[y m] dd]. Qed.

(** Every derived task has a due date, ten characters long. *)
Lemma derive_dated set_order start_date end_date transactions last_ut_dates c
    (rows : list (list string)) :
  Forall (fun x => exists s, due_date x = Some s /\ String.length s = 10%nat)
    (derive set_order start_date end_date transactions last_ut_dates c rows).
Proof.
  apply derive_Forall.
  - intros. exists (isoformat due). split; [|apply isoformat_length].
    unfold rent_item. now destruct (find_payment transactions code due).
  - intros. exists (isoformat d). split; [reflexivity | apply isoformat_length].
Qed.

(** The reconciled list: the derived items with the user's fields of the
    old items of their keys, then the manual old items added back. *)
Lemma reconcile_shape (old_list new_list : list item) :
  let os := index_by_key old_list in
  exists extra,
    reconcile old_list new_list = (map (adopt os) new_list ++ extra)%list
    /\ List.NoDup (map ap_code extra)
    /\ (forall y, In y extra ->
          manual y = true /\ In (item_key y, y) os
          /\ forall z, In z new_list -> ap_code z <> ap_code y)
    /\ (forall y, In (item_key y, y) os -> manual y = true ->
          In y extra
          \/ exists z, (In z new_list \/ In z extra) /\ ap_code z = ap_code y).
Proof.
  intros os. unfold reconcile. fold os.
  destruct (readd_manual_fold os (map (adopt os) new_list))
    as (extra & Heq & Hnd & Hextra & Hblock).
  exists extra. split; [exact Heq|]. split; [exact Hnd|]. split.
  - intros y Hy. destruct (Hextra y Hy) as (Hm & (k & Hk) & Hz).
    split; [exact Hm|]. split.
    + destruct (index_by_key_In _ _ _ Hk) as [_ <-]. exact Hk.
    + intros z Hzin Hcode. apply (Hz (adopt os z)); [now apply in_map|].
      destruct (adopt_identity os z) as (-> & _). exact Hcode.
  - intros y Hy Hm. destruct (Hblock _ y Hy Hm) as [Hin|(z & Hz & Hcode)]; [now left|].
    right. apply in_app_or in Hz. destruct Hz as [Hz|Hz].
    + apply in_map_iff in Hz. destruct Hz as (z0 & <- & Hz0).
      exists z0. split; [now left|].
      destruct (adopt_identity os z0) as (<- & _). exact Hcode.
    + exists z. split; [now right | exact Hcode].
Qed.

Lemma filter_map_same {A : Type} (p : A -> bool) (f : A -> A) (l : list A) :
  (forall a, p (f a) = p a) -> List.filter p (map f l) = map f (List.filter p l).
Proof.
  intros Hp. induction l as [|a l IH]; simpl; [reflexivity|].
  rewrite Hp. destruct (p a); simpl; now rewrite IH.
Qed.

Lemma filter_none {A : Type} (p : A -> bool) (l : list A) :
  (forall a, In a l -> p a = false) -> List.filter p l = [].
Proof.
  induction l as [|a l IH]; simpl; intros H; [reflexivity|].
  rewrite (H a) by now left. apply IH. intros b Hb. apply H. now right.
Qed.

Lemma is_checkout_of_adopt (code : string) (os : Py.dict item) (x : item) :
  is_checkout_of code (adopt os x) = is_checkout_of code x.
Proof.
  unfold is_checkout_of. destruct (adopt_identity os x) as (-> & _ & -> & _). reflexivity.
Qed.

(** What the check-out branch does guarantee.  The apartment has not
    checked out already (its latest transaction is not a CHECK-OUT), and
    [row] is its first row
    of APARTMENTS with a contract end or a check-out date in the window.
    Then the call returns, the active list holds exactly one task with
    status "Check-out" for the apartment, and the due date of this task is
    one of these two dates of the row, one that is in the window. *)
Theorem generate_list_one_checkout_task (set_order : date -> date -> bool)
    (self : TodoManager) (start_date end_date : date)
    (transactions : gmap string (list transaction)) (last_ut_dates : gmap string date)
    (c : ap_columns) (before after : list (list string)) (row : list string)
    (code : string) :
  read_sheets (all_data self) = Ready transactions last_ut_dates c (before ++ row :: after) ->
  Py.getitem row (ap_code_col c) = Some code ->
  Py.truthy code = true ->
  already_checked_out transactions code = false ->
  (exists d, In d (checkout_dates c row) /\ in_window start_date end_date d = true) ->
  Forall (fun r => Py.getitem r (ap_code_col c) = Some code ->
                   no_checkout_in_window start_date end_date c r) before ->
  exists m x d,
    generate_list set_order self start_date end_date = Returned (m, [])
    /\ List.filter (is_checkout_of code) (todo_list m) = [x]
    /\ due_date x = Some (isoformat d)
    /\ In d (checkout_dates c row)
    /\ in_window start_date end_date d = true.
Proof.
  intros Hread Hcode Htruthy Hout Hdate Hbefore.
  destruct (derive_one_checkout set_order start_date end_date transactions last_ut_dates c
              code before after row Hcode Htruthy Hout Hdate Hbefore)
    as (x & d & Hone & Hdue & Hin & Hw).
  set (new_list := derive set_order start_date end_date transactions last_ut_dates c
                     (before ++ row :: after)) in *.
  set (os := index_by_key (todo_list self)).
  unfold generate_list. rewrite Hread. fold new_list.
  exists (with_todo_list self (_sort_list (reconcile (todo_list self) new_list))),
         (adopt os x), d.
  split; [reflexivity|]. simpl.
  split; [|destruct (adopt_identity os x) as (_ & -> & _); auto].
  assert (Hx : In x new_list /\ is_checkout_of code x = true).
  { apply filter_In. rewrite Hone. now left. }
  destruct Hx as [Hx Hcx].
  destruct (reconcile_shape (todo_list self) new_list) as (extra & Heq & _ & Hextra & _).
  fold os in Heq, Hextra.
  assert (Hfinal : List.filter (is_checkout_of code) (reconcile (todo_list self) new_list)
                   = [adopt os x]).
  { rewrite Heq, List.filter_app.
    rewrite filter_map_same by (intros a; apply is_checkout_of_adopt).
    rewrite Hone. rewrite (filter_none _ extra); [reflexivity|].
    intros y Hy. destruct (Hextra y Hy) as (_ & _ & Hz).
    unfold is_checkout_of in *. apply andb_true_iff in Hcx. destruct Hcx as [Hcx _].
    apply String.eqb_eq in Hcx.
    destruct (String.eqb_spec (ap_code y) code) as [Heqc|_]; [|reflexivity].
    exfalso. apply (Hz x Hx). congruence. }
  apply Permutation_length_1_inv. rewrite <- Hfinal.
  apply filter_perm. symmetry. apply sort_list_perm.
Qed.

Lemma generate_list_one_checkout_task_witness :
  exists m x d,
    generate_list Scenario.end_first Scenario.late_checkout_A3
      Scenario.june_1 Scenario.june_30 = Returned (m, [])
    /\ List.filter (is_checkout_of "A3") (todo_list m) = [x]
    /\ due_date x = Some (isoformat d)
    /\ In d (checkout_dates
               {| ap_code_col := 0; ap_start_col := 1; ap_end_col := 2;
                  ap_realtor_col := 3; ap_checkout_col := 4 |}
               ["A3"; "03-01-2024"; "20-06-2024"; "Bob"; "05.07.2024"])
    /\ in_window Scenario.june_1 Scenario.june_30 d = true.
Proof.
  apply (generate_list_one_checkout_task Scenario.end_first Scenario.late_checkout_A3
           Scenario.june_1 Scenario.june_30
           (build_transactions
              {| mo_code_col := 0; mo_date_col := 1; mo_type_col := 2;
                 mo_specific_task_col := 3 |} [])
           (build_last_ut_dates 0 1 [])
           {| ap_code_col := 0; ap_start_col := 1; ap_end_col := 2;
              ap_realtor_col := 3; ap_checkout_col := 4 |}
           [] [] ["A3"; "03-01-2024"; "20-06-2024"; "Bob"; "05.07.2024"] "A3").
  - vm_compute. reflexivity.
  - reflexivity.
  - reflexivity.
  - reflexivity.
  - exists (ymd2ord 2024 6 20). split; [left|]; vm_compute; reflexivity.
  - constructor.
Defined.

(** Two more sessions.  The contract of A2 ends in the window and
    A2 gets no check-out task, because its latest transaction is a
    CHECK-OUT.  The check-out date of A3 is present and parses, on 5 July
    2024; the check-out task of A3 is due on the end of the contract,
    20 June 2024, the one of the two dates that is in the window. *)
Lemma generate_list_checkout_exceptions :
  (cell_date ["A2"; "03-01-2024"; "20-06-2024"; "Bob"; ""] 2 "%d-%m-%Y"
     = Some (ymd2ord 2024 6 20)
   /\ in_window Scenario.june_1 Scenario.june_30 (ymd2ord 2024 6 20) = true
   /\ option_map (map Scenario.identity)
        (Scenario.active
           (generate_list Scenario.end_first Scenario.vacated_A2
              Scenario.june_1 Scenario.june_30))
      = Some [])
  /\ (cell_date ["A3"; "03-01-2024"; "20-06-2024"; "Bob"; "05.07.2024"] 4 "%d.%m.%Y"
      = Some (ymd2ord 2024 7 5)
     /\ option_map (map Scenario.identity)
          (Scenario.active
             (generate_list Scenario.end_first Scenario.late_checkout_A3
                Scenario.june_1 Scenario.june_30))
        = Some [("A3", Some "2024-06-03", "Unpaid"); ("A3", Some "2024-06-20", "Check-out")]).
Proof. vm_compute. repeat split; reflexivity. Qed.

(** C7.  The check-out date of A4 (25 June 2024) is present, parses and
    is in the window, and so is the end of its contract (20 June 2024).
    The call leaves one check-out task for A4, and its due date is the
    date that the iteration of [set(checkout_dates_to_check)] yields
    first: the end of the contract under one order of the set, the
    check-out date under the other.  The program has no preference for
    the check-out date. *)
Theorem generate_list_checkout_date_follows_set_order :
  cell_date ["A4"; "03-01-2024"; "20-06-2024"; "Bob"; "25.06.2024"] 2 "%d-%m-%Y"
  = Some (ymd2ord 2024 6 20)
  /\ cell_date ["A4"; "03-01-2024"; "20-06-2024"; "Bob"; "25.06.2024"] 4 "%d.%m.%Y"
     = Some (ymd2ord 2024 6 25)
  /\ in_window Scenario.june_1 Scenario.june_30 (ymd2ord 2024 6 20) = true
  /\ in_window Scenario.june_1 Scenario.june_30 (ymd2ord 2024 6 25) = true
  /\ option_map (map Scenario.identity)
       (Scenario.active
          (generate_list Scenario.end_first Scenario.both_dates_A4
             Scenario.june_1 Scenario.june_30))
     = Some [("A4", Some "2024-06-03", "Unpaid"); ("A4", Some "2024-06-20", "Check-out")]
  /\ option_map (map Scenario.identity)
       (Scenario.active
          (generate_list Scenario.checkout_first Scenario.both_dates_A4
             Scenario.june_1 Scenario.june_30))
     = Some [("A4", Some "2024-06-03", "Unpaid"); ("A4", Some "2024-06-25", "Check-out")].
Proof. vm_compute. repeat split; reflexivity. Qed.

(** ** Two calls in a row *)

Lemma keyed_fields_keys (l : list item) (k : string) :
  In k (map item_key l) <-> exists f, keyed_fields l k f.
Proof.
  unfold keyed_fields. rewrite in_map_iff. split.
  - intros (x & Hk & Hx). now exists (user_fields x), x.
  - intros (f & x & Hx & Hk & _). now exists x.
Qed.

Section Twice.
Variables (S0 D : list item).
Hypothesis D_fresh : Forall fresh_task D.

Let os0 := index_by_key S0.
Let S1 := _sort_list (reconcile S0 D).
Let os1 := index_by_key S1.
Let S2 := _sort_list (reconcile S1 D).

(** A derived item has the defaults of its kind: two of them with one key
    get the same fields from any index. *)
Lemma adopt_same_key (os : Py.dict item) (d d' : item) :
  In d D -> In d' D -> item_key d = item_key d' ->
  user_fields (adopt os d) = user_fields (adopt os d').
Proof.
  intros Hd Hd' Hk. rewrite !adopt_user_fields, Hk.
  destruct (Py.dict_get (item_key d') os); [reflexivity|].
  apply (proj1 (List.Forall_forall _ _) D_fresh) in Hd, Hd'.
  destruct Hd as [_ ->], Hd' as [_ ->]. reflexivity.
Qed.

Lemma fresh_not_manual (os : Py.dict item) (d : item) :
  In d D -> manual (adopt os d) = false.
Proof.
  intros Hd. destruct (adopt_identity os d) as (_ & _ & _ & ->).
  apply (proj1 (List.Forall_forall _ _) D_fresh) in Hd. apply Hd.
Qed.

(** The two reconciled lists side by side. *)
Lemma twice_facts :
  exists extra1 extra2,
    (forall t, In t S1 <-> In t (map (adopt os0) D) \/ In t extra1)
    /\ (forall t, In t S2 <-> In t (map (adopt os1) D) \/ In t extra2)
    /\ (forall m, In m extra1 ->
          manual m = true /\ In (item_key m, m) os0
          /\ forall z, In z D -> ap_code z <> ap_code m)
    (* the second call gives a derived item the same fields *)
    /\ (forall d, In d D -> user_fields (adopt os1 d) = user_fields (adopt os0 d))
    (* every item of the first list with the key of a derived item has the
       fields that this derived item got *)
    /\ (forall t d, In t S1 -> In d D -> item_key t = item_key d ->
                    user_fields t = user_fields (adopt os0 d))
    (* the manual items added back by the second call were added back by
       the first one *)
    /\ (forall y, In y extra2 -> In y extra1)
    (* and those of the first call that are entries of the new index are
       added back again *)
    /\ (forall m, In m extra1 -> In (item_key m, m) os1 -> In m extra2).
Proof.
  destruct (reconcile_shape S0 D) as (extra1 & Heq1 & Hnd1 & Hex1 & _).
  destruct (reconcile_shape S1 D) as (extra2 & Heq2 & _ & Hex2 & Hblock2).
  fold os0 in Heq1, Hex1. fold os1 in Heq2, Hex2, Hblock2.
  assert (HS1 : forall t, In t S1 <-> In t (map (adopt os0) D) \/ In t extra1).
  { intros t. unfold S1. now rewrite sort_list_In, Heq1, in_app_iff. }
  assert (HS2 : forall t, In t S2 <-> In t (map (adopt os1) D) \/ In t extra2).
  { intros t. unfold S2. now rewrite sort_list_In, Heq2, in_app_iff. }
  assert (U1 : forall t d, In t S1 -> In d D -> item_key t = item_key d ->
                           user_fields t = user_fields (adopt os0 d)).
  { intros t d Ht Hd Hk. apply HS1 in Ht. destruct Ht as [Ht|Ht].
    - apply in_map_iff in Ht. destruct Ht as (d' & <- & Hd').
      rewrite adopt_key in Hk. now apply adopt_same_key.
    - destruct (Hex1 t Ht) as (_ & Hentry & _).
      apply index_by_key_get in Hentry.
      rewrite adopt_user_fields, <- Hk. fold os0 in Hentry. now rewrite Hentry. }
  exists extra1, extra2. repeat split; try (apply HS1 || apply HS2 || apply Hex1); trivial.
  - intros d Hd.
    assert (Hin : In (adopt os0 d) S1) by (apply HS1; left; now apply in_map).
    destruct (index_by_key_has S1 _ Hin) as [v Hv]. rewrite adopt_key in Hv.
    fold os1 in Hv. rewrite adopt_user_fields, Hv.
    apply index_by_key_get, index_by_key_In in Hv. destruct Hv as [Hv Hk].
    now apply U1.
  - intros y Hy. destruct (Hex2 y Hy) as (Hm & Hentry & _).
    apply index_by_key_In in Hentry. destruct Hentry as [Hin _].
    apply HS1 in Hin. destruct Hin as [Hin|Hin]; [|exact Hin].
    apply in_map_iff in Hin. destruct Hin as (d & <- & Hd).
    rewrite (fresh_not_manual os0 d Hd) in Hm. discriminate.
  - intros m Hm Hentry.
    destruct (Hex1 m Hm) as (Hman & _ & Hcodes).
    destruct (Hblock2 m Hentry Hman) as [Hdone|(z & [Hz|Hz] & Hcode)]; [exact Hdone| |].
    + now destruct (Hcodes z Hz).
    + assert (z = m) as ->; [|exact Hz].
      apply (NoDup_map_inj ap_code extra1); trivial.
      destruct (Hex2 z Hz) as (Hmz & Hentryz & _).
      apply index_by_key_In in Hentryz. destruct Hentryz as [Hin _].
      apply HS1 in Hin. destruct Hin as [Hin|Hin]; [|exact Hin].
      apply in_map_iff in Hin. destruct Hin as (d & <- & Hd).
      rewrite (fresh_not_manual os0 d Hd) in Hmz. discriminate.
Qed.

Lemma twice_fields (k : string) (f : string * Py.dict bool * option string) :
  keyed_fields S1 k f <-> keyed_fields S2 k f.
Proof.
  destruct twice_facts as (extra1 & extra2 & HS1 & HS2 & Hex1 & U2 & U1 & K1 & K).
  (* a manual item of the first call whose key is not derived is the entry
     of its key in the new index *)
  assert (K2 : forall m, In m extra1 -> (forall d, In d D -> item_key d <> item_key m) ->
                         In m extra2).
  { intros m Hm Hfree. apply K; [exact Hm|].
    destruct (Hex1 m Hm) as (_ & Hentry0 & _).
    assert (Hin : In m S1) by (apply HS1; now right).
    destruct (index_by_key_has S1 m Hin) as [v Hv].
    apply index_by_key_get in Hv.
    destruct (index_by_key_In _ _ _ Hv) as [Hv1 Hk].
    assert (v = m) as ->; [|exact Hv].
    apply HS1 in Hv1. destruct Hv1 as [Hv1|Hv1].
    - apply in_map_iff in Hv1. destruct Hv1 as (d & <- & Hd).
      rewrite adopt_key in Hk. now destruct (Hfree d Hd).
    - destruct (Hex1 v Hv1) as (_ & Hentryv & _).
      now apply (index_by_key_inj S0 _ _ _ _ Hentryv Hentry0). }
  unfold keyed_fields. split.
  - intros (t & Ht & Hk & Hf).
    destruct (in_dec string_dec (item_key t) (map item_key D)) as [Hd|Hd].
    + apply in_map_iff in Hd. destruct Hd as (d & Hkd & Hd).
      exists (adopt os1 d). split; [apply HS2; left; now apply in_map|].
      rewrite adopt_key, U2 by trivial. split; [congruence|].
      rewrite <- Hf. symmetry. now apply U1.
    + exists t. split; [|auto]. apply HS2. right.
      apply HS1 in Ht. destruct Ht as [Ht|Ht].
      * exfalso. apply Hd. apply in_map_iff in Ht. destruct Ht as (d & <- & Hdin).
        rewrite adopt_key. now apply in_map.
      * apply K2; [exact Ht|]. intros d Hdin Hkd. apply Hd. rewrite <- Hkd.
        now apply in_map.
  - intros (t & Ht & Hk & Hf). apply HS2 in Ht. destruct Ht as [Ht|Ht].
    + apply in_map_iff in Ht. destruct Ht as (d & <- & Hd).
      exists (adopt os0 d). split; [apply HS1; left; now apply in_map|].
      rewrite adopt_key in *. split; [exact Hk|]. rewrite <- Hf. symmetry. now apply U2.
    + exists t. split; [|auto]. apply HS1. right. now apply K1.
Qed.

(** The same with the pair (apartment code, due date) for a key, when the
    due dates are plain: a manual task whose key string is also the key of
    a derived task has no due date and sorts behind it, so that it is the
    entry of this key in the new index. *)
Hypothesis D_dated :
  Forall (fun x => exists s, due_date x = Some s /\ String.length s = 10%nat) D.
Hypothesis S0_plain : forall t, In t S0 -> manual t = true -> plain_due_date t.

Lemma twice_fields_by_identity (code : string) (due : option string)
    (f : string * Py.dict bool * option string) :
  identified_fields S1 code due f <-> identified_fields S2 code due f.
Proof.
  destruct twice_facts as (extra1 & extra2 & HS1 & HS2 & Hex1 & U2 & U1 & K1 & K).
  assert (K2 : forall m, In m extra1 -> In m extra2).
  { intros m Hm. apply K; [exact Hm|].
    destruct (Hex1 m Hm) as (Hman & Hentry0 & Hcodes).
    assert (Hin : In m S1) by (apply HS1; now right).
    destruct (index_by_key_has S1 m Hin) as [v Hv].
    destruct (index_by_key_last _ _ _ Hv) as (l1 & l2 & Hsplit & Hl2).
    apply index_by_key_get in Hv.
    destruct (index_by_key_In _ _ _ Hv) as [Hv1 Hk].
    assert (v = m) as ->; [|exact Hv].
    apply HS1 in Hv1. destruct Hv1 as [Hv1|Hv1].
    - exfalso. apply in_map_iff in Hv1. destruct Hv1 as (d & <- & Hd).
      rewrite adopt_key in Hk.
      destruct (proj1 (List.Forall_forall _ _) D_dated d Hd) as (s & Hs & Hlen).
      destruct (index_by_key_In _ _ _ Hentry0) as [Hm0 _].
      destruct (S0_plain m Hm0 Hman) as [Hnone|(s' & Hs' & Hlen')].
      + (* the manual item, with no due date, is behind the derived one *)
        assert (Hbefore : In m l1).
        { fold S1 in Hsplit. rewrite Hsplit in Hin. apply in_app_or in Hin.
          destruct Hin as [Hin|[Heq|Hin]]; [exact Hin| |].
          - rewrite <- Heq in Hnone.
            destruct (adopt_identity os0 d) as (_ & Hdue & _). congruence.
          - now destruct (Hl2 m Hin). }
        apply in_split in Hbefore. destruct Hbefore as (la & lb & ->).
        fold S1 in Hsplit. rewrite <- app_assoc in Hsplit. simpl in Hsplit.
        apply sort_list_order in Hsplit.
        destruct (sort_key_order (adopt os0 d) m) as (_ & Horder & _).
        rewrite Horder in Hsplit; [discriminate| | |exact Hnone].
        * f_equal. apply index_by_key_get in Hentry0. fold os0 in Hentry0.
          unfold adopt. rewrite Hk. now rewrite Hentry0.
        * destruct (adopt_identity os0 d) as (_ & -> & _). congruence.
      + (* with a due date, the keys tell the apartments apart *)
        apply (Hcodes d Hd). unfold item_key in Hk. rewrite Hs, Hs' in Hk.
        apply (append_inj_suffix _ _ (Py.or_empty (Some s)) (Py.or_empty (Some s'))); [exact Hk|].
        destruct s, s'; simpl in *; congruence.
    - destruct (Hex1 v Hv1) as (_ & Hentryv & _).
      now apply (index_by_key_inj S0 _ _ _ _ Hentryv Hentry0). }
  unfold identified_fields. split.
  - intros (t & Ht & Hc & Hd & Hf). apply HS1 in Ht. destruct Ht as [Ht|Ht].
    + apply in_map_iff in Ht. destruct Ht as (d & <- & Hdin).
      exists (adopt os1 d). split; [apply HS2; left; now apply in_map|].
      destruct (adopt_identity os0 d) as (Hc0 & Hd0 & _).
      destruct (adopt_identity os1 d) as (Hc1 & Hd1 & _).
      rewrite U2 by trivial. repeat split; congruence.
    + exists t. split; [|auto]. apply HS2. right. now apply K2.
  - intros (t & Ht & Hc & Hd & Hf). apply HS2 in Ht. destruct Ht as [Ht|Ht].
    + apply in_map_iff in Ht. destruct Ht as (d & <- & Hdin).
      exists (adopt os0 d). split; [apply HS1; left; now apply in_map|].
      destruct (adopt_identity os0 d) as (Hc0 & Hd0 & _).
      destruct (adopt_identity os1 d) as (Hc1 & Hd1 & _).
      rewrite <- U2 by trivial. repeat split; congruence.
    + exists t. split; [|auto]. apply HS1. right. now apply K1.
Qed.

End Twice.

(** C4.  When a call returns, the next call with the same window over the
    same sheets returns too, with the same diagnostics, and the two active
    lists have the same keys and, for every key, the same user's fields
    (note, check boxes, check time).  The key of a task is the string that
    the program makes of its apartment code and its due date. *)
Theorem generate_list_twice (set_order : date -> date -> bool) (self m1 : TodoManager)
    (start_date end_date : date) (diag : list diagnostic) :
  generate_list set_order self start_date end_date = Returned (m1, diag) ->
  exists m2,
    generate_list set_order m1 start_date end_date = Returned (m2, diag)
    /\ (forall k, In k (map item_key (todo_list m1)) <-> In k (map item_key (todo_list m2)))
    /\ (forall k f, keyed_fields (todo_list m1) k f <-> keyed_fields (todo_list m2) k f).
Proof.
  unfold generate_list.
  destruct (read_sheets (all_data self)) as [d|e|transactions last_ut_dates c rows] eqn:Hread.
  - intros [= <- <-]. rewrite Hread. exists self. repeat split; trivial.
  - discriminate.
  - intros [= <- <-]. simpl. rewrite Hread.
    eexists. split; [reflexivity|]. simpl.
    assert (Hf := twice_fields (todo_list self) _
                    (derive_fresh set_order start_date end_date transactions
                       last_ut_dates c rows)).
    split; [|exact Hf].
    intros k. rewrite !keyed_fields_keys. split; intros [f H]; exists f; now apply Hf.
Qed.

(** X28.  Two calls in a row, with the pair (apartment code, due date)
    for a key: when a call returns, the next call with the same window
    returns too, and the two active lists have, for every pair, the same
    user's fields.  It holds when the manual tasks of the list have plain
    due dates, as the tasks made by [add_manual_item] have. *)
Lemma generate_list_twice_by_identity (set_order : date -> date -> bool)
    (self m1 : TodoManager) (start_date end_date : date) (diag : list diagnostic) :
  (forall t, In t (todo_list self) -> manual t = true -> plain_due_date t) ->
  generate_list set_order self start_date end_date = Returned (m1, diag) ->
  exists m2,
    generate_list set_order m1 start_date end_date = Returned (m2, diag)
    /\ (forall code due f,
          identified_fields (todo_list m1) code due f
          <-> identified_fields (todo_list m2) code due f).
Proof.
  intros Hplain. unfold generate_list.
  destruct (read_sheets (all_data self)) as [d|e|transactions last_ut_dates c rows] eqn:Hread.
  - intros [= <- <-]. rewrite Hread. exists self. split; [reflexivity | tauto].
  - discriminate.
  - intros [= <- <-]. simpl. rewrite Hread.
    eexists. split; [reflexivity|]. simpl.
    apply twice_fields_by_identity; [apply derive_fresh | apply derive_dated | exact Hplain].
Qed.

Lemma generate_list_twice_witness :
  exists m2,
    generate_list Scenario.end_first Scenario.after_first_call
      Scenario.june_1 Scenario.june_30 = Returned (m2, [])
    /\ (forall k, In k (map item_key (todo_list Scenario.after_first_call))
                  <-> In k (map item_key (todo_list m2)))
    /\ (forall k f, keyed_fields (todo_list Scenario.after_first_call) k f
                    <-> keyed_fields (todo_list m2) k f).
Proof.
  apply (generate_list_twice Scenario.end_first Scenario.ends_on_payment_day
           Scenario.after_first_call Scenario.june_1 Scenario.june_30 []).
  vm_compute. reflexivity.
Defined.

(** ** The user's fields across a call *)

(** X12.  While no two tasks of the active list have the same key, a call keeps
    the note, the boxes and the check time of every task whose key is still
    in the list.  (In the session [Scenario.note_then_generate] the second
    call starts from a list with two tasks of one key.) *)
Lemma generate_list_keeps_user_fields (set_order : date -> date -> bool)
    (self m1 : TodoManager) (start_date end_date : date) (diag : list diagnostic)
    (t t' : item) :
  List.NoDup (map item_key (todo_list self)) ->
  generate_list set_order self start_date end_date = Returned (m1, diag) ->
  In t (todo_list self) -> In t' (todo_list m1) -> item_key t = item_key t' ->
  user_fields t' = user_fields t.
Proof.
  intros Hnd. unfold generate_list.
  destruct (read_sheets (all_data self)) as [d|e|transactions last_ut_dates c rows].
  - intros [= <- <-] Ht Ht' Hk.
    now rewrite (NoDup_map_inj item_key _ t t' Hnd Ht Ht' Hk).
  - discriminate.
  - intros [= <- <-] Ht Ht' Hk. simpl in Ht'.
    apply (proj1 (sort_list_In _ _)) in Ht'.
    destruct (reconcile_shape (todo_list self)
                (derive set_order start_date end_date transactions last_ut_dates c rows))
      as (extra & Heq & _ & Hextra & _).
    rewrite Heq in Ht'. apply in_app_or in Ht'. destruct Ht' as [Ht'|Ht'].
    + apply in_map_iff in Ht'. destruct Ht' as (d & <- & Hd).
      rewrite adopt_key in Hk. rewrite adopt_user_fields, <- Hk.
      destruct (index_by_key_has (todo_list self) t Ht) as [v Hv]. rewrite Hv.
      apply index_by_key_get, index_by_key_In in Hv. destruct Hv as [Hv Hkv].
      now rewrite (NoDup_map_inj item_key _ v t Hnd Hv Ht Hkv).
    + destruct (Hextra t' Ht') as (_ & Hentry & _).
      apply index_by_key_In in Hentry. destruct Hentry as [Hin _].
      now rewrite (NoDup_map_inj item_key _ t t' Hnd Ht Hin Hk).
Qed.

(** ** Manual tasks across a call *)


(** ** When a call raises *)

(** The call raises exactly when the three sheets are loaded, MO_DATA has
    its four columns, and a column of UT_DATA or of APARTMENTS is missing;
    when a sheet or a column of MO_DATA is missing it returns with a
    diagnostic and leaves the manager as it was. *)
Lemma generate_list_outcome (set_order : date -> date -> bool) (self : TodoManager)
    (start_date end_date : date) :
  match read_sheets (all_data self) with
  | Gave_up d => generate_list set_order self start_date end_date = Returned (self, [d])
  | Failed e => generate_list set_order self start_date end_date = Raised e
  | Ready _ _ _ _ =>
      exists m, generate_list set_order self start_date end_date = Returned (m, [])
  end.
Proof.
  unfold generate_list. destruct (read_sheets (all_data self)); trivial.
  eexists. reflexivity.
Qed.

Lemma read_sheets_failed (all_data : gmap string sheet) (e : exn) :
  read_sheets all_data = Failed e <->
  exists apartments mo_data ut_data mo_cols,
    all_data !! "APARTMENTS" = Some apartments
    /\ all_data !! "MO_DATA" = Some mo_data
    /\ all_data !! "UT_DATA" = Some ut_data
    /\ find_mo_columns (map (fun h => Py.upper (Py.strip h)) (header mo_data)) = inr mo_cols
    /\ ((Py.index "Apartment Code" (header ut_data) = None
         /\ e = not_in_list "'Apartment Code'")
        \/ (Py.index "Apartment Code" (header ut_data) <> None
            /\ Py.index "Date of Reading" (header ut_data) = None
            /\ e = not_in_list "'Date of Reading'")
        \/ (Py.index "Apartment Code" (header ut_data) <> None
            /\ Py.index "Date of Reading" (header ut_data) <> None
            /\ exists missing, find_ap_columns (header apartments) = inl missing
                              /\ e = not_in_list ("'" ++ missing ++ "'"))).
Proof.
  unfold read_sheets. split.
  - destruct (all_data !! "APARTMENTS") as [ap|]; [|discriminate].
    destruct (all_data !! "MO_DATA") as [mo|]; [|discriminate].
    destruct (all_data !! "UT_DATA") as [ut|]; [|discriminate].
    destruct (find_mo_columns _) as [missing|mo_cols] eqn:Hmo; [discriminate|].
    intros H. exists ap, mo, ut, mo_cols. repeat split; trivial.
    destruct (Py.index "Apartment Code" (header ut)) as [i|].
    + destruct (Py.index "Date of Reading" (header ut)) as [j|].
      * destruct (find_ap_columns (header ap)) as [missing|?]; [|discriminate].
        right. right. repeat split; try discriminate.
        exists missing. split; [reflexivity | congruence].
      * right. left. repeat split; try discriminate. congruence.
    + left. split; [reflexivity | congruence].
  - intros (ap & mo & ut & mo_cols & -> & -> & -> & -> & H).
    destruct H as [[-> ->]|[(Hi & -> & ->)|(Hi & Hj & missing & -> & ->)]].
    + reflexivity.
    + now destruct (Py.index "Apartment Code" (header ut)).
    + destruct (Py.index "Apartment Code" (header ut)); [|congruence].
      now destruct (Py.index "Date of Reading" (header ut)).
Qed.

(** * More properties of the program *)

(** ** The sort of the active list *)

(** X1.  The sort only reorders the list, and in the result no task
    stands in front of a task whose sort key (all boxes ticked, no due date,
    due date) is smaller. *)
Theorem sort_list_sorted_permutation (l : list item) :
  Permutation (_sort_list l) l
  /\ StronglySorted (fun x y => key_lt (sort_key y) (sort_key x) = false) (_sort_list l).
Proof.
  split; [apply sort_by_perm|].
  apply sort_by_sorted; [apply key_lt_asym | apply key_lt_negtrans].
Qed.

Lemma insert_in_front {A K : Type} (lt : K -> K -> bool) (key : A -> K) (x : A)
    (l : list A) :
  Forall (fun y => lt (key y) (key x) = false) l -> Py.insert lt key x l = x :: l.
Proof.
  destruct l as [|y l]; [reflexivity|]. simpl. intros H.
  apply Forall_inv in H. now rewrite H.
Qed.

Lemma sort_by_sorted_id {A K : Type} (lt : K -> K -> bool) (key : A -> K) (l : list A) :
  StronglySorted (fun x y => lt (key y) (key x) = false) l -> Py.sort_by lt key l = l.
Proof.
  induction l as [|x l IH]; [reflexivity|]. intros Hs.
  apply StronglySorted_inv in Hs. destruct Hs as [Hs Hx].
  simpl. rewrite IH by exact Hs. now apply insert_in_front.
Qed.

Lemma sort_list_idempotent_aux (l : list item) :
  _sort_list (_sort_list l) = _sort_list l.
Proof.
  apply sort_by_sorted_id.
  apply sort_by_sorted; [apply key_lt_asym | apply key_lt_negtrans].
Qed.

(** X2.  Sorting twice is sorting once: the sort changes nothing in a list
    that is sorted, and puts a list that is not sorted in the one order
    that a stable sort gives. *)
Theorem sort_list_idempotent (l : list item) :
  _sort_list (_sort_list l) = _sort_list l
  /\ (StronglySorted (fun x y => key_lt (sort_key y) (sort_key x) = false) l ->
      _sort_list l = l).
Proof. split; [apply sort_list_idempotent_aux | apply sort_by_sorted_id]. Qed.

(** ** Trash and restore *)

Lemma find_split {A : Type} (p : A -> bool) (l : list A) (x : A) :
  List.find p l = Some x ->
  exists l1 l2,
    l = (l1 ++ x :: l2)%list /\ p x = true /\ (forall y, In y l1 -> p y = false)
    /\ remove_first p l = (l1 ++ l2)%list.
Proof.
  induction l as [|a l IH]; simpl; [discriminate|].
  destruct (p a) eqn:Ha.
  - intros [= <-]. exists [], l. repeat split; trivial. intros y [].
  - intros H. destruct (IH H) as (l1 & l2 & -> & Hx & Hl1 & Hrm).
    exists (a :: l1), l2. simpl. rewrite Hrm. repeat split; trivial.
    intros y [<-|Hy]; auto.
Qed.

Lemma find_none_all {A : Type} (p : A -> bool) (l : list A) :
  List.find p l = None -> forall y, In y l -> p y = false.
Proof. intros H y Hy. exact (find_none p l H y Hy). Qed.

Lemma find_app_last {A : Type} (p : A -> bool) (l : list A) (x : A) :
  (forall y, In y l -> p y = false) -> p x = true ->
  List.find p (l ++ [x]) = Some x /\ remove_first p (l ++ [x]) = l.
Proof.
  intros Hl Hx. induction l as [|a l IH]; simpl.
  - now rewrite Hx.
  - rewrite (Hl a) by now left.
    destruct IH as [-> ->]; [intros y Hy; apply Hl; now right|]. now split.
Qed.

Lemma not_instance (code : string) (due : option string) (y : item) :
  is_instance code due y = false <-> ~ (ap_code y = code /\ due_date y = due).
Proof.
  rewrite <- is_instance_spec. destruct (is_instance code due y); split; congruence.
Qed.

(** X3.  [remove_item] loses no task and makes none: the tasks of the two
    lists together are the same before and after.  It fails exactly when no
    active task has the key, and then it changes nothing; otherwise the
    first active task with the key, and only this one, goes to the end of
    the trash bin, and the other active tasks keep their order. *)
Theorem remove_item_moves_first_match (self : TodoManager) (code : string)
    (due : option string) :
  let '(ok, _, self') := remove_item self code due in
  Permutation (todo_list self' ++ trash_bin self') (todo_list self ++ trash_bin self)
  /\ all_data self' = all_data self
  /\ (ok = false ->
      self' = self
      /\ forall y, In y (todo_list self) -> ~ (ap_code y = code /\ due_date y = due))
  /\ (ok = true ->
      exists l1 x l2,
        todo_list self = (l1 ++ x :: l2)%list
        /\ ap_code x = code /\ due_date x = due
        /\ (forall y, In y l1 -> ~ (ap_code y = code /\ due_date y = due))
        /\ todo_list self' = (l1 ++ l2)%list
        /\ trash_bin self' = (trash_bin self ++ [x])%list).
Proof.
  unfold remove_item.
  destruct (List.find (is_instance code due) (todo_list self)) as [x|] eqn:Hfind.
  - destruct (find_split _ _ _ Hfind) as (l1 & l2 & Hl & Hx & Hl1 & Hrm).
    simpl. rewrite Hrm, Hl. split; [|split; [reflexivity|split; [discriminate|]]].
    + rewrite <- !app_assoc. simpl. apply Permutation_app_head.
      rewrite app_assoc. symmetry. apply Permutation_cons_append.
    + intros _. exists l1, x, l2. apply is_instance_spec in Hx. destruct Hx as [Hc Hd].
      repeat split; trivial. intros y Hy. apply not_instance. now apply Hl1.
  - split; [reflexivity|]. split; [reflexivity|]. split; [|discriminate].
    intros _. split; [reflexivity|]. intros y Hy. apply not_instance.
    now apply (find_none_all _ _ Hfind).
Qed.

(** X4.  [restore_item] fails exactly when no task of the trash bin has the
    key, and then it changes nothing; otherwise the first such task leaves
    the trash bin, whose other tasks keep their order, and the active list
    is the sorted old list with this task.  No task is lost or made. *)
Theorem restore_item_moves_first_match (self : TodoManager) (code : string)
    (due : option string) :
  let '(ok, _, self') := restore_item self code due in
  Permutation (todo_list self' ++ trash_bin self') (todo_list self ++ trash_bin self)
  /\ all_data self' = all_data self
  /\ (ok = false ->
      self' = self
      /\ forall y, In y (trash_bin self) -> ~ (ap_code y = code /\ due_date y = due))
  /\ (ok = true ->
      exists l1 x l2,
        trash_bin self = (l1 ++ x :: l2)%list
        /\ ap_code x = code /\ due_date x = due
        /\ (forall y, In y l1 -> ~ (ap_code y = code /\ due_date y = due))
        /\ trash_bin self' = (l1 ++ l2)%list
        /\ todo_list self' = _sort_list (todo_list self ++ [x])).
Proof.
  unfold restore_item.
  destruct (List.find (is_instance code due) (trash_bin self)) as [x|] eqn:Hfind.
  - destruct (find_split _ _ _ Hfind) as (l1 & l2 & Hl & Hx & Hl1 & Hrm).
    simpl. rewrite Hrm, Hl. split; [|split; [reflexivity|split; [discriminate|]]].
    + rewrite (sort_list_perm (todo_list self ++ [x])).
      rewrite <- !app_assoc. apply Permutation_app_head. simpl.
      apply Permutation_middle.
    + intros _. exists l1, x, l2. apply is_instance_spec in Hx. destruct Hx as [Hc Hd].
      repeat split; trivial. intros y Hy. apply not_instance. now apply Hl1.
  - split; [reflexivity|]. split; [reflexivity|]. split; [|discriminate].
    intros _. split; [reflexivity|]. intros y Hy. apply not_instance.
    now apply (find_none_all _ _ Hfind).
Qed.

(** X5.  A task removed and restored at once is back: when no task of the
    trash bin has the key and an active task has it, [remove_item] then
    [restore_item] both succeed, the trash bin is as it was, and the active
    list holds the same tasks, sorted. *)
Theorem restore_after_remove (self : TodoManager) (code : string) (due : option string) :
  (forall y, In y (trash_bin self) -> ~ (ap_code y = code /\ due_date y = due)) ->
  (exists y, In y (todo_list self) /\ ap_code y = code /\ due_date y = due) ->
  let '(ok1, _, m1) := remove_item self code due in
  let '(ok2, _, m2) := restore_item m1 code due in
  ok1 = true /\ ok2 = true
  /\ trash_bin m2 = trash_bin self
  /\ all_data m2 = all_data self
  /\ Permutation (todo_list m2) (todo_list self)
  /\ _sort_list (todo_list m2) = todo_list m2.
Proof.
  intros Htrash (y & Hy & Hyc & Hyd). unfold remove_item.
  destruct (List.find (is_instance code due) (todo_list self)) as [x|] eqn:Hfind.
  - destruct (find_split _ _ _ Hfind) as (l1 & l2 & Hl & Hx & Hl1 & Hrm).
    unfold restore_item. simpl.
    destruct (find_app_last (is_instance code due) (trash_bin self) x) as [-> Hrm'];
      [intros z Hz; apply not_instance; now apply Htrash | exact Hx |].
    simpl. rewrite Hrm', Hrm. repeat split.
    + rewrite sort_list_perm, Hl, <- app_assoc.
      apply Permutation_app_head. symmetry. apply Permutation_cons_append.
    + apply sort_list_idempotent_aux.
  - exfalso. assert (H := find_none_all _ _ Hfind y Hy).
    apply not_instance in H. tauto.
Qed.

Lemma restore_after_remove_witness :
  let '(ok1, _, m1) := remove_item Scenario.after_first_call "A1" (Some "2024-06-15") in
  let '(ok2, _, m2) := restore_item m1 "A1" (Some "2024-06-15") in
  ok1 = true /\ ok2 = true
  /\ trash_bin m2 = trash_bin Scenario.after_first_call
  /\ all_data m2 = all_data Scenario.after_first_call
  /\ Permutation (todo_list m2) (todo_list Scenario.after_first_call)
  /\ _sort_list (todo_list m2) = todo_list m2.
Proof.
  apply (restore_after_remove Scenario.after_first_call "A1" (Some "2024-06-15")).
  - intros y Hy. vm_compute in Hy. destruct Hy.
  - eexists. split; [left; reflexivity|]. split; reflexivity.
Defined.

(** ** Notes and check times *)

Lemma with_todo_list_same (self : TodoManager) : with_todo_list self (todo_list self) = self.
Proof. now destruct self. Qed.

Lemma update_first_note_absent (code : string) (due : option string) (n : string)
    (l : list item) :
  (forall y, In y l -> is_instance code due y = false) -> update_first_note code due n l = l.
Proof.
  induction l as [|x l IH]; [reflexivity|]. intros H. simpl.
  rewrite (H x) by now left. f_equal. apply IH. intros y Hy. apply H. now right.
Qed.

Lemma update_first_note_split (code : string) (due : option string) (n : string)
    (l1 l2 : list item) (x : item) :
  (forall y, In y l1 -> is_instance code due y = false) -> is_instance code due x = true ->
  update_first_note code due n (l1 ++ x :: l2) = (l1 ++ set_note x n :: l2)%list.
Proof.
  intros H Hx. induction l1 as [|a l1 IH]; simpl.
  - now rewrite Hx.
  - rewrite (H a) by now left. f_equal. apply IH. intros y Hy. apply H. now right.
Qed.

(** X6.  [update_note] touches nothing but one note: the trash bin and the
    sheets stay, and so does the active list once the notes are erased (the
    tasks, their order, keys, boxes and check times).  With no task of this
    key the manager stays as it is; otherwise the first task of the key
    gets the note and every other task keeps its own. *)
Theorem update_note_first_match_only (self : TodoManager) (code new_note_text : string)
    (due : option string) :
  let self' := update_note self code new_note_text due in
  trash_bin self' = trash_bin self
  /\ all_data self' = all_data self
  /\ map (fun x => set_note x "") (todo_list self')
     = map (fun x => set_note x "") (todo_list self)
  /\ ((forall y, In y (todo_list self) -> ~ (ap_code y = code /\ due_date y = due)) ->
      self' = self)
  /\ (forall l1 x l2,
        todo_list self = (l1 ++ x :: l2)%list ->
        ap_code x = code -> due_date x = due ->
        (forall y, In y l1 -> ~ (ap_code y = code /\ due_date y = due)) ->
        todo_list self' = (l1 ++ set_note x new_note_text :: l2)%list).
Proof.
  cbv zeta. unfold update_note. simpl. split; [reflexivity|]. split; [reflexivity|].
  split; [|split].
  - induction (todo_list self) as [|x l IH]; [reflexivity|]. simpl.
    destruct (is_instance code due x); simpl; [reflexivity | now rewrite IH].
  - intros H. rewrite update_first_note_absent; [apply with_todo_list_same|].
    intros y Hy. apply not_instance. now apply H.
  - intros l1 x l2 -> Hc Hd Hl1. apply update_first_note_split.
    + intros y Hy. apply not_instance. now apply Hl1.
    + now apply is_instance_spec.
Qed.

(** X7.  The last note wins: a second [update_note] on the same key leaves
    what it would have left alone. *)
Theorem update_note_last_wins (self : TodoManager) (code n1 n2 : string)
    (due : option string) :
  update_note (update_note self code n1 due) code n2 due = update_note self code n2 due.
Proof.
  unfold update_note, with_todo_list. simpl. f_equal.
  induction (todo_list self) as [|x l IH]; [reflexivity|]. simpl.
  destruct (is_instance code due x) eqn:Hx; simpl.
  - unfold is_instance in *. simpl. now rewrite Hx.
  - now rewrite Hx, IH.
Qed.

(** X8.  [update_check_time] sets the check time of the first task of the
    key and nothing else, and marks the store dirty exactly when there is
    such a task; it commutes with [update_note], whatever the two keys:
    the manager and the dirty mark are the same in both orders. *)
Theorem update_check_time_and_note_commute (self : TodoManager)
    (code1 note_text : string) (due1 : option string)
    (code2 now : string) (due2 : option string) :
  update_check_time (update_note self code1 note_text due1) code2 now due2
  = (update_note (fst (update_check_time self code2 now due2)) code1 note_text due1,
     snd (update_check_time self code2 now due2))
  /\ (snd (update_check_time self code2 now due2) = true <->
      exists y, In y (todo_list self) /\ ap_code y = code2 /\ due_date y = due2)
  /\ map (fun x => set_check_time x None)
       (todo_list (fst (update_check_time self code2 now due2)))
     = map (fun x => set_check_time x None) (todo_list self).
Proof.
  unfold update_check_time, update_note, with_todo_list. simpl. split; [|split].
  - f_equal; [f_equal|].
    + induction (todo_list self) as [|x l IH]; [reflexivity|]. simpl.
      destruct (is_instance code1 due1 x) eqn:H1, (is_instance code2 due2 x) eqn:H2;
        simpl; unfold is_instance in *; simpl; rewrite ?H1, ?H2; simpl;
        rewrite ?IH; reflexivity.
    + induction (todo_list self) as [|x l IH]; [reflexivity|]. simpl.
      destruct (is_instance code1 due1 x) eqn:H1; simpl.
      * unfold is_instance in *. simpl. reflexivity.
      * now rewrite IH.
  - rewrite existsb_exists. split.
    + intros (y & Hy & Hi). exists y. apply is_instance_spec in Hi. tauto.
    + intros (y & Hy & Hc & Hd). exists y. split; [exact Hy|]. now apply is_instance_spec.
  - induction (todo_list self) as [|x l IH]; [reflexivity|]. simpl.
    destruct (is_instance code2 due2 x); simpl; [reflexivity | now rewrite IH].
Qed.

(** ** What a call derives *)

Lemma days_from_In (start d : date) (n : nat) :
  In d (days_from start n) <-> start <= d < start + Z.of_nat n.
Proof.
  revert start. induction n as [|n IH]; intros start; simpl; [lia|].
  rewrite IH. lia.
Qed.

Lemma date_range_In (start_date end_date d : date) :
  In d (date_range start_date end_date) <-> start_date <= d <= end_date.
Proof. unfold date_range. rewrite days_from_In. lia. Qed.

(** What holds of the rent items and of the check-out items that a row
    can give, holds of every derived item: the row has a code, the
    apartment has not checked out, the due date of a rent item is a day of
    the window, the date of a check-out item is in the window, and the
    context is the one of the apartment. *)
Lemma derive_Forall_rows (P : item -> Prop) set_order start_date end_date
    (transactions : gmap string (list transaction)) last_ut_dates c
    (rows : list (list string)) :
  (forall row code,
     In row rows -> Py.getitem row (ap_code_col c) = Some code ->
     Py.truthy code = true -> already_checked_out transactions code = false ->
     let a := option_map tr_date (latest_transaction transactions code) in
     let b := option_map tr_type (latest_transaction transactions code) in
     let u := last_ut_dates !! code in
     (forall r f due,
        start_date <= due <= end_date ->
        P (with_context a b u (rent_item transactions code r f due)))
     /\ (forall r d,
          in_window start_date end_date d = true -> In d (checkout_dates c row) ->
          P (checkout_item code r a b u d))) ->
  Forall P (derive set_order start_date end_date transactions last_ut_dates c rows).
Proof.
  intros HP. unfold derive.
  assert (Hgen : forall done todo acc,
             rows = (done ++ todo)%list -> Forall P acc ->
             Forall P (fold_left
                         (process_row set_order start_date end_date transactions
                            last_ut_dates c) todo acc)).
  { intros done todo. revert done.
    induction todo as [|row todo IH]; intros done acc Hrows Hacc; simpl; [exact Hacc|].
    apply (IH (done ++ [row])%list); [now rewrite <- app_assoc|].
    unfold process_row.
    destruct (Py.getitem row (ap_code_col c)) as [code|] eqn:Hcode; [|exact Hacc].
    destruct (Py.truthy code) eqn:Htruthy; simpl; [|exact Hacc].
    destruct (already_checked_out transactions code) eqn:Hout; [exact Hacc|].
    assert (Hin : In row rows) by (rewrite Hrows; apply in_or_app; right; now left).
    destruct (HP row code Hin Hcode Htruthy Hout) as [Hrent Hcheckout].
    rewrite add_checkouts_spec.
    match goal with |- Forall _ (if _ then ?l else _) => assert (Hrents : Forall P l) end.
    { destruct (cell_date row (ap_start_col c) "%d-%m-%Y"); [|exact Hacc].
      apply Forall_app. split; [exact Hacc|].
      apply List.Forall_forall. intros x Hx. apply in_map_iff in Hx.
      destruct Hx as (due & <- & Hdue). apply Hrent.
      apply filter_In in Hdue. now apply date_range_In. }
    destruct (existsb _ _); [exact Hrents|].
    destruct (List.find _ _) as [d|] eqn:Hfind; [|exact Hrents].
    apply find_some in Hfind. destruct Hfind as [Hd Hw].
    apply Forall_app. split; [exact Hrents|]. constructor; [|constructor].
    apply Hcheckout; [exact Hw | now apply set_iter_In in Hd]. }
  apply (Hgen [] rows []); [reflexivity | constructor].
Qed.

(** A derived task, as a user sees it. *)
Lemma derive_tasks set_order start_date end_date
    (transactions : gmap string (list transaction)) last_ut_dates c
    (rows : list (list string)) :
  Forall
    (fun x =>
       manual x = false
       /\ (status x = "Paid" \/ status x = "Unpaid" \/ status x = "Check-out")
       /\ (exists d, due_date x = Some (isoformat d) /\ start_date <= d <= end_date)
       /\ (exists row, In row rows /\ Py.getitem row (ap_code_col c) = Some (ap_code x))
       /\ ap_code x <> ""
       /\ already_checked_out transactions (ap_code x) = false
       /\ last_transaction_date x
          = option_map isoformat
              (option_map tr_date (latest_transaction transactions (ap_code x)))
       /\ last_transaction_type x
          = option_map tr_type (latest_transaction transactions (ap_code x))
       /\ last_ut_reading_date x = option_map isoformat (last_ut_dates !! ap_code x))
    (derive set_order start_date end_date transactions last_ut_dates c rows).
Proof.
  apply derive_Forall_rows. intros row code Hrow Hcode Htruthy Hout a b u.
  assert (Hne : code <> "").
  { intros ->. discriminate. }
  split.
  - intros r f due Hdue. unfold rent_item.
    destruct (find_payment transactions code due); simpl; repeat split; eauto.
  - intros r d Hw Hd. simpl. repeat split; eauto.
    exists d. split; [reflexivity|].
    unfold in_window in Hw. apply andb_true_iff in Hw. rewrite !Z.leb_le in Hw. lia.
Qed.

(** X9.  After a call that derives (no diagnostic), every task of the
    active list is a manual task of the old list, or a task that is not
    manual, has the status "Paid", "Unpaid" or "Check-out" and a due date
    inside the window; so the tasks derived for another window are gone,
    and an empty window leaves the manual tasks only. *)
Theorem generate_list_tasks_in_window (set_order : date -> date -> bool)
    (self m : TodoManager) (start_date end_date : date) :
  generate_list set_order self start_date end_date = Returned (m, []) ->
  forall x, In x (todo_list m) ->
    (manual x = true /\ In x (todo_list self))
    \/ (manual x = false
        /\ (status x = "Paid" \/ status x = "Unpaid" \/ status x = "Check-out")
        /\ exists d, due_date x = Some (isoformat d) /\ start_date <= d <= end_date).
Proof.
  unfold generate_list.
  destruct (read_sheets (all_data self)) as [d|e|transactions last_ut_dates c rows];
    [discriminate|discriminate|].
  intros [= <-] x Hx. simpl in Hx. apply (proj1 (sort_list_In _ _)) in Hx.
  destruct (reconcile_shape (todo_list self)
              (derive set_order start_date end_date transactions last_ut_dates c rows))
    as (extra & Heq & _ & Hextra & _).
  rewrite Heq in Hx. apply in_app_or in Hx. destruct Hx as [Hx|Hx].
  - right. apply in_map_iff in Hx. destruct Hx as (d & <- & Hd).
    destruct (adopt_identity (index_by_key (todo_list self)) d) as (_ & -> & -> & ->).
    apply (proj1 (List.Forall_forall _ _)
             (derive_tasks set_order start_date end_date transactions last_ut_dates c rows))
      in Hd.
    tauto.
  - left. destruct (Hextra x Hx) as (Hm & Hentry & _).
    apply index_by_key_In in Hentry. tauto.
Qed.

Lemma generate_list_tasks_in_window_witness :
  let x := nth 0 (todo_list Scenario.after_first_call) Scenario.rent_A1 in
  In x (todo_list Scenario.after_first_call)
  /\ ((manual x = true /\ In x (todo_list Scenario.ends_on_payment_day))
      \/ (manual x = false
          /\ (status x = "Paid" \/ status x = "Unpaid" \/ status x = "Check-out")
          /\ exists d, due_date x = Some (isoformat d)
                       /\ Scenario.june_1 <= d <= Scenario.june_30)).
Proof.
  intros x.
  assert (Hx : In x (todo_list Scenario.after_first_call)).
  { vm_compute. left. reflexivity. }
  split; [exact Hx|].
  apply (generate_list_tasks_in_window Scenario.end_first Scenario.ends_on_payment_day
           Scenario.after_first_call Scenario.june_1 Scenario.june_30);
    [vm_compute; reflexivity | exact Hx].
Defined.



(** The derived list never has two check-out items of one apartment. *)
Lemma derive_checkouts_at_most_one set_order start_date end_date
    (transactions : gmap string (list transaction)) last_ut_dates c
    (rows : list (list string)) (code : string) :
  (length (List.filter (is_checkout_of code)
             (derive set_order start_date end_date transactions last_ut_dates c rows))
   <= 1)%nat.
Proof.
  unfold derive.
  assert (Hgen : forall acc,
             (length (List.filter (is_checkout_of code) acc) <= 1)%nat ->
             (length (List.filter (is_checkout_of code)
                        (fold_left
                           (process_row set_order start_date end_date transactions
                              last_ut_dates c) rows acc)) <= 1)%nat).
  { induction rows as [|row rows IH]; intros acc Hacc; simpl; [exact Hacc|].
    apply IH. rewrite process_row_checkouts, length_app.
    destruct (row_checkout set_order start_date end_date transactions last_ut_dates c
                acc row) as [y|] eqn:Hy; simpl; [|lia].
    destruct (is_checkout_of code y) eqn:Hc; simpl; [|lia].
    destruct (emitted_code set_order start_date end_date transactions last_ut_dates c
                code acc row y Hy Hc) as (_ & Hex & _).
    apply existsb_filter_nil in Hex. rewrite Hex. simpl. lia. }
  apply Hgen. simpl. lia.
Qed.

(** X11.  After a call that derives, the active list has at most one task
    with status "Check-out" for any apartment, whatever the sheets and the
    old list hold. *)
Theorem generate_list_one_checkout_per_apartment (set_order : date -> date -> bool)
    (self m : TodoManager) (start_date end_date : date) (code : string) :
  generate_list set_order self start_date end_date = Returned (m, []) ->
  (length (List.filter (is_checkout_of code) (todo_list m)) <= 1)%nat.
Proof.
  unfold generate_list.
  destruct (read_sheets (all_data self)) as [d|e|transactions last_ut_dates c rows];
    [discriminate|discriminate|].
  intros [= <-]. simpl.
  rewrite (Permutation_length (filter_perm (is_checkout_of code) _ _ (sort_list_perm _))).
  set (new_list := derive set_order start_date end_date transactions last_ut_dates c rows).
  destruct (reconcile_shape (todo_list self) new_list) as (extra & -> & Hnd & Hextra & _).
  rewrite List.filter_app, length_app.
  rewrite filter_map_same by (intros a; apply is_checkout_of_adopt).
  rewrite length_map.
  assert (Hderived := derive_checkouts_at_most_one set_order start_date end_date
                        transactions last_ut_dates c rows code).
  fold new_list in Hderived.
  (* the manual tasks added back have different apartments *)
  assert (Hextra1 : (length (List.filter (is_checkout_of code) extra) <= 1)%nat).
  { clear Hextra. induction extra as [|y extra IH]; simpl; [lia|].
    simpl in Hnd. apply NoDup_cons_iff in Hnd. destruct Hnd as [Hy Hnd].
    destruct (is_checkout_of code y) eqn:Hc; [|now apply IH].
    rewrite (filter_none _ extra); [simpl; lia|].
    intros z Hz. unfold is_checkout_of in *.
    apply andb_true_iff in Hc. destruct Hc as [Hc _]. apply String.eqb_eq in Hc.
    destruct (String.eqb_spec (ap_code z) code) as [Hz'|]; [|reflexivity].
    exfalso. apply Hy. rewrite Hc, <- Hz'. now apply in_map. }
  destruct (List.filter (is_checkout_of code) new_list) as [|x l] eqn:Hnew; simpl; [lia|].
  (* a derived check-out task of the apartment keeps its manual tasks out *)
  rewrite (filter_none _ extra); [simpl in *; lia|].
  intros z Hz. destruct (Hextra z Hz) as (_ & _ & Hcodes).
  assert (Hx : In x new_list /\ is_checkout_of code x = true).
  { apply filter_In. rewrite Hnew. now left. }
  destruct Hx as [Hx Hcx]. unfold is_checkout_of in *.
  apply andb_true_iff in Hcx. destruct Hcx as [Hcx _]. apply String.eqb_eq in Hcx.
  destruct (String.eqb_spec (ap_code z) code) as [Hz'|]; [|reflexivity].
  exfalso. apply (Hcodes x Hx). congruence.
Qed.

Lemma generate_list_one_checkout_per_apartment_witness :
  (length (List.filter (is_checkout_of "A1") (todo_list Scenario.after_first_call))
   <= 1)%nat.
Proof.
  apply (generate_list_one_checkout_per_apartment Scenario.end_first
           Scenario.ends_on_payment_day Scenario.after_first_call
           Scenario.june_1 Scenario.june_30 "A1").
  vm_compute. reflexivity.
Defined.

(** ** The user's fields and the manual tasks, under their conditions *)

Lemma generate_list_keeps_user_fields_witness :
  let m1 := Session.after Session.noted_A1
              (generate_list Scenario.end_first Session.noted_A1
                 Scenario.june_1 Scenario.june_30) in
  let t := nth 0 (todo_list Session.noted_A1) Scenario.rent_A1 in
  let t' := nth 0 (todo_list m1) Scenario.rent_A1 in
  In t (todo_list Session.noted_A1) /\ In t' (todo_list m1)
  /\ note t = "call the tenant"
  /\ user_fields t' = user_fields t.
Proof.
  intros m1 t t'.
  assert (Ht : In t (todo_list Session.noted_A1)) by (vm_compute; left; reflexivity).
  assert (Ht' : In t' (todo_list m1)) by (vm_compute; left; reflexivity).
  split; [exact Ht|]. split; [exact Ht'|]. split; [reflexivity|].
  apply (generate_list_keeps_user_fields Scenario.end_first Session.noted_A1
           m1 Scenario.june_1 Scenario.june_30 [] t t').
  - vm_compute. constructor; [intros H; inversion H | constructor].
  - vm_compute. reflexivity.
  - exact Ht.
  - exact Ht'.
  - vm_compute. reflexivity.
Defined.



Lemma generate_list_twice_by_identity_witness :
  exists m2,
    generate_list Scenario.end_first
      (Session.after Session.manual_Z9
         (generate_list Scenario.end_first Session.manual_Z9
            Scenario.june_1 Scenario.june_30))
      Scenario.june_1 Scenario.june_30 = Returned (m2, [])
    /\ (forall code due f,
          identified_fields
            (todo_list
               (Session.after Session.manual_Z9
                  (generate_list Scenario.end_first Session.manual_Z9
                     Scenario.june_1 Scenario.june_30))) code due f
          <-> identified_fields (todo_list m2) code due f).
Proof.
  apply (generate_list_twice_by_identity Scenario.end_first Session.manual_Z9
           _ Scenario.june_1 Scenario.june_30 []).
  - intros t Ht _. vm_compute in Ht. destruct Ht as [<-|[]]. now left.
  - vm_compute. reflexivity.
Defined.

(** ** The two indexes *)

Lemma getitem_Some_lt {A : Type} (l : list A) (i : nat) (a : A) :
  Py.getitem l i = Some a -> (i < length l)%nat.
Proof. intros H. apply nth_error_Some. unfold Py.getitem in H. congruence. Qed.

Lemma add_transaction_event (c : mo_columns) (m : gmap string (list transaction))
    (row : list string) :
  add_transaction c m row
  = match row_event c row with
    | Some (k, t) => <[k := (default [] (m !! k) ++ [t])%list]> m
    | None => m
    end.
Proof.
  unfold add_transaction, row_event.
  destruct (Nat.ltb_spec
              (Nat.max (mo_code_col c)
                 (Nat.max (mo_date_col c)
                    (Nat.max (mo_type_col c) (mo_specific_task_col c))))
              (length row)) as [Hlen|Hlen].
  - destruct (Py.getitem row (mo_code_col c)) as [code|]; [|reflexivity].
    destruct (Py.getitem row (mo_date_col c)) as [d|]; [|reflexivity].
    destruct (Py.getitem row (mo_type_col c)) as [t|]; [|reflexivity].
    destruct (Py.getitem row (mo_specific_task_col c)) as [sp|]; [|reflexivity].
    destruct (Py.truthy (Py.strip code)); simpl; [|reflexivity].
    now destruct (strptime_first (Py.strip d) MO_FORMATS).
  - destruct (Py.getitem row (mo_code_col c)) as [code|] eqn:H1; [|reflexivity].
    destruct (Py.getitem row (mo_date_col c)) as [d|] eqn:H2; [|reflexivity].
    destruct (Py.getitem row (mo_type_col c)) as [t|] eqn:H3; [|reflexivity].
    destruct (Py.getitem row (mo_specific_task_col c)) as [sp|] eqn:H4; [|reflexivity].
    apply getitem_Some_lt in H1, H2, H3, H4. lia.
Qed.

(** The lists of the index before the sort: the events of each apartment in
    the order of the rows, and no empty list. *)
Lemma fold_add_transaction (c : mo_columns) (rows : list (list string))
    (m : gmap string (list transaction)) (k : string) :
  fold_left (add_transaction c) rows m !! k
  = match events_of c rows k with
    | [] => m !! k
    | e :: es => Some (default [] (m !! k) ++ e :: es)%list
    end.
Proof.
  revert m. induction rows as [|row rows IH]; intros m; [reflexivity|].
  simpl fold_left. rewrite IH, add_transaction_event. unfold events_of. simpl.
  fold (events_of c rows k).
  destruct (row_event c row) as [[k' t]|]; [|reflexivity].
  destruct (String.eqb_spec k' k) as [->|Hne].
  - rewrite lookup_insert_eq. simpl.
    destruct (events_of c rows k); simpl; [reflexivity|].
    now rewrite <- app_assoc.
  - rewrite lookup_insert_ne by exact Hne. reflexivity.
Qed.

Lemma StronglySorted_weaken {A : Type} (R R' : A -> A -> Prop) (l : list A) :
  (forall x y, R x y -> R' x y) -> StronglySorted R l -> StronglySorted R' l.
Proof.
  intros HR. induction 1 as [|x l _ IH Hx]; constructor; [exact IH|].
  apply List.Forall_forall. intros y Hy. apply HR.
  exact (proj1 (List.Forall_forall _ _) Hx y Hy).
Qed.

Lemma gtb_asym (a b : Z) : Z.gtb a b = true -> Z.gtb b a = false.
Proof. rewrite !Z.gtb_ltb, Z.ltb_lt, Z.ltb_ge. lia. Qed.

Lemma gtb_negtrans (a b c : Z) :
  Z.gtb b a = false -> Z.gtb c b = false -> Z.gtb c a = false.
Proof. rewrite !Z.gtb_ltb, !Z.ltb_ge. lia. Qed.

(** X14.  The transaction index holds, for an apartment code, exactly the
    events of the rows of MO_DATA filed under this code (code stripped and
    not blank, date parsed), sorted by date with the latest first and the
    rows of one date in the order of the sheet; a code with no event has
    no entry, so that no list is empty, and the first event of a list is
    one of the most recent. *)
Theorem build_transactions_spec (c : mo_columns) (rows : list (list string))
    (code : string) :
  build_transactions c rows !! code
  = match events_of c rows code with
    | [] => None
    | events => Some (Py.sort_by Z.gtb tr_date events)
    end
  /\ forall l, build_transactions c rows !! code = Some l ->
       Permutation l (events_of c rows code)
       /\ StronglySorted (fun x y => tr_date y <= tr_date x) l
       /\ exists t, latest_transaction (build_transactions c rows) code = Some t
                    /\ forall t', In t' (events_of c rows code) -> tr_date t' <= tr_date t.
Proof.
  assert (Heq : build_transactions c rows !! code
                = match events_of c rows code with
                  | [] => None
                  | events => Some (Py.sort_by Z.gtb tr_date events)
                  end).
  { unfold build_transactions. rewrite lookup_fmap, fold_add_transaction, lookup_empty.
    now destruct (events_of c rows code). }
  split; [exact Heq|]. intros l Hl. rewrite Heq in Hl.
  destruct (events_of c rows code) as [|e es] eqn:Hev; [discriminate|].
  injection Hl as <-.
  assert (Hperm := sort_by_perm Z.gtb tr_date (e :: es)).
  assert (Hsorted : StronglySorted (fun x y => tr_date y <= tr_date x)
                      (Py.sort_by Z.gtb tr_date (e :: es))).
  { eapply StronglySorted_weaken;
      [|apply (sort_by_sorted Z.gtb tr_date gtb_asym gtb_negtrans)].
    intros x y. simpl. rewrite Z.gtb_ltb, Z.ltb_ge. lia. }
  split; [exact Hperm|]. split; [exact Hsorted|].
  unfold latest_transaction. rewrite Heq.
  destruct (Py.sort_by Z.gtb tr_date (e :: es)) as [|t l] eqn:Hsort.
  - apply Permutation_nil in Hperm. discriminate.
  - exists t. split; [reflexivity|]. intros t' Ht'.
    apply (Permutation_in _ (Permutation_sym Hperm)) in Ht'.
    apply StronglySorted_inv in Hsorted. destruct Hsorted as [_ Hall].
    destruct Ht' as [<-|Ht']; [lia|].
    exact (proj1 (List.Forall_forall _ _) Hall t' Ht').
Qed.

Lemma add_reading_lookup (a b : nat) (m : gmap string date) (row : list string)
    (code : string) :
  add_reading a b m row !! code
  = match row_reading a b row with
    | Some (k, d) =>
        if (k =? code)%string then
          match m !! code with
          | Some d0 => Some (Z.max d0 d)
          | None => Some d
          end
        else m !! code
    | None => m !! code
    end.
Proof.
  unfold add_reading, row_reading.
  destruct (Py.getitem row a) as [k|]; [|reflexivity].
  destruct (Py.getitem row b) as [s|]; [|reflexivity].
  destruct (strptime_first s UT_FORMATS) as [d|]; simpl; [|reflexivity].
  destruct (String.eqb_spec k code) as [->|Hne].
  - destruct (m !! code) as [d0|] eqn:Hm.
    + destruct (Z.ltb_spec d0 d).
      * rewrite lookup_insert_eq. f_equal. lia.
      * rewrite Hm. f_equal. lia.
    + now rewrite lookup_insert_eq.
  - destruct (m !! k) as [d0|]; [destruct (d0 <? d)|];
      rewrite ?lookup_insert_ne by exact Hne; reflexivity.
Qed.

Lemma fold_add_reading (a b : nat) (rows : list (list string)) (m0 : gmap string date)
    (code : string) :
  let readings := flat_map (fun row => opt_to_list (row_reading a b row)) rows in
  let res := fold_left (add_reading a b) rows m0 in
  (forall d, m0 !! code = Some d \/ In (code, d) readings ->
             exists m, res !! code = Some m /\ d <= m)
  /\ (forall m, res !! code = Some m -> m0 !! code = Some m \/ In (code, m) readings).
Proof.
  revert m0. induction rows as [|row rows IH]; intros m0; simpl.
  - split.
    + intros d [Hd|[]]. exists d. split; [exact Hd | lia].
    + intros m Hm. now left.
  - destruct (IH (add_reading a b m0 row)) as [IH1 IH2]. clear IH.
    assert (Hstep := add_reading_lookup a b m0 row code).
    split.
    + intros d [Hd|Hd].
      * destruct (row_reading a b row) as [[k d1]|].
        -- destruct (String.eqb_spec k code) as [->|Hne].
           ++ rewrite Hd in Hstep.
              destruct (IH1 (Z.max d d1) (or_introl Hstep)) as (m & Hm & Hle).
              exists m. split; [exact Hm | lia].
           ++ apply IH1. left. congruence.
        -- apply IH1. left. congruence.
      * apply in_app_or in Hd. destruct Hd as [Hd|Hd]; [|apply IH1; now right].
        destruct (row_reading a b row) as [[k d1]|]; [|destruct Hd].
        destruct Hd as [[= -> ->]|[]]. rewrite String.eqb_refl in Hstep.
        destruct (m0 !! code) as [d0|].
        -- destruct (IH1 (Z.max d0 d) (or_introl Hstep)) as (m & Hm & Hle).
           exists m. split; [exact Hm | lia].
        -- now apply IH1; left.
    + intros m Hm. destruct (IH2 m Hm) as [H|H]; [|right; apply in_or_app; now right].
      rewrite Hstep in H.
      destruct (row_reading a b row) as [[k d1]|]; [|now left].
      destruct (String.eqb_spec k code) as [->|Hne]; [|now left].
      destruct (m0 !! code) as [d0|].
      * injection H as <-. destruct (Z.max_spec d0 d1) as [[_ ->]|[_ ->]].
        -- right. apply in_or_app. left. now left.
        -- now left.
      * injection H as <-. right. apply in_or_app. left. now left.
Qed.

(** X15.  The meter index holds, for an apartment code, the latest of the
    reading dates of the rows of UT_DATA with this code whose date parses:
    it is the date of one of these rows, no such row has a later date, and
    a code with no such row has no entry. *)
Theorem build_last_ut_dates_spec (ut_code_col ut_date_col : nat)
    (rows : list (list string)) (code : string) :
  let readings :=
    flat_map (fun row => opt_to_list (row_reading ut_code_col ut_date_col row)) rows in
  let last_ut_dates := build_last_ut_dates ut_code_col ut_date_col rows in
  (forall d, In (code, d) readings ->
             exists m, last_ut_dates !! code = Some m /\ d <= m)
  /\ (forall m, last_ut_dates !! code = Some m -> In (code, m) readings)
  /\ (last_ut_dates !! code = None <-> forall d, ~ In (code, d) readings).
Proof.
  cbv zeta. unfold build_last_ut_dates.
  destruct (fold_add_reading ut_code_col ut_date_col rows ∅ code) as [H1 H2].
  cbv zeta in H1, H2. split; [|split].
  - intros d Hd. apply H1. now right.
  - intros m Hm. destruct (H2 m Hm) as [H|H]; [|exact H].
    rewrite lookup_empty in H. discriminate.
  - split.
    + intros Hnone d Hd. destruct (H1 d (or_intror Hd)) as (m & Hm & _). congruence.
    + intros Hno.
      destruct (fold_left (add_reading ut_code_col ut_date_col) rows ∅ !! code) as [m|] eqn:Hm;
        [|reflexivity].
      destruct (H2 m eq_refl) as [H|H].
      * rewrite lookup_empty in H. discriminate.
      * now destruct (Hno m).
Qed.

(** ** The urgent tasks of a realtor *)

Lemma actionable_tasks_filter (realtor_name : string) (l : list item) :
  (forall x, In x l -> realtor x <> None) ->
  actionable_tasks realtor_name l
  = Some (List.filter
            (fun x => match is_action_item realtor_name x with
                      | Some keep => keep
                      | None => false
                      end) l).
Proof.
  induction l as [|x l IH]; intros Hall; [reflexivity|].
  simpl. rewrite IH by (intros y Hy; apply Hall; now right).
  unfold is_action_item. destruct (realtor x) eqn:Hr.
  - reflexivity.
  - now destruct (Hall x (or_introl eq_refl)).
Qed.

Lemma actionable_tasks_None (realtor_name : string) (l : list item) :
  actionable_tasks realtor_name l = None <-> exists x, In x l /\ realtor x = None.
Proof.
  induction l as [|x l IH]; simpl.
  - split; [discriminate | intros (x & [] & _)].
  - unfold is_action_item at 1. destruct (realtor x) eqn:Hr.
    + destruct (actionable_tasks realtor_name l).
      * split; [discriminate|]. intros (y & [<-|Hy] & Hnone); [congruence|].
        exfalso. assert (H : Some l0 = None) by (apply IH; now exists y). discriminate.
      * split; [|reflexivity]. intros _.
        destruct (proj1 IH eq_refl) as (y & Hy & Hnone). exists y. split; [now right | exact Hnone].
    + split; [|reflexivity]. intros _. exists x. split; [now left | exact Hr].
Qed.

Lemma StronglySorted_app_inv {A : Type} (R : A -> A -> Prop) (l1 l2 : list A) :
  StronglySorted R (l1 ++ l2)%list ->
  StronglySorted R l1 /\ forall x y, In x l1 -> In y l2 -> R x y.
Proof.
  induction l1 as [|a l1 IH]; simpl; intros Hs.
  - split; [constructor | intros x y []].
  - apply StronglySorted_inv in Hs. destruct Hs as [Hs Ha].
    destruct (IH Hs) as [IH1 IH2]. split.
    + constructor; [exact IH1|]. apply List.Forall_forall. intros y Hy.
      apply (proj1 (List.Forall_forall _ _) Ha). apply in_or_app. now left.
    + intros x y [<-|Hx] Hy.
      * apply (proj1 (List.Forall_forall _ _) Ha). apply in_or_app. now right.
      * now apply IH2.
Qed.

(** X16.  The urgent tasks of a realtor, when no task has the realtor
    [None]: the result holds tasks of the active list that are the
    realtor's (up to the case of the letters), are Unpaid or Check-out and
    have a box not ticked; it is in the order of the due dates, a task
    without one last; for a limit that is not negative it has at most
    [limit] tasks, and a task of this kind that it leaves out is not due
    before any task it holds; below the limit it leaves none out. *)
Theorem get_action_items_for_realtor_spec (self : TodoManager) (realtor_name : string)
    (limit : Z) :
  (forall x, In x (todo_list self) -> realtor x <> None) ->
  exists tasks,
    get_action_items_for_realtor self realtor_name limit = Some tasks
    /\ (forall x, In x tasks ->
          In x (todo_list self) /\ is_action_item realtor_name x = Some true)
    /\ StronglySorted (fun x y => String.ltb (urgency_key y) (urgency_key x) = false) tasks
    /\ (0 <= limit ->
        (length tasks <= Z.to_nat limit)%nat
        /\ (forall x y, In x (todo_list self) ->
              is_action_item realtor_name x = Some true ->
              ~ In x tasks -> In y tasks ->
              String.ltb (urgency_key x) (urgency_key y) = false)
        /\ ((length tasks < Z.to_nat limit)%nat ->
            forall x, In x (todo_list self) ->
              is_action_item realtor_name x = Some true -> In x tasks)).
Proof.
  intros Hall. unfold get_action_items_for_realtor.
  destruct (todo_list self) as [|x0 l0] eqn:Hl.
  - exists []. split; [reflexivity|]. split; [intros x []|]. split; [constructor|].
    intros _. split; [simpl; lia|]. split; intros; contradiction.
  - rewrite <- Hl in *. clear Hl x0 l0.
    rewrite (actionable_tasks_filter realtor_name _ Hall).
    set (p := fun x => match is_action_item realtor_name x with
                       | Some keep => keep
                       | None => false
                       end).
    set (sorted := Py.sort_by String.ltb urgency_key (List.filter p (todo_list self))).
    assert (Hin : forall x, In x sorted <->
                            In x (todo_list self) /\ is_action_item realtor_name x = Some true).
    { intros x. unfold sorted. rewrite sort_by_In, filter_In. unfold p.
      destruct (is_action_item realtor_name x) as [[]|]; intuition congruence. }
    assert (Hsorted : StronglySorted
                        (fun x y => String.ltb (urgency_key y) (urgency_key x) = false) sorted).
    { apply sort_by_sorted; [apply string_ltb_asym | apply string_ltb_negtrans]. }
    exists (slice_to sorted limit). split; [reflexivity|].
    unfold slice_to.
    set (n := if limit <? 0 then Z.to_nat (Z.of_nat (length sorted) + limit)
              else Z.to_nat limit).
    replace (if limit <? 0 then firstn (Z.to_nat (Z.of_nat (length sorted) + limit)) sorted
             else firstn (Z.to_nat limit) sorted) with (firstn n sorted)
      by (unfold n; now destruct (limit <? 0)).
    assert (Hsplit := firstn_skipn n sorted).
    rewrite <- Hsplit in Hsorted. apply StronglySorted_app_inv in Hsorted.
    destruct Hsorted as [Hfirst Hrest].
    split; [|split; [exact Hfirst|]].
    + intros x Hx. apply Hin. rewrite <- Hsplit. apply in_or_app. now left.
    + intros Hlimit. assert (Hn : n = Z.to_nat limit).
      { unfold n. destruct (Z.ltb_spec limit 0); [lia | reflexivity]. }
      rewrite Hn in *. split; [apply List.firstn_le_length|]. split.
      * intros x y Hx Hact Hout Hy.
        assert (Hs : In x sorted) by now apply Hin.
        rewrite <- Hsplit in Hs. apply in_app_or in Hs. destruct Hs as [Hs|Hs]; [contradiction|].
        now apply Hrest.
      * intros Hlen x Hx Hact.
        assert (Hs : In x sorted) by now apply Hin.
        rewrite List.firstn_all2; [exact Hs|].
        rewrite List.length_firstn in Hlen. lia.
Qed.

(** X17.  The call raises (a realtor that is [None] has no [lower]) exactly
    when some task of the active list has the realtor [None]; an empty list
    gives the empty list. *)
Theorem get_action_items_for_realtor_raises (self : TodoManager) (realtor_name : string)
    (limit : Z) :
  get_action_items_for_realtor self realtor_name limit = None
  <-> exists x, In x (todo_list self) /\ realtor x = None.
Proof.
  unfold get_action_items_for_realtor.
  rewrite <- (actionable_tasks_None realtor_name (todo_list self)).
  destruct (todo_list self) as [|x l]; [simpl; split; discriminate|].
  destruct (actionable_tasks realtor_name (x :: l)); split; congruence.
Qed.

Lemma get_action_items_for_realtor_spec_witness :
  exists tasks,
    get_action_items_for_realtor Scenario.after_first_call "ann" 1 = Some tasks
    /\ (forall x, In x tasks ->
          In x (todo_list Scenario.after_first_call)
          /\ is_action_item "ann" x = Some true)
    /\ StronglySorted (fun x y => String.ltb (urgency_key y) (urgency_key x) = false) tasks
    /\ (0 <= 1 ->
        (length tasks <= Z.to_nat 1)%nat
        /\ (forall x y, In x (todo_list Scenario.after_first_call) ->
              is_action_item "ann" x = Some true ->
              ~ In x tasks -> In y tasks ->
              String.ltb (urgency_key x) (urgency_key y) = false)
        /\ ((length tasks < Z.to_nat 1)%nat ->
            forall x, In x (todo_list Scenario.after_first_call) ->
              is_action_item "ann" x = Some true -> In x tasks)).
Proof.
  apply (get_action_items_for_realtor_spec Scenario.after_first_call "ann" 1).
  intros x Hx. vm_compute in Hx. destruct Hx as [<-|[<-|[]]]; discriminate.
Defined.

(** ** The refresh of the context fields *)

Lemma refresh_item_same (T : gmap string (list transaction)) (U : gmap string date)
    (x : item) :
  ap_code (refresh_item T U x) = ap_code x
  /\ reason (refresh_item T U x) = reason x
  /\ due_date (refresh_item T U x) = due_date x
  /\ realtor (refresh_item T U x) = realtor x
  /\ status (refresh_item T U x) = status x
  /\ manual (refresh_item T U x) = manual x
  /\ user_fields (refresh_item T U x) = user_fields x.
Proof. repeat split. Qed.

Lemma refresh_item_twice (T : gmap string (list transaction)) (U : gmap string date)
    (x : item) :
  refresh_item T U (refresh_item T U x) = refresh_item T U x.
Proof. reflexivity. Qed.

(** X18.  The refresh of the context fields raises [KeyError] exactly when
    MO_DATA or UT_DATA is not loaded.  Otherwise it keeps the sheets, the
    trash bin, and the tasks of the active list in their order, each with
    its apartment, reason, due date, realtor, status, manual mark and
    user's fields; and a second refresh on the same sheets changes
    nothing. *)
Theorem refresh_context_data_for_list_spec (self : TodoManager) :
  ((exists k, refresh_context_data_for_list self = inl (KeyError k))
   <-> all_data self !! "MO_DATA" = None \/ all_data self !! "UT_DATA" = None)
  /\ (forall m, refresh_context_data_for_list self = inr m ->
        all_data m = all_data self
        /\ trash_bin m = trash_bin self
        /\ map (fun x => (ap_code x, reason x, due_date x, realtor x, status x, manual x,
                          user_fields x)) (todo_list m)
           = map (fun x => (ap_code x, reason x, due_date x, realtor x, status x, manual x,
                            user_fields x)) (todo_list self)
        /\ refresh_context_data_for_list m = inr m).
Proof.
  unfold refresh_context_data_for_list.
  destruct (all_data self !! "MO_DATA") as [mo|] eqn:Hmo.
  - destruct (all_data self !! "UT_DATA") as [ut|] eqn:Hut.
    + split.
      * split; [intros (k & Hk); discriminate | intros [H|H]; discriminate].
      * intros m [= <-]. simpl. rewrite Hmo, Hut. repeat split.
        -- rewrite map_map. reflexivity.
        -- unfold with_todo_list. simpl. rewrite map_map. reflexivity.
    + split; [|discriminate]. split; [now right | now exists "UT_DATA"].
  - split; [|discriminate]. split; [now left | now exists "MO_DATA"].
Qed.







(** ** Looking a row up *)

Lemma row_dict_untouched (row : list string) (h : string) (l : list string) (s : nat)
    (d : Py.dict (option string)) :
  ~ In h l ->
  Py.dict_get h
    (fold_left (fun d '(i, h) => Py.dict_set h (Py.getitem row i) d)
       (combine (seq s (length l)) l) d)
  = Py.dict_get h d.
Proof.
  revert s d. induction l as [|y l IH]; intros s d Hout; [reflexivity|].
  simpl. rewrite IH by (intros H; apply Hout; now right).
  apply dict_get_set_ne. intros ->. apply Hout. now left.
Qed.

Lemma row_dict_get (row : list string) (l : list string) (s : nat)
    (d : Py.dict (option string)) (j : nat) (h : string) :
  nth_error l j = Some h ->
  (forall j', (j < j')%nat -> nth_error l j' <> Some h) ->
  Py.dict_get h
    (fold_left (fun d '(i, h) => Py.dict_set h (Py.getitem row i) d)
       (combine (seq s (length l)) l) d)
  = Some (Py.getitem row (s + j)).
Proof.
  revert s d j. induction l as [|y l IH]; intros s d j Hj Hlast.
  - destruct j; discriminate.
  - simpl. destruct j as [|j]; simpl in Hj.
    + injection Hj as ->. rewrite row_dict_untouched.
      * rewrite dict_get_set_eq. now rewrite Nat.add_0_r.
      * intros Hin. apply In_nth_error in Hin. destruct Hin as [n Hn].
        apply (Hlast (S n)); [lia | exact Hn].
    + rewrite (IH (S s) _ j Hj).
      * f_equal. f_equal. lia.
      * intros j' Hlt. apply (Hlast (S j')). lia.
Qed.

(** X20.  The lookup of a row by its code, in a loaded sheet that has the
    code column (names compared without the blanks around them and without
    regard to the case of the letters): the answer comes from the first
    row whose code cell equals the code in this sense, and gives, under
    each column name, the cell of this row in the last column of that
    name, [None] where the row is too short; the answer is [None] exactly
    when no row has such a cell. *)
Theorem get_row_by_code_spec (all_data : gmap string sheet)
    (ap_code sheet_name code_column_name : string) (sh : sheet) (i : nat) :
  all_data !! sheet_name = Some sh ->
  Py.index (Py.upper (Py.strip code_column_name))
    (map (fun h => Py.upper (Py.strip h)) (header sh)) = Some i ->
  match get_row_by_code all_data ap_code sheet_name code_column_name with
  | Some d =>
      exists before row after cell,
        data sh = (before ++ row :: after)%list
        /\ Py.getitem row i = Some cell
        /\ Py.upper (Py.strip cell) = Py.upper (Py.strip ap_code)
        /\ (forall r c, In r before -> Py.getitem r i = Some c ->
                        Py.upper (Py.strip c) <> Py.upper (Py.strip ap_code))
        /\ (forall j h, nth_error (header sh) j = Some h ->
              (forall j', (j < j')%nat -> nth_error (header sh) j' <> Some h) ->
              Py.dict_get h d = Some (Py.getitem row j))
  | None =>
      forall r c, In r (data sh) -> Py.getitem r i = Some c ->
                  Py.upper (Py.strip c) <> Py.upper (Py.strip ap_code)
  end.
Proof.
  intros Hsh Hi. unfold get_row_by_code. rewrite Hsh, Hi.
  set (p := fun row : list string =>
              match Py.getitem row i with
              | Some cell => (Py.upper (Py.strip cell) =? Py.upper (Py.strip ap_code))%string
              | None => false
              end).
  destruct (List.find p (data sh)) as [row|] eqn:Hfind.
  - destruct (find_split p _ _ Hfind) as (before & after & Hdata & Hrow & Hbefore & _).
    unfold p in Hrow. destruct (Py.getitem row i) as [cell|] eqn:Hcell; [|discriminate].
    apply String.eqb_eq in Hrow.
    exists before, row, after, cell. repeat split; trivial.
    + intros r c Hr Hc Heq. specialize (Hbefore r Hr). unfold p in Hbefore.
      rewrite Hc in Hbefore. apply String.eqb_neq in Hbefore. contradiction.
    + intros j h Hj Hlast. now rewrite (row_dict_get row (header sh) 0 [] j h Hj Hlast).
  - intros r c Hr Hc Heq. assert (Hp := find_none_all p _ Hfind r Hr). unfold p in Hp.
    rewrite Hc in Hp. apply String.eqb_neq in Hp. contradiction.
Qed.

Lemma get_row_by_code_spec_witness :
  match get_row_by_code (all_data Session.metered_A1) " a1 " "APARTMENTS" "ap code" with
  | Some d =>
      exists before row after cell,
        [["A1"; "15-01-2024"; ""; "Ann"; ""]] = (before ++ row :: after)%list
        /\ Py.getitem row 0 = Some cell
        /\ Py.upper (Py.strip cell) = Py.upper (Py.strip " a1 ")
        /\ (forall r c, In r before -> Py.getitem r 0 = Some c ->
                        Py.upper (Py.strip c) <> Py.upper (Py.strip " a1 "))
        /\ (forall j h, nth_error Scenario.AP_HEADER j = Some h ->
              (forall j', (j < j')%nat -> nth_error Scenario.AP_HEADER j' <> Some h) ->
              Py.dict_get h d = Some (Py.getitem row j))
  | None =>
      forall r c, In r [["A1"; "15-01-2024"; ""; "Ann"; ""]] -> Py.getitem r 0 = Some c ->
                  Py.upper (Py.strip c) <> Py.upper (Py.strip " a1 ")
  end.
Proof.
  apply (get_row_by_code_spec (all_data Session.metered_A1) " a1 " "APARTMENTS" "ap code"
           {| header := Scenario.AP_HEADER;
              data := [["A1"; "15-01-2024"; ""; "Ann"; ""]] |} 0%nat).
  - vm_compute. reflexivity.
  - vm_compute. reflexivity.
Defined.

Lemma map_upper_stripped (l : list string) :
  Forall (fun h => Py.strip h = h) l ->
  map (fun h => Py.upper (Py.strip h)) l = map Py.upper l.
Proof.
  induction 1 as [|h l Hh _ IH]; [reflexivity|]. simpl. now rewrite Hh, IH.
Qed.

(** X21.  Every code that the search by realtor returns is found by the
    lookup of an apartment, when no column name of the APARTMENTS header
    has blanks around it.  (The search takes the column whose name is
    "AP CODE" up to the case, the lookup the column whose stripped name
    is.) *)
Theorem apartments_of_realtor_are_found (all_data : gmap string sheet)
    (realtor_name code : string) :
  (forall sh, all_data !! "APARTMENTS" = Some sh ->
              Forall (fun h => Py.strip h = h) (header sh)) ->
  In code (get_apartments_by_realtor all_data realtor_name) ->
  exists d, get_apartment_data all_data code = Some d.
Proof.
  intros Hheader. unfold get_apartments_by_realtor, get_apartment_data, get_row_by_code.
  destruct (all_data !! "APARTMENTS") as [sh|]; [|intros []].
  rewrite (map_upper_stripped _ (Hheader sh eq_refl)).
  change (Py.upper (Py.strip "AP CODE")) with "AP CODE".
  destruct (Py.index "AP CODE" (map Py.upper (header sh))) as [ci|]; [|intros []].
  destruct (Py.index "REALTOR" (map Py.upper (header sh))) as [ri|]; [|intros []].
  intros Hin. apply in_flat_map in Hin. destruct Hin as (row & Hrow & Hcode).
  destruct (Py.getitem row ri) as [r|]; [|destruct Hcode].
  destruct (Py.getitem row ci) as [c|] eqn:Hc; [|destruct Hcode].
  destruct (_ =? _)%string; [|destruct Hcode]. destruct Hcode as [->|[]].
  match goal with |- context [List.find ?p _] => destruct (List.find p (data sh)) eqn:Hf end.
  - eexists. reflexivity.
  - apply find_none_all with (y := row) in Hf; [|exact Hrow].
    rewrite Hc, String.eqb_refl in Hf. discriminate.
Qed.

Lemma apartments_of_realtor_are_found_witness :
  In "A1" (get_apartments_by_realtor (all_data Session.metered_A1) " ANN")
  /\ exists d, get_apartment_data (all_data Session.metered_A1) "A1" = Some d.
Proof.
  assert (H : In "A1" (get_apartments_by_realtor (all_data Session.metered_A1) " ANN")).
  { vm_compute. left. reflexivity. }
  split; [exact H|].
  apply (apartments_of_realtor_are_found (all_data Session.metered_A1) " ANN" "A1");
    [|exact H].
  intros sh Hsh. vm_compute in Hsh. injection Hsh as <-. repeat constructor.
Defined.

(** ** More on manual insertion *)

Lemma has_key_In (key : string) (l : list item) :
  has_key key l = true <-> exists x, In x l /\ item_key x = key.
Proof.
  unfold has_key. rewrite existsb_exists.
  split; intros (x & Hx & Hk); exists x; split; trivial; now apply String.eqb_eq.
Qed.

(** X22.  A manual insertion that has succeeded is not repeated: the same
    call on the manager it left is refused and leaves this manager as it
    is. *)
Theorem add_manual_item_twice (self m : TodoManager) (code msg : string)
    (due : option date) :
  add_manual_item self code due = Returned (true, msg, m) ->
  exists msg', add_manual_item m code due = Returned (false, msg', m).
Proof.
  unfold add_manual_item.
  destruct (has_key _ (todo_list self)); [discriminate|].
  destruct (fetch_last_transaction _ _ _) as [|y] eqn:Hy; [discriminate|].
  destruct (fetch_last_reading _ _ _) as [|z] eqn:Hz; [discriminate|].
  intros [= _ <-]. simpl.
  apply fetch_last_transaction_same in Hy. apply fetch_last_reading_same in Hz.
  destruct Hy as (Ha & Hd & _), Hz as (Ha' & Hd' & _).
  assert (Hkey : has_key (code ++ Py.or_empty (option_map isoformat due))
                   (_sort_list (todo_list self ++ [z])) = true).
  { apply has_key_In. exists z. split.
    - apply sort_list_In, in_or_app. right. now left.
    - unfold item_key. rewrite Ha', Hd', Ha, Hd. reflexivity. }
  rewrite Hkey. eexists. reflexivity.
Qed.

Lemma add_manual_item_twice_witness :
  exists m msg,
    add_manual_item (Scenario.tenant_A1 []) "A1" (Some Scenario.june_30)
    = Returned (true, msg, m)
    /\ exists msg', add_manual_item m "A1" (Some Scenario.june_30) = Returned (false, msg', m).
Proof.
  eexists. eexists.
  assert (H : add_manual_item (Scenario.tenant_A1 []) "A1" (Some Scenario.june_30)
              = Returned (true, _, _)) by (vm_compute; reflexivity).
  split; [exact H|].
  exact (add_manual_item_twice _ _ _ _ _ H).
Defined.

Lemma collect_transactions_raises (code_col date_col type_col : nat) (code : string)
    (rows : list (list string)) (acc : list (date * string)) :
  (exists row cell,
      In row rows /\ Py.getitem row code_col = Some cell /\ Py.strip cell = code
      /\ ((length row <= date_col)%nat \/ (length row <= type_col)%nat)) ->
  collect_transactions code_col date_col type_col code rows acc = Raised IndexError.
Proof.
  revert acc. induction rows as [|r rows IH]; intros acc (row & cell & Hin & Hcell & Hcode & Hlen).
  - destruct Hin.
  - simpl. destruct Hin as [->|Hin].
    + rewrite Hcell, Hcode, String.eqb_refl.
      destruct (Py.getitem row date_col) as [d|] eqn:Hd; [|reflexivity].
      destruct (Py.getitem row type_col) as [t|] eqn:Ht; [|reflexivity].
      apply getitem_Some_lt in Hd, Ht. lia.
    + assert (Hrest : forall acc',
                collect_transactions code_col date_col type_col code rows acc'
                = Raised IndexError).
      { intros acc'. apply IH. now exists row, cell. }
      destruct (Py.getitem r code_col) as [c0|]; [|apply Hrest].
      destruct (Py.strip c0 =? code)%string; [|apply Hrest].
      destruct (Py.getitem r date_col) as [d|]; [|reflexivity].
      destruct (Py.getitem r type_col) as [t|]; [|reflexivity].
      destruct (strptime_first (Py.strip d) MO_FORMATS); apply Hrest.
Qed.

(** X23.  A manual insertion with a new key raises [IndexError], and adds
    nothing, when MO_DATA has its code, date and type columns and some row
    of this apartment stops before the date or the type column. *)
Theorem add_manual_item_raises_on_short_row (self : TodoManager) (code : string)
    (due : option date) (mo_data : sheet) (code_col date_col type_col : nat)
    (row : list string) (cell : string) :
  has_key (code ++ Py.or_empty (option_map isoformat due)) (todo_list self) = false ->
  all_data self !! "MO_DATA" = Some mo_data ->
  Py.index "APARTMENT CODE" (map (fun h => Py.upper (Py.strip h)) (header mo_data))
  = Some code_col ->
  Py.index "SUBMISSION DATE" (map (fun h => Py.upper (Py.strip h)) (header mo_data))
  = Some date_col ->
  Py.index "TYPE OF MONEY TASK" (map (fun h => Py.upper (Py.strip h)) (header mo_data))
  = Some type_col ->
  In row (data mo_data) ->
  Py.getitem row code_col = Some cell ->
  Py.strip cell = code ->
  (length row <= date_col)%nat \/ (length row <= type_col)%nat ->
  add_manual_item self code due = Raised IndexError.
Proof.
  intros Hkey Hmo Ha Hb Ht Hrow Hcell Hcode Hlen.
  unfold add_manual_item. rewrite Hkey.
  unfold fetch_last_transaction. rewrite Hmo, Ha, Hb, Ht.
  rewrite collect_transactions_raises; [reflexivity|].
  now exists row, cell.
Qed.

Lemma add_manual_item_raises_on_short_row_witness :
  add_manual_item Session.short_mo_row "A1" None = Raised IndexError.
Proof.
  apply (add_manual_item_raises_on_short_row Session.short_mo_row "A1" None
           {| header := Scenario.MO_HEADER; data := [["A1"; "2024-06-10"]] |}
           0%nat 1%nat 2%nat ["A1"; "2024-06-10"] "A1").
  - reflexivity.
  - vm_compute. reflexivity.
  - vm_compute. reflexivity.
  - vm_compute. reflexivity.
  - vm_compute. reflexivity.
  - now left.
  - reflexivity.
  - vm_compute. reflexivity.
  - right. simpl. lia.
Defined.

Section SortMap.
Context {A B K : Type} (lt : K -> K -> bool) (key1 : A -> K) (key2 : B -> K) (f : A -> B).
Hypothesis key_f : forall x, key2 (f x) = key1 x.

Lemma insert_map (x : A) (l : list A) :
  Py.insert lt key2 (f x) (map f l) = map f (Py.insert lt key1 x l).
Proof.
  induction l as [|y l IH]; [reflexivity|].
  simpl. rewrite !key_f. destruct (lt (key1 y) (key1 x)); [|reflexivity].
  simpl. now rewrite IH.
Qed.

Lemma sort_by_map (l : list A) :
  Py.sort_by lt key2 (map f l) = map f (Py.sort_by lt key1 l).
Proof.
  induction l as [|x l IH]; [reflexivity|].
  simpl. now rewrite IH, insert_map.
Qed.
End SortMap.

Lemma build_transactions_lookup (c : mo_columns) (rows : list (list string))
    (code : string) :
  build_transactions c rows !! code
  = match events_of c rows code with
    | [] => None
    | events => Some (Py.sort_by Z.gtb tr_date events)
    end.
Proof.
  unfold build_transactions. rewrite lookup_fmap, fold_add_transaction, lookup_empty.
  now destruct (events_of c rows code).
Qed.

Lemma sort_by_nil_inv {A K : Type} (lt : K -> K -> bool) (key : A -> K) (l : list A) :
  Py.sort_by lt key l = [] -> l = [].
Proof.
  intros H. assert (Hp := sort_by_perm lt key l). rewrite H in Hp.
  now apply Permutation_nil in Hp.
Qed.

Lemma latest_transaction_events (c : mo_columns) (rows : list (list string))
    (code : string) :
  latest_transaction (build_transactions c rows) code
  = head (Py.sort_by Z.gtb tr_date (events_of c rows code)).
Proof.
  unfold latest_transaction. rewrite build_transactions_lookup.
  now destruct (events_of c rows code).
Qed.

Lemma collect_transactions_events (c : mo_columns) (width : nat) (code : string)
    (rows : list (list string)) (acc : list (date * string)) :
  (mo_code_col c < width)%nat -> (mo_date_col c < width)%nat ->
  (mo_type_col c < width)%nat -> (mo_specific_task_col c < width)%nat ->
  code <> "" ->
  Forall (fun row => (width <= length row)%nat) rows ->
  collect_transactions (mo_code_col c) (mo_date_col c) (mo_type_col c) code rows acc
  = Returned (acc ++ map (fun e => (tr_date e, tr_type e)) (events_of c rows code))%list.
Proof.
  intros H1 H2 H3 H4 Hne Hrows. revert acc.
  induction Hrows as [|row rows Hrow _ IH]; intros acc.
  - simpl. now rewrite app_nil_r.
  - simpl collect_transactions. unfold events_of. simpl flat_map.
    fold (events_of c rows code). unfold row_event.
    destruct (getitem_lt row (mo_code_col c)) as [cell ->]; [lia|].
    destruct (getitem_lt row (mo_date_col c)) as [d ->]; [lia|].
    destruct (getitem_lt row (mo_type_col c)) as [t ->]; [lia|].
    destruct (getitem_lt row (mo_specific_task_col c)) as [sp ->]; [lia|].
    destruct (String.eqb_spec (Py.strip cell) code) as [Heq|Hneq].
    + assert (Htruthy : Py.truthy (Py.strip cell) = true).
      { unfold Py.truthy. apply negb_true_iff, String.eqb_neq. congruence. }
      rewrite Htruthy.
      destruct (strptime_first (Py.strip d) MO_FORMATS) as [pd|]; simpl.
      * rewrite (proj2 (String.eqb_eq _ _) Heq). rewrite IH. simpl.
        now rewrite <- app_assoc.
      * apply IH.
    + destruct (Py.truthy (Py.strip cell)); [|apply IH].
      destruct (strptime_first (Py.strip d) MO_FORMATS) as [pd|]; simpl; [|apply IH].
      rewrite (proj2 (String.eqb_neq _ _) Hneq). apply IH.
Qed.

Lemma collect_last_reading_lookup (a b width : nat) (code : string)
    (rows : list (list string)) (m : gmap string date) :
  (a < width)%nat -> (b < width)%nat ->
  Forall (fun row => (width <= length row)%nat) rows ->
  Forall (fun row => forall cell, Py.getitem row a = Some cell -> Py.strip cell = cell) rows ->
  collect_last_reading a b code rows (m !! code)
  = Returned (fold_left (add_reading a b) rows m !! code).
Proof.
  intros Ha Hb Hrows Hstrip. revert m.
  induction Hrows as [|row rows Hrow _ IH]; intros m; [reflexivity|].
  apply Forall_cons_iff in Hstrip. destruct Hstrip as [Hcell Hstrip].
  specialize (IH Hstrip). simpl. rewrite <- IH, add_reading_lookup. unfold row_reading.
  destruct (getitem_lt row a) as [cell Hc]; [lia|].
  destruct (getitem_lt row b) as [s Hs]; [lia|].
  rewrite Hc, Hs, (Hcell cell Hc).
  destruct (strptime_first s UT_FORMATS) as [d|]; simpl.
  - destruct (cell =? code)%string; [|reflexivity].
    destruct (m !! code) as [d0|]; [|reflexivity].
    destruct (Z.ltb_spec d0 d); do 2 f_equal; lia.
  - now destruct (cell =? code)%string, (m !! code).
Qed.

(** X24.  A manual task gets the context that the derived tasks of its
    apartment get: when the sheets are such that a call of [generate_list]
    derives, no row of MO_DATA and UT_DATA is shorter than its header, no
    code cell of UT_DATA has blanks around it and the key is new, the
    inserted task has the date and the type of the latest transaction of
    the apartment in the transaction index, and its latest reading in the
    meter index. *)
Theorem add_manual_item_context (self : TodoManager) (code : string) (due : option date)
    (transactions : gmap string (list transaction)) (last_ut_dates : gmap string date)
    (c : ap_columns) (rows : list (list string)) :
  read_sheets (all_data self) = Ready transactions last_ut_dates c rows ->
  rows_cover_header (all_data self) "MO_DATA" ->
  rows_cover_header (all_data self) "UT_DATA" ->
  (forall ut i, all_data self !! "UT_DATA" = Some ut ->
                Py.index "Apartment Code" (header ut) = Some i ->
                Forall (fun row => forall cell, Py.getitem row i = Some cell ->
                                                Py.strip cell = cell) (data ut)) ->
  code <> "" ->
  has_key (code ++ Py.or_empty (option_map isoformat due)) (todo_list self) = false ->
  exists msg x,
    add_manual_item self code due
    = Returned (true, msg, with_todo_list self (_sort_list (todo_list self ++ [x])))
    /\ last_transaction_date x
       = option_map isoformat (option_map tr_date (latest_transaction transactions code))
    /\ last_transaction_type x = option_map tr_type (latest_transaction transactions code)
    /\ last_ut_reading_date x = option_map isoformat (last_ut_dates !! code).
Proof.
  intros Hread Hmo Hut Hstrip Hne Hkey.
  unfold add_manual_item. rewrite Hkey.
  unfold read_sheets in Hread.
  destruct (all_data self !! "APARTMENTS") as [ap|]; [|discriminate].
  destruct (all_data self !! "MO_DATA") as [mo|] eqn:Hmosh; [|discriminate].
  destruct (all_data self !! "UT_DATA") as [ut|] eqn:Hutsh; [|discriminate].
  cbv zeta in Hread. unfold find_mo_columns in Hread.
  destruct (Py.index "APARTMENT CODE" _) as [a|] eqn:Ha; [|discriminate].
  destruct (Py.index "SUBMISSION DATE" _) as [b|] eqn:Hb; [|discriminate].
  destruct (Py.index "TYPE OF MONEY TASK" _) as [t|] eqn:Ht; [|discriminate].
  destruct (Py.index "SPECIFIC MONEY TASK" _) as [sp|] eqn:Hsp; [|discriminate].
  destruct (Py.index "Apartment Code" (header ut)) as [uc|] eqn:Huc; [|discriminate].
  destruct (Py.index "Date of Reading" (header ut)) as [ud|] eqn:Hud; [|discriminate].
  destruct (find_ap_columns (header ap)); [discriminate|].
  injection Hread as HT HU _ _.
  specialize (Hmo mo Hmosh). specialize (Hut ut Hutsh). specialize (Hstrip ut uc eq_refl Huc).
  unfold fetch_last_transaction. rewrite Hmosh, Ha, Hb, Ht.
  assert (Ha' := index_lt _ _ _ Ha). assert (Hb' := index_lt _ _ _ Hb).
  assert (Ht' := index_lt _ _ _ Ht). assert (Hsp' := index_lt _ _ _ Hsp).
  rewrite length_map in Ha', Hb', Ht', Hsp'.
  assert (Hcollect :=
            collect_transactions_events
              {| mo_code_col := a; mo_date_col := b; mo_type_col := t;
                 mo_specific_task_col := sp |}
              (length (header mo)) code (data mo) [] Ha' Hb' Ht' Hsp' Hne Hmo).
  cbn [mo_code_col mo_date_col mo_type_col app] in Hcollect. rewrite Hcollect.
  set (mc := {| mo_code_col := a; mo_date_col := b; mo_type_col := t;
                mo_specific_task_col := sp |}) in *.
  rewrite (sort_by_map Z.gtb tr_date fst (fun e => (tr_date e, tr_type e)))
    by reflexivity.
  assert (Hlatest := latest_transaction_events mc (data mo) code). rewrite HT in Hlatest.
  rewrite Hlatest.
  unfold fetch_last_reading.
  assert (Huc' := index_lt _ _ _ Huc). assert (Hud' := index_lt _ _ _ Hud).
  assert (Hread := collect_last_reading_lookup uc ud (length (header ut)) code (data ut) ∅
                     Huc' Hud' Hut Hstrip).
  rewrite lookup_empty in Hread. fold (build_last_ut_dates uc ud (data ut)) in Hread.
  rewrite HU in Hread.
  destruct (Py.sort_by Z.gtb tr_date (events_of mc (data mo) code)) as [|e es]; simpl.
  - rewrite Hutsh, Huc, Hud, Hread.
    destruct (last_ut_dates !! code) as [d|]; eexists _, _; (split; [reflexivity|]);
      simpl; repeat split.
  - rewrite Hutsh, Huc, Hud, Hread.
    destruct (last_ut_dates !! code) as [d|]; eexists _, _; (split; [reflexivity|]);
      simpl; repeat split.
Qed.

Lemma add_manual_item_context_witness :
  exists msg x,
    add_manual_item Session.metered_A1 "A1" None
    = Returned (true, msg,
                with_todo_list Session.metered_A1
                  (_sort_list (todo_list Session.metered_A1 ++ [x])))
    /\ last_transaction_date x
       = option_map isoformat
           (option_map tr_date
              (latest_transaction
                 (build_transactions Session.mo_cols (Scenario.paid_on (-5))) "A1"))
    /\ last_transaction_type x
       = option_map tr_type
           (latest_transaction
              (build_transactions Session.mo_cols (Scenario.paid_on (-5))) "A1")
    /\ last_ut_reading_date x
       = option_map isoformat (build_last_ut_dates 0 1 [["A1"; "10/06/2024"]] !! "A1").
Proof.
  apply (add_manual_item_context Session.metered_A1 "A1" None
           (build_transactions Session.mo_cols (Scenario.paid_on (-5)))
           (build_last_ut_dates 0 1 [["A1"; "10/06/2024"]])
           Session.ap_cols [["A1"; "15-01-2024"; ""; "Ann"; ""]]).
  - vm_compute. reflexivity.
  - intros sh Hsh. vm_compute in Hsh. injection Hsh as <-.
    constructor; [simpl; lia | constructor].
  - intros sh Hsh. vm_compute in Hsh. injection Hsh as <-.
    constructor; [simpl; lia | constructor].
  - intros ut i Hut Hi. vm_compute in Hut. injection Hut as <-.
    vm_compute in Hi. injection Hi as <-.
    constructor; [|constructor]. intros cell H. vm_compute in H.
    injection H as <-. vm_compute. reflexivity.
  - discriminate.
  - reflexivity.
Defined.

(** ** Loading a sheet *)

Lemma first_index_Some {A : Type} (p : A -> bool) (l : list A) (s i : nat) :
  first_index p l s = Some i ->
  exists l1 x l2,
    l = (l1 ++ x :: l2)%list /\ i = (s + length l1)%nat /\ p x = true
    /\ forall y, In y l1 -> p y = false.
Proof.
  revert s. induction l as [|a l IH]; intros s; simpl; [discriminate|].
  destruct (p a) eqn:Ha.
  - intros [= <-]. exists [], a, l. simpl.
    split; [reflexivity|]. split; [lia|]. split; [exact Ha | intros y []].
  - intros H. destruct (IH (S s) H) as (l1 & x & l2 & -> & -> & Hx & Hl1).
    exists (a :: l1), x, l2. simpl.
    split; [reflexivity|]. split; [lia|]. split; [exact Hx|].
    intros y [<-|Hy]; auto.
Qed.

Lemma first_index_None {A : Type} (p : A -> bool) (l : list A) (s : nat) :
  first_index p l s = None -> forall y, In y l -> p y = false.
Proof.
  revert s. induction l as [|a l IH]; intros s; simpl; [intros _ y []|].
  destruct (p a) eqn:Ha; [discriminate|].
  intros H y [<-|Hy]; [exact Ha | exact (IH (S s) H y Hy)].
Qed.

Lemma first_index_ext {A : Type} (p q : A -> bool) (l : list A) (s : nat) :
  (forall y, In y l -> p y = q y) -> first_index p l s = first_index q l s.
Proof.
  revert s. induction l as [|a l IH]; intros s Hpq; [reflexivity|].
  simpl. rewrite (Hpq a) by now left.
  destruct (q a); [reflexivity|]. apply IH. intros y Hy. apply Hpq. now right.
Qed.

Lemma not_header (is_header : list string -> bool) (r : list string) :
  negb (length r =? 0)%nat && is_header r = false <-> r = [] \/ is_header r = false.
Proof.
  destruct r as [|c r]; simpl.
  - split; [now left | reflexivity].
  - split; [now right | intros [H|H]; [discriminate | exact H]].
Qed.

Lemma store_sheet_spec (is_header : list string -> bool) (sheet_name : string)
    (all_values : list (list string)) (all_data : gmap string sheet) :
  (exists skipped h rows,
      all_values = (skipped ++ h :: rows)%list
      /\ (length skipped < 10)%nat
      /\ h <> []
      /\ is_header h = true
      /\ (forall r, In r skipped -> r = [] \/ is_header r = false)
      /\ store_sheet is_header sheet_name all_values all_data
         = <[sheet_name := {| header := h; data := rows |}]> all_data)
  \/ ((forall r, In r (firstn 10 all_values) -> r = [] \/ is_header r = false)
      /\ store_sheet is_header sheet_name all_values all_data = all_data).
Proof.
  unfold store_sheet, header_row_index.
  destruct (first_index _ (firstn 10 all_values) 0) as [i|] eqn:Hi.
  - left. apply first_index_Some in Hi.
    destruct Hi as (l1 & h & l2 & Hsplit & -> & Hh & Hl1). simpl.
    apply andb_true_iff in Hh. destruct Hh as [Hne Hh].
    assert (Hall : all_values = (l1 ++ h :: l2 ++ skipn 10 all_values)%list).
    { rewrite <- (firstn_skipn 10 all_values) at 1. rewrite Hsplit.
      now rewrite <- app_assoc. }
    assert (Hlen : (length l1 < 10)%nat).
    { assert (H := List.firstn_le_length 10 all_values). rewrite Hsplit in H.
      rewrite length_app in H. simpl in H. lia. }
    exists l1, h, (l2 ++ skipn 10 all_values)%list.
    split; [exact Hall|]. split; [exact Hlen|]. split; [|split; [exact Hh|split]].
    + intros ->. discriminate.
    + intros r Hr. apply not_header. now apply Hl1.
    + f_equal. rewrite Hall at 1 2. f_equal.
      * rewrite app_nth2 by lia. now rewrite Nat.sub_diag.
      * replace (length l1 + 1)%nat with (length l1 + 1 + 0)%nat by lia.
        rewrite <- (app_nil_l (l2 ++ skipn 10 all_values)%list) at 2.
        change (l1 ++ h :: l2 ++ skipn 10 all_values)%list
          with (l1 ++ [h] ++ (l2 ++ skipn 10 all_values))%list.
        rewrite app_assoc.
        replace (length l1 + 1 + 0)%nat with (length (l1 ++ [h]) + 0)%nat
          by (rewrite length_app; simpl; lia).
        rewrite List.skipn_app. rewrite List.skipn_all2 by lia.
        replace (length (l1 ++ [h]) + 0 - length (l1 ++ [h]))%nat with 0%nat by lia.
        reflexivity.
  - right. split; [|reflexivity]. intros r Hr. apply not_header.
    exact (first_index_None _ _ _ Hi r Hr).
Qed.

(** X25.  A round of the loop of [load_data] takes as the header of a
    sheet the first of its first ten rows that is not empty and holds
    "AP CODE" (for APARTMENTS; names stripped and upper-cased) or some
    text (for another sheet), and as its data all the rows after it; the
    rows before it are dropped.  When no such row is among the first ten,
    the loaded sheets stay as they were. *)
Theorem load_sheet_spec (sheet_name : string) (all_values : list (list string))
    (all_data : gmap string sheet) :
  let is_header := if (sheet_name =? "APARTMENTS")%string then has_ap_code else has_text in
  (exists skipped h rows,
      all_values = (skipped ++ h :: rows)%list
      /\ (length skipped < 10)%nat
      /\ h <> []
      /\ is_header h = true
      /\ (forall r, In r skipped -> r = [] \/ is_header r = false)
      /\ load_sheet sheet_name all_values all_data
         = <[sheet_name := {| header := h; data := rows |}]> all_data)
  \/ ((forall r, In r (firstn 10 all_values) -> r = [] \/ is_header r = false)
      /\ load_sheet sheet_name all_values all_data = all_data).
Proof. apply store_sheet_spec. Qed.

Lemma has_ap_code_has_text (row : list string) :
  has_ap_code row = true -> has_text row = true.
Proof.
  unfold has_ap_code, has_text. rewrite !existsb_exists.
  intros (cell & Hin & Hcell). exists cell. split; [exact Hin|].
  apply String.eqb_eq in Hcell. unfold Py.truthy.
  destruct (Py.strip cell); [discriminate | reflexivity].
Qed.

Lemma first_index_split {A : Type} (p : A -> bool) (l1 l2 : list A) (x : A) (s : nat) :
  p x = true -> (forall y, In y l1 -> p y = false) ->
  first_index p (l1 ++ x :: l2)%list s = Some (s + length l1)%nat.
Proof.
  intros Hx. revert s. induction l1 as [|a l1 IH]; intros s Hl1; simpl.
  - rewrite Hx. f_equal. lia.
  - rewrite (Hl1 a) by now left. rewrite IH by (intros y Hy; apply Hl1; now right).
    f_equal. lia.
Qed.

(** X26.  The targeted reload of a sheet stores what the full load
    stores, for every sheet but APARTMENTS; and for APARTMENTS too, when
    the row that the reload takes as the header holds "AP CODE".  (The
    reload takes the first row with some text as the header of any
    sheet.) *)
Theorem reload_sheet_as_load_sheet (sheet_name : string) (all_values : list (list string))
    (all_data : gmap string sheet) :
  sheet_name <> "APARTMENTS"
  \/ (forall i, header_row_index has_text all_values = Some i ->
                has_ap_code (nth i all_values []) = true) ->
  reload_sheet sheet_name all_values all_data = load_sheet sheet_name all_values all_data.
Proof.
  intros H. unfold reload_sheet, load_sheet.
  destruct (String.eqb_spec sheet_name "APARTMENTS") as [->|Hne]; [|reflexivity].
  destruct H as [H|H]; [contradiction|].
  unfold store_sheet. unfold header_row_index in *.
  destruct (first_index (fun row => negb (length row =? 0)%nat && has_text row)
              (firstn 10 all_values) 0) as [i|] eqn:Hi.
  - specialize (H i eq_refl).
    destruct (first_index_Some _ _ _ _ Hi) as (l1 & h & l2 & Hsplit & -> & Hh & Hl1).
    simpl in *. apply andb_true_iff in Hh. destruct Hh as [Hne Hh].
    assert (Hnth : nth (length l1) all_values [] = h).
    { rewrite <- (firstn_skipn 10 all_values), Hsplit, <- app_assoc.
      rewrite app_nth2 by lia. now rewrite Nat.sub_diag. }
    rewrite Hnth in H.
    rewrite Hsplit, first_index_split; [reflexivity | now rewrite Hne, H |].
    intros y Hy. specialize (Hl1 y Hy). cbv beta in Hl1. revert Hl1.
    destruct (negb (length y =? 0)%nat); simpl; [|reflexivity].
    intros Hl1.
    destruct (has_ap_code y) eqn:Ha; [|reflexivity].
    apply has_ap_code_has_text in Ha. congruence.
  - rewrite (first_index_ext
               (fun row => negb (length row =? 0)%nat && has_ap_code row)
               (fun row => negb (length row =? 0)%nat && has_text row)), Hi; [reflexivity|].
    intros y Hy. assert (Hf := first_index_None _ _ _ Hi y Hy). cbv beta in Hf. revert Hf.
    destruct (negb (length y =? 0)%nat); simpl; [|reflexivity].
    intros Hf. rewrite Hf.
    destruct (has_ap_code y) eqn:Ha; [|reflexivity].
    apply has_ap_code_has_text in Ha. congruence.
Qed.

Lemma reload_sheet_as_load_sheet_witness :
  reload_sheet "APARTMENTS"
    [[]; [" "; "ap code"; "REALTOR"]; ["1"; "A1"; "Ann"]] ∅
  = load_sheet "APARTMENTS"
      [[]; [" "; "ap code"; "REALTOR"]; ["1"; "A1"; "Ann"]] ∅.
Proof.
  apply (reload_sheet_as_load_sheet "APARTMENTS"
           [[]; [" "; "ap code"; "REALTOR"]; ["1"; "A1"; "Ann"]] ∅).
  right. intros i Hi. vm_compute in Hi. injection Hi as <-. vm_compute. reflexivity.
Defined.

(** ** The tabs of the to-do page *)

Lemma perm_filter_split {A : Type} (p q : A -> bool) (l : list A) :
  (forall x, In x l -> p x = true -> q x = false) ->
  Permutation (List.filter p l ++ List.filter q l) (List.filter (fun x => p x || q x) l).
Proof.
  induction l as [|a l IH]; intros Hpq; [constructor|].
  assert (IH' := IH (fun x Hx => Hpq x (or_intror Hx))).
  simpl. destruct (p a) eqn:Hp; simpl.
  - rewrite (Hpq a (or_introl eq_refl) Hp). now constructor.
  - destruct (q a); [|exact IH'].
    symmetry. apply Permutation_cons_app. now symmetry.
Qed.

Lemma filter_all_true {A : Type} (p : A -> bool) (l : list A) :
  (forall x, In x l -> p x = true) -> List.filter p l = l.
Proof.
  induction l as [|a l IH]; intros Hp; [reflexivity|].
  simpl. rewrite (Hp a) by now left. f_equal. apply IH. intros x Hx. apply Hp. now right.
Qed.

Lemma generated_kinds (set_order : date -> date -> bool) (old : list item)
    (start_date end_date : date) (transactions : gmap string (list transaction))
    (last_ut_dates : gmap string date) (c : ap_columns) (rows : list (list string))
    (x : item) :
  In x (_sort_list
          (reconcile old
             (derive set_order start_date end_date transactions last_ut_dates c rows))) ->
  (manual x = true /\ In x old)
  \/ (manual x = false
      /\ (status x = "Paid" \/ status x = "Unpaid" \/ status x = "Check-out")).
Proof.
  intros Hx. apply (proj1 (sort_list_In _ _)) in Hx.
  destruct (reconcile_shape old
              (derive set_order start_date end_date transactions last_ut_dates c rows))
    as (extra & Heq & _ & Hextra & _).
  rewrite Heq in Hx. apply in_app_or in Hx. destruct Hx as [Hx|Hx].
  - right. apply in_map_iff in Hx. destruct Hx as (d & <- & Hd).
    destruct (adopt_identity (index_by_key old) d) as (_ & _ & -> & ->).
    apply (proj1 (List.Forall_forall _ _)
             (derive_tasks set_order start_date end_date transactions last_ut_dates c rows))
      in Hd.
    tauto.
  - left. destruct (Hextra x Hx) as (Hm & Hentry & _).
    apply index_by_key_In in Hentry. tauto.
Qed.

(** X27.  After a call that derives, the five tabs of the to-do page share
    out the tasks to display, which are tasks of the active list (all of
    them, or those of one agent or of one apartment): every task is shown
    in exactly one of All Completed, Unpaid, Check-outs, Paid and Manual,
    when the manual tasks of the old list had the status "Pending" (the
    status of a manual insertion). *)
Theorem generate_list_tabs (set_order : date -> date -> bool) (self m : TodoManager)
    (start_date end_date : date) (items_to_display : list item) :
  generate_list set_order self start_date end_date = Returned (m, []) ->
  (forall x, In x (todo_list self) -> manual x = true -> status x = "Pending") ->
  (forall x, In x items_to_display -> In x (todo_list m)) ->
  Permutation
    (all_completed_items items_to_display ++ unpaid_items items_to_display
     ++ checkout_items items_to_display ++ paid_items items_to_display
     ++ manual_items items_to_display)%list
    items_to_display.
Proof.
  unfold generate_list.
  destruct (read_sheets (all_data self)) as [d|e|transactions last_ut_dates c rows];
    [discriminate|discriminate|].
  intros [= <-] Hold. simpl todo_list. intros Hshown.
  set (l := items_to_display).
  assert (Hkinds : forall x, In x l ->
            (manual x = true /\ status x = "Pending")
            \/ (manual x = false
                /\ (status x = "Paid" \/ status x = "Unpaid" \/ status x = "Check-out"))).
  { intros x Hx. apply Hshown in Hx.
    destruct (generated_kinds _ _ _ _ _ _ _ _ _ Hx) as [[Hm Hin]|H].
    - left. split; [exact Hm | now apply Hold].
    - now right. }
  unfold all_completed_items, unpaid_items, checkout_items, paid_items, manual_items.
  set (p1 := fun x : item => Py.all_values (checked x)).
  set (p2 := fun x : item => (status x =? "Unpaid")%string && negb (Py.all_values (checked x))).
  set (p3 := fun x : item =>
               (status x =? "Check-out")%string && negb (Py.all_values (checked x))).
  set (p4 := fun x : item => (status x =? "Paid")%string && negb (Py.all_values (checked x))).
  set (p5 := fun x : item => manual x && negb (Py.all_values (checked x))).
  assert (Hone : forall x, In x l ->
            (p4 x = true -> p5 x = false)
            /\ (p3 x = true -> p4 x || p5 x = false)
            /\ (p2 x = true -> p3 x || (p4 x || p5 x) = false)
            /\ (p1 x = true -> p2 x || (p3 x || (p4 x || p5 x)) = false)
            /\ p1 x || (p2 x || (p3 x || (p4 x || p5 x))) = true).
  { intros x Hx. unfold p1, p2, p3, p4, p5.
    destruct (Hkinds x Hx) as [[-> ->] | [-> [-> | [-> | ->]]]];
      destruct (Py.all_values (checked x)); simpl; repeat split; congruence. }
  rewrite (perm_filter_split p4 p5) by (intros x Hx; apply (Hone x Hx)).
  rewrite (perm_filter_split p3 (fun x => p4 x || p5 x))
    by (intros x Hx; apply (Hone x Hx)).
  rewrite (perm_filter_split p2 (fun x => p3 x || (p4 x || p5 x)))
    by (intros x Hx; apply (Hone x Hx)).
  rewrite (perm_filter_split p1 (fun x => p2 x || (p3 x || (p4 x || p5 x))))
    by (intros x Hx; apply (Hone x Hx)).
  rewrite filter_all_true; [reflexivity|]. intros x Hx. apply (Hone x Hx).
Qed.

Lemma generate_list_tabs_witness :
  let m := Session.after Session.manual_Z9
             (generate_list Scenario.end_first Session.manual_Z9
                Scenario.june_1 Scenario.june_30) in
  Permutation
    (all_completed_items (todo_list m) ++ unpaid_items (todo_list m)
     ++ checkout_items (todo_list m) ++ paid_items (todo_list m)
     ++ manual_items (todo_list m))%list
    (todo_list m).
Proof.
  intros m.
  apply (generate_list_tabs Scenario.end_first Session.manual_Z9 m
           Scenario.june_1 Scenario.june_30 (todo_list m)).
  - vm_compute. reflexivity.
  - intros x Hx _. vm_compute in Hx. destruct Hx as [<-|[]]. reflexivity.
  - intros x Hx. exact Hx.
Defined.

(** ** The outcomes of a call *)
(** Inside the bounds no addition of days overflows, and the call is the
    one of [generate_list]. *)
Section InBounds.
Variables (start_date end_date : date).
Hypothesis start_in_bounds : date_min + 9 <= start_date.
Hypothesis end_in_bounds : end_date + 5 <= date_max.

Lemma add_days_in_bounds (d : date) (n : Z) :
  date_min <= d + n <= date_max -> Overflow.add_days d n = Overflow.Completed (d + n).
Proof.
  intros [H1 H2]. unfold Overflow.add_days.
  rewrite (proj2 (Z.leb_le _ _) H1), (proj2 (Z.leb_le _ _) H2). reflexivity.
Qed.

Lemma payment_matches_in_bounds (due : date) (t : transaction) :
  start_date <= due <= end_date ->
  Overflow.payment_matches due t = Overflow.Completed (payment_matches due t).
Proof.
  intros Hdue. unfold Overflow.payment_matches, payment_matches.
  destruct (is_rent_payment t); [|reflexivity].
  rewrite !add_days_in_bounds by lia. simpl.
  replace (due + -9) with (due - 9) by lia.
  now destruct (due - 9 <=? tr_date t).
Qed.

Lemma search_payment_in_bounds (due : date) (l : list transaction) :
  start_date <= due <= end_date ->
  Overflow.search_payment due l
  = Overflow.Completed (option_map tr_date (List.find (payment_matches due) l)).
Proof.
  intros Hdue. induction l as [|t l IH]; [reflexivity|].
  simpl. rewrite payment_matches_in_bounds by exact Hdue.
  destruct (payment_matches due t); [reflexivity | exact IH].
Qed.

Lemma rent_item_in_bounds (transactions : gmap string (list transaction))
    (code : string) (r : option string) (f : bool) (due : date) :
  start_date <= due <= end_date ->
  Overflow.rent_item transactions code r f due
  = Overflow.Completed (rent_item transactions code r f due).
Proof.
  intros Hdue. unfold Overflow.rent_item, rent_item, Overflow.find_payment, find_payment.
  destruct (transactions !! code) as [l|]; [|reflexivity].
  rewrite search_payment_in_bounds by exact Hdue.
  now destruct (List.find (payment_matches due) l).
Qed.

Lemma rent_items_in_bounds (transactions : gmap string (list transaction))
    (last_ut_dates : gmap string date) (code : string) (r : option string) (f : bool)
    (dues : list date) :
  (forall due, In due dues -> start_date <= due <= end_date) ->
  Overflow.rent_items transactions last_ut_dates code r f dues
  = Overflow.Completed
      (map (fun due =>
              with_context
                (option_map tr_date (latest_transaction transactions code))
                (option_map tr_type (latest_transaction transactions code))
                (last_ut_dates !! code)
                (rent_item transactions code r f due)) dues).
Proof.
  induction dues as [|due dues IH]; intros Hdues; [reflexivity|].
  simpl. rewrite rent_item_in_bounds by (apply Hdues; now left).
  rewrite IH by (intros d Hd; apply Hdues; now right). reflexivity.
Qed.

Lemma due_dates_in_range_in_bounds (payment_day : Z) :
  Overflow.due_dates_in_range start_date end_date payment_day
  = Overflow.Completed (due_dates_in_range start_date end_date payment_day).
Proof.
  unfold Overflow.due_dates_in_range, due_dates_in_range.
  destruct (Z.leb_spec start_date end_date) as [Hle|Hgt].
  - rewrite add_days_in_bounds by lia. reflexivity.
  - unfold date_range. replace (Z.to_nat (end_date - start_date + 1)) with 0%nat by lia.
    reflexivity.
Qed.

Lemma process_row_in_bounds (set_order : date -> date -> bool)
    (transactions : gmap string (list transaction)) (last_ut_dates : gmap string date)
    (c : ap_columns) (new_list : list item) (row : list string) :
  Overflow.process_row set_order start_date end_date transactions last_ut_dates c
    new_list row
  = Overflow.Completed
      (process_row set_order start_date end_date transactions last_ut_dates c
         new_list row).
Proof.
  unfold Overflow.process_row, process_row.
  destruct (Py.getitem row (ap_code_col c)) as [code|]; [|reflexivity].
  destruct (negb (Py.truthy code)); [reflexivity|]. cbv zeta.
  destruct (already_checked_out transactions code); [reflexivity|].
  destruct (cell_date row (ap_start_col c) "%d-%m-%Y") as [contract_start_date|];
    [|reflexivity].
  rewrite due_dates_in_range_in_bounds.
  rewrite rent_items_in_bounds; [reflexivity|].
  intros due Hdue. unfold due_dates_in_range in Hdue.
  apply filter_In in Hdue. destruct Hdue as [Hdue _].
  now apply date_range_In in Hdue.
Qed.

Lemma derive_from_in_bounds (set_order : date -> date -> bool)
    (transactions : gmap string (list transaction)) (last_ut_dates : gmap string date)
    (c : ap_columns) (rows : list (list string)) (new_list : list item) :
  Overflow.derive_from set_order start_date end_date transactions last_ut_dates c
    new_list rows
  = Overflow.Completed
      (fold_left
         (process_row set_order start_date end_date transactions last_ut_dates c)
         rows new_list).
Proof.
  revert new_list. induction rows as [|row rows IH]; intros new_list; [reflexivity|].
  simpl. rewrite process_row_in_bounds. apply IH.
Qed.

Lemma generate_list_in_bounds (set_order : date -> date -> bool) (self : TodoManager) :
  Overflow.generate_list set_order self start_date end_date
  = Overflow.Completed (generate_list set_order self start_date end_date).
Proof.
  unfold Overflow.generate_list, generate_list, Overflow.derive, derive.
  destruct (read_sheets (all_data self)); [reflexivity|reflexivity|].
  rewrite derive_from_in_bounds. reflexivity.
Qed.

End InBounds.

(** Outside the bounds the call can end in [OverflowError].  In January
    of the year 1 a rent payment makes the program compute the date nine
    days before a due date that is less than nine days after [date.min];
    in December 9999 the day loop steps past [date.max]. *)
Example generate_list_overflows_out_of_bounds :
  Overflow.generate_list Scenario.end_first
    (Scenario.fresh
       (Scenario.sheets [["A1"; "05-01-2024"; ""; "Ann"; ""]] (Scenario.paid_on 0) []))
    (ymd2ord 1 1 1) (ymd2ord 1 1 31)
  = Overflow.OverflowError
  /\ Overflow.generate_list Scenario.end_first (Scenario.tenant_A1 [])
       (ymd2ord 9999 12 1) (ymd2ord 9999 12 31)
     = Overflow.OverflowError.
Proof. vm_compute. split; reflexivity. Qed.

(** X30.  For a window inside the bounds of the date arithmetic (it
    starts at least 9 days after [date.min] and ends at least 5 days
    before [date.max]), a call of [generate_list] does not end in
    [OverflowError], and it raises exactly when the three sheets are
    loaded, MO_DATA has its four columns, and UT_DATA lacks one of its
    two columns or APARTMENTS one of its five; the exception is the
    [ValueError] of the first lookup that fails.  A call that returns
    with a diagnostic leaves the manager as it was. *)
Theorem generate_list_raises_exactly (set_order : date -> date -> bool)
    (self : TodoManager) (start_date end_date : date) (e : exn) :
  date_min + 9 <= start_date ->
  end_date + 5 <= date_max ->
  Overflow.generate_list set_order self start_date end_date <> Overflow.OverflowError
  /\ (Overflow.generate_list set_order self start_date end_date
      = Overflow.Completed (Raised e)
      <-> exists apartments mo_data ut_data mo_cols,
            all_data self !! "APARTMENTS" = Some apartments
            /\ all_data self !! "MO_DATA" = Some mo_data
            /\ all_data self !! "UT_DATA" = Some ut_data
            /\ find_mo_columns (map (fun h => Py.upper (Py.strip h)) (header mo_data))
               = inr mo_cols
            /\ ((Py.index "Apartment Code" (header ut_data) = None
                 /\ e = not_in_list "'Apartment Code'")
                \/ (Py.index "Apartment Code" (header ut_data) <> None
                    /\ Py.index "Date of Reading" (header ut_data) = None
                    /\ e = not_in_list "'Date of Reading'")
                \/ (Py.index "Apartment Code" (header ut_data) <> None
                    /\ Py.index "Date of Reading" (header ut_data) <> None
                    /\ exists missing, find_ap_columns (header apartments) = inl missing
                                      /\ e = not_in_list ("'" ++ missing ++ "'"))))
  /\ (forall m d ds,
        Overflow.generate_list set_order self start_date end_date
        = Overflow.Completed (Returned (m, d :: ds)) ->
        m = self /\ ds = []).
Proof.
  intros Hstart Hend. rewrite (generate_list_in_bounds _ _ Hstart Hend).
  split; [discriminate|]. split.
  - rewrite <- read_sheets_failed. unfold generate_list.
    destruct (read_sheets (all_data self)); split; congruence.
  - intros m d ds. unfold generate_list.
    destruct (read_sheets (all_data self)); [|discriminate|discriminate].
    intros [= <- _ <-]. now split.
Qed.

Lemma generate_list_raises_exactly_witness :
  date_min + 9 <= Scenario.june_1
  /\ Scenario.june_30 + 5 <= date_max
  /\ Overflow.generate_list Scenario.end_first Scenario.ut_column_missing
       Scenario.june_1 Scenario.june_30
     = Overflow.Completed (Raised (not_in_list "'Apartment Code'")).
Proof.
  assert (H1 : date_min + 9 <= Scenario.june_1) by (vm_compute; discriminate).
  assert (H2 : Scenario.june_30 + 5 <= date_max) by (vm_compute; discriminate).
  split; [exact H1|]. split; [exact H2|].
  apply (proj1 (proj2 (generate_list_raises_exactly Scenario.end_first
                         Scenario.ut_column_missing Scenario.june_1 Scenario.june_30
                         (not_in_list "'Apartment Code'") H1 H2))).
  exists {| header := Scenario.AP_HEADER; data := [["A1"; "15-01-2024"; ""; "Ann"; ""]] |},
         {| header := Scenario.MO_HEADER; data := [] |},
         {| header := ["Date of Reading"]; data := [] |},
         Session.mo_cols.
  split; [vm_compute; reflexivity|]. split; [vm_compute; reflexivity|].
  split; [vm_compute; reflexivity|]. split; [vm_compute; reflexivity|].
  left. split; reflexivity.
Defined.
